(** * zookeeperjmx: a shallow embedding of the collectd ZooKeeper/JMX plugin

    The development follows [zookeeperjmx.py]: the Python values the plugin
    handles, the exceptions its statements can raise, the metric record
    [dict_jmx] (a Python dict mutated in place), the Jolokia client as an
    oracle, the extraction routines, the rate calculator with its
    [prev_data] store of shared dict objects, and the orchestrator
    [collect_jmx_data] with its result queue.

    Conventions.
    - Python [int]/[long] are [Z]; a Python [float] is modelled by the
      rational it denotes ([Q], kept in lowest terms), so binary rounding
      error, infinities and nan are outside the model.
    - A dict that the plugin itself builds and mutates is a [gmap string value];
      a dict decoded from the agent's JSON answer is a [VDict] association
      list whose order is the order [.items()] yields.
    - Code that raises returns [Raise e]; state changes made before the
      exception are kept, as in Python. *)

From Stdlib Require Import ZArith QArith Qround String Ascii List Lia.
From stdpp Require Import base option gmap strings list.

Local Open Scope Z_scope.

(** ** Python values *)

Set Warnings "-register-all".


Inductive value : Type :=
| VNone
| VBool (b : bool)
| VInt (n : Z)
| VFloat (x : Q)
| VStr (s : string)
| VList (l : list value)
| VDict (kvs : list (string * value)).

(** The exception classes the modelled statements raise.  [NotModelled] is
    not a Python exception: it marks the one operation whose Python 2 result
    the model does not define (ordering two containers). *)
Inductive exn : Type :=
| KeyError (k : string)
| IndexError
| TypeError
| AttributeError
| ZeroDivisionError
| ConnectionError
| QueueEmpty
| Exception_ (msg : string)
| NotModelled.

Inductive result (A : Type) : Type :=
| Ok (a : A)
| Raise (e : exn).
Arguments Ok {A} a.
Arguments Raise {A} e.

Definition result_bind {A B} (r : result A) (k : A -> result B) : result B :=
  match r with
  | Ok a => k a
  | Raise e => Raise e
  end.

(** ** Numbers *)

(** [bool] is a subclass of [int]: [True] counts as 1. *)
Definition as_int (v : value) : option Z :=
  match v with
  | VBool b => Some (Z.b2z b)
  | VInt n => Some n
  | _ => None
  end.

Definition as_num (v : value) : option Q :=
  match v with
  | VBool b => Some (inject_Z (Z.b2z b))
  | VInt n => Some (inject_Z n)
  | VFloat x => Some x
  | _ => None
  end.

Definition is_number (v : value) : bool :=
  match as_num v with Some _ => true | None => false end.

(** [a - b] *)
Definition py_sub (a b : value) : result value :=
  match as_int a, as_int b with
  | Some x, Some y => Ok (VInt (x - y))
  | _, _ =>
      match as_num a, as_num b with
      | Some x, Some y => Ok (VFloat (Qred (x - y)))
      | _, _ => Raise TypeError
      end
  end.

(** [a / y] for a float [y] *)
Definition py_div_float (a : value) (y : Q) : result value :=
  match as_num a with
  | Some x => if Qeq_bool y 0 then Raise ZeroDivisionError
              else Ok (VFloat (Qred (x / y)))
  | None => Raise TypeError
  end.

(** [a * y] for a float [y] (a sequence times a float is a TypeError too) *)
Definition py_mul_float (a : value) (y : Q) : result value :=
  match as_num a with
  | Some x => Ok (VFloat (Qred (x * y)))
  | None => Raise TypeError
  end.

(** Python 2 rounds half away from zero. *)
Definition round_half_away (x : Q) : Z :=
  if Qle_bool 0 x then Qfloor (x + (1 # 2)) else - Qfloor (- x + (1 # 2)).

Definition pow10 (n : Z) : Q := inject_Z (10 ^ n).

Definition round_q (x : Q) (ndigits : Z) : Q :=
  if 0 <=? ndigits
  then Qred (inject_Z (round_half_away (x * pow10 ndigits)) / pow10 ndigits)
  else Qred (inject_Z (round_half_away (x / pow10 (- ndigits))) * pow10 (- ndigits)).

(** [round(v, ndigits)]: always a float *)
Definition py_round (v : value) (ndigits : Z) : result value :=
  match as_num v with
  | Some x => Ok (VFloat (round_q x ndigits))
  | None => Raise TypeError
  end.

(** [round(v / 1024.0 / 1024.0, 2)] *)
Definition bytes_to_mb (v : value) : result value :=
  result_bind (py_div_float v 1024) (fun a =>
  result_bind (py_div_float a 1024) (fun b =>
  py_round b 2)).

(** [round(v * 0.001, 2)] *)
Definition millis_to_sec (v : value) : result value :=
  result_bind (py_mul_float v (1 # 1000)) (fun a => py_round a 2).

(** [round(v / 1000000000.0, 2)] *)
Definition nanos_to_sec (v : value) : result value :=
  result_bind (py_div_float v 1000000000) (fun a => py_round a 2).

(** ** Equality, ordering, truth *)

Definition assoc (k : string) (kvs : list (string * value)) : option value :=
  snd <$> List.find (fun kv => String.eqb (fst kv) k) kvs.

(** [a == b].  Numbers compare by value across [bool], [int] and [float]. *)
Fixpoint py_eq (a b : value) {struct a} : bool :=
  match a, b with
  | VList la, VList lb =>
      (fix go (la lb : list value) : bool :=
         match la, lb with
         | [], [] => true
         | x :: la', y :: lb' => py_eq x y && go la' lb'
         | _, _ => false
         end) la lb
  | VDict da, VDict db =>
      Nat.eqb (length da) (length db) &&
      (fix go (da : list (string * value)) : bool :=
         match da with
         | [] => true
         | (k, v) :: da' =>
             match assoc k db with
             | Some w => py_eq v w
             | None => false
             end && go da'
         end) da
  | VNone, VNone => true
  | VStr s, VStr t => String.eqb s t
  | _, _ =>
      match as_num a, as_num b with
      | Some x, Some y => Qeq_bool x y
      | _, _ => false
      end
  end.

(** Python 2 orders values of different kinds: [None] first, then the
    numbers, then the other types by type name (dict, list, str). *)
Definition type_rank (v : value) : Z :=
  match v with
  | VNone => 0
  | VBool _ | VInt _ | VFloat _ => 1
  | VDict _ => 2
  | VList _ => 3
  | VStr _ => 4
  end.

Definition py_cmp (a b : value) : result comparison :=
  match as_num a, as_num b with
  | Some x, Some y => Ok (x ?= y)%Q
  | _, _ =>
      match a, b with
      | VStr s, VStr t => Ok (String.compare s t)
      | VNone, VNone => Ok Eq
      | VList _, VList _ | VDict _, VDict _ => Raise NotModelled
      | _, _ => Ok (type_rank a ?= type_rank b)
      end
  end.

(** [a <= b], [a < b], [a >= b] *)
Definition py_le (a b : value) : result bool :=
  result_bind (py_cmp a b) (fun c =>
    Ok (match c with Gt => false | _ => true end)).
Definition py_lt (a b : value) : result bool :=
  result_bind (py_cmp a b) (fun c =>
    Ok (match c with Lt => true | _ => false end)).
Definition py_ge (a b : value) : result bool :=
  result_bind (py_cmp a b) (fun c =>
    Ok (match c with Lt => false | _ => true end)).

(** [bool(v)], as [if v:] evaluates it *)
Definition truthy (v : value) : bool :=
  match v with
  | VNone => false
  | VBool b => b
  | VInt n => negb (n =? 0)
  | VFloat x => negb (Qeq_bool x 0)
  | VStr s => negb (String.eqb s "")
  | VList l => match l with [] => false | _ => true end
  | VDict d => match d with [] => false | _ => true end
  end.

(** [v[k]] for a string key *)
Definition py_getitem (v : value) (k : string) : result value :=
  match v with
  | VDict kvs =>
      match assoc k kvs with
      | Some w => Ok w
      | None => Raise (KeyError k)
      end
  | _ => Raise TypeError
  end.

(** [v.items()] *)
Definition py_items (v : value) : result (list (string * value)) :=
  match v with
  | VDict kvs => Ok kvs
  | _ => Raise AttributeError
  end.

(** [v in names] for a list of string literals: the string itself when found *)
Definition in_names (v : value) (names : list string) : option string :=
  match v with
  | VStr s => if existsb (String.eqb s) names then Some s else None
  | _ => None
  end.

(** ** Strings *)

Definition is_space (c : ascii) : bool :=
  let n := N_of_ascii c in
  (N.eqb n 32 || (N.leb 9 n && N.leb n 13))%N.

Definition is_digit (c : ascii) : bool :=
  let n := N_of_ascii c in (N.leb 48 n && N.leb n 57)%N.

Definition snoc (s : string) (c : ascii) : string := s +:+ String c EmptyString.

(** [''.join(s.split())] *)
Fixpoint no_spaces (s : string) : string :=
  match s with
  | EmptyString => EmptyString
  | String c s' => if is_space c then no_spaces s' else String c (no_spaces s')
  end.

(** [s.split()]: the maximal runs of non-blank characters; [cur] is the run
    being read. *)
Fixpoint split_ws_from (s cur : string) : list string :=
  match s with
  | EmptyString => if String.eqb cur "" then [] else [cur]
  | String c s' =>
      if is_space c
      then (if String.eqb cur "" then split_ws_from s' ""
            else cur :: split_ws_from s' "")
      else split_ws_from s' (snoc cur c)
  end.
Definition split_ws (s : string) : list string := split_ws_from s "".

(** [s.split(sep)] for a one-character separator *)
Fixpoint split_char_from (sep : ascii) (s cur : string) : list string :=
  match s with
  | EmptyString => [cur]
  | String c s' =>
      if Ascii.eqb c sep then cur :: split_char_from sep s' ""
      else split_char_from sep s' (snoc cur c)
  end.
Definition split_char (sep : ascii) (s : string) : list string :=
  split_char_from sep s "".

(** [s.splitlines()] of a byte string: lines end at LF, CR or CR LF. *)
Fixpoint splitlines_from (s cur : string) : list string :=
  match s with
  | EmptyString => if String.eqb cur "" then [] else [cur]
  | String c s' =>
      if Ascii.eqb c "010" then cur :: splitlines_from s' ""
      else if Ascii.eqb c "013" then
        match s' with
        | String d s'' =>
            if Ascii.eqb d "010" then cur :: splitlines_from s'' ""
            else cur :: splitlines_from s' ""
        | EmptyString => [cur]
        end
      else splitlines_from s' (snoc cur c)
  end.
Definition splitlines (s : string) : list string := splitlines_from s "".

(** [re.findall('\d+', s)]: the maximal runs of digits *)
Fixpoint findall_digits_from (s cur : string) : list string :=
  match s with
  | EmptyString => if String.eqb cur "" then [] else [cur]
  | String c s' =>
      if is_digit c then findall_digits_from s' (snoc cur c)
      else (if String.eqb cur "" then findall_digits_from s' ""
            else cur :: findall_digits_from s' "")
  end.
Definition findall_digits (s : string) : list string := findall_digits_from s "".

(** [l[i]] on a list *)
Definition py_index {A} (l : list A) (i : nat) : result A :=
  match l !! i with
  | Some a => Ok a
  | None => Raise IndexError
  end.

(** ** Constants imported from [constants.py]

    [from constants import *] brings in names whose values are not part of
    this file's source; they are taken as parameters. *)
Class Constants := {
  NAN : value;
  TIMESTAMP : string;
  PLUGIN : string;
  PLUGINTYPE : string;
  ACTUALPLUGINTYPE : string;
  PLUGIN_INS : string;
  ZOOK_JMX : value;
  FLOATING_FACTOR : Z;
  DEFAULT_INTERVAL : Q
}.

Definition GENERIC_DOCS : list string :=
  ["memoryPoolStats"; "memoryStats"; "threadStats"; "gcStats"; "classLoadingStats";
   "compilationStats"; "nioStats"; "operatingSysStats"].
Definition ZOOK_DOCS : list string := ["jmxStats"; "zookeeperStats"].
Definition DEFAULT_GC : list string := ["G1 Old Generation"; "G1 Young Generation"].
Definition DEFAULT_MP : list string :=
  ["G1 Eden Space"; "G1 Old Gen"; "G1 Survivor Space"; "Metaspace"; "Code Cache";
   "Compressed Class Space"].

(** ** Log lines

    One constructor per [collectd.error], [collectd.info] or
    [collectd.debug] call of the source, with the values it formats. *)
Inductive level : Type := LError | LInfo | LDebug.

Inductive message : Type :=
| MsgNotRoot
| MsgPidError (err : string)
| MsgUidError (pid err : string)
| MsgStartFailed (pid err : string)
| MsgStarted (pid : string)
| MsgAlreadyRunning (pid : string)
| MsgKeyNotInPrevious (key : string)
| MsgTimeNotIncreasing (curr_time prev_time : value)
| MsgPoolNotSupported (name : value)
| MsgGcNotSupported (name : value)
| MsgCommonAdded
| MsgDocAdded (doc pid : string)
| MsgDocError (doc : string) (err : exn)
| MsgNoProcess
| MsgLostResult
| MsgSent (doc : string)
| MsgValues (record : gmap string value).

Definition log_entry : Type := level * message.

(** ** State and exceptions

    A statement sequence over a mutable state [S] that may raise. *)
Definition M (S A : Type) : Type := S -> result A * S.

Definition ret {S A} (a : A) : M S A := fun s => (Ok a, s).
Definition raise {S A} (e : exn) : M S A := fun s => (Raise e, s).
Definition bind {S A B} (m : M S A) (k : A -> M S B) : M S B :=
  fun s => match m s with
           | (Ok a, s') => k a s'
           | (Raise e, s') => (Raise e, s')
           end.
Definition lift {S A} (r : result A) : M S A := fun s => (r, s).
Definition get_state {S} : M S S := fun s => (Ok s, s).
Definition modify {S} (f : S -> S) : M S unit := fun s => (Ok tt, f s).

(** [try: m  except Exception as e: h e] *)
Definition try_except {S A} (m : M S A) (h : exn -> M S A) : M S A :=
  fun s => match m s with
           | (Ok a, s') => (Ok a, s')
           | (Raise e, s') => h e s'
           end.

Declare Scope py_scope.
Delimit Scope py_scope with py.
Notation "x <- m ;; k" := (bind m (fun x => k))
  (at level 100, m at next level, right associativity) : py_scope.
Notation "m ;; k" := (bind m (fun _ => k))
  (at level 100, right associativity) : py_scope.
Notation "'when' b 'then' m" := (if b then m else ret tt)
  (at level 100, b at next level, right associativity) : py_scope.
Local Open Scope py_scope.

(** [for x in l: body x] *)
Fixpoint for_each {S A} (l : list A) (body : A -> M S unit) : M S unit :=
  match l with
  | [] => ret tt
  | x :: l' => body x ;; for_each l' body
  end.

(** ** The Jolokia client

    [jolokiaclient.request(type=..., mbean=..., attribute=..., operation=...)]
    answers with a decoded JSON object, or raises.  The agent is outside the
    program: the [n]-th request of an extraction gets the answer the oracle
    gives for [n] and the request. *)
Inductive request_type : Type := Read | Exec.

Record request : Type := Request {
  req_type : request_type;
  req_mbean : string;
  req_attribute : option string;
  req_operation : option string
}.

Definition read_mbean (mbean : string) : request := Request Read mbean None None.
Definition read_attr (mbean attribute : string) : request :=
  Request Read mbean (Some attribute) None.
Definition exec_op (mbean operation : string) : request :=
  Request Exec mbean None (Some operation).

Definition client : Type := nat -> request -> result value.

(** The state of one extraction: the record being filled, the number of
    requests made so far, and the lines logged. *)
Record xstate : Type := XState {
  dict_jmx : gmap string value;
  calls : nat;
  xlog : list log_entry
}.

Definition jrequest (j : client) (r : request) : M xstate value :=
  fun s => (j (calls s) r, XState (dict_jmx s) (S (calls s)) (xlog s)).

(** [dict_jmx[k] = v] *)
Definition setitem (k : string) (v : value) : M xstate unit :=
  modify (fun s => XState (<[k := v]> (dict_jmx s)) (calls s) (xlog s)).

Definition xlog_add (l : level) (m : message) : M xstate unit :=
  modify (fun s => XState (dict_jmx s) (calls s) (xlog s ++ [(l, m)])).

(** [dict_jmx[k] = e] where evaluating [e] may raise *)
Definition store (k : string) (e : result value) : M xstate unit :=
  v <- lift e ;; setitem k v.

(** [json['status'] == 200] *)
Definition status_ok (json : value) : M xstate bool :=
  st <- lift (py_getitem json "status") ;; ret (py_eq st (VInt 200)).

(** [json['value'][k]] and [json['value'][k1][k2]] *)
Definition jvalue (json : value) (k : string) : result value :=
  result_bind (py_getitem json "value") (fun v => py_getitem v k).
Definition jvalue2 (json : value) (k1 k2 : string) : result value :=
  result_bind (jvalue json k1) (fun v => py_getitem v k2).

(** [valid['status'] == 200 and valid['value'] == True] *)
Definition is_valid (valid : value) : M xstate bool :=
  ok <- status_ok valid ;;
  if ok then v <- lift (py_getitem valid "value") ;; ret (py_eq v (VBool true))
  else ret false.

(** [prefix + v]: concatenation with a [str] literal needs a string *)
Definition str_concat (prefix : string) (v : value) : result string :=
  match v with
  | VStr s => Ok (prefix +:+ s)
  | _ => Raise TypeError
  end.

(** ** Unit conversion helper *)

Definition handle_neg_bytes (v : value) (resultkey : string) : M xstate unit :=
  if py_eq v (VInt (-1)) then setitem resultkey v
  else store resultkey (bytes_to_mb v).

(** ** Name discovery *)

Fixpoint collect_names (allow : list string) (unsupported : value -> message)
    (items : list (string * value)) : M xstate (list string) :=
  match items with
  | [] => ret []
  | (_, v) :: rest =>
      name <- lift (py_getitem v "Name") ;;
      match in_names name allow with
      | Some s => names <- collect_names allow unsupported rest ;; ret (s :: names)
      | None =>
          xlog_add LError (unsupported name) ;;
          collect_names allow unsupported rest
      end
  end.

Definition get_memory_pool_names (j : client) : M xstate (list string) :=
  mempool_json <- jrequest j (read_attr "java.lang:type=MemoryPool,*" "Name") ;;
  ok <- status_ok mempool_json ;;
  if ok then
    items <- lift (result_bind (py_getitem mempool_json "value") py_items) ;;
    collect_names DEFAULT_MP MsgPoolNotSupported items
  else ret [].

Definition get_gc_names (j : client) : M xstate (list string) :=
  gc_json <- jrequest j (read_attr "java.lang:type=GarbageCollector,*" "Name") ;;
  ok <- status_ok gc_json ;;
  if ok then
    items <- lift (result_bind (py_getitem gc_json "value") py_items) ;;
    collect_names DEFAULT_GC MsgGcNotSupported items
  else ret [].

(** ** Extraction routines *)

(** The body of [for gc_name in gc_names] in [add_jmxstats_parameters] *)
Definition jmxstats_gc (j : client) (gc_name : string) : M xstate unit :=
  let str_mbean := "java.lang:type=GarbageCollector,name=" +:+ gc_name in
  valid <- jrequest j (read_attr str_mbean "Valid") ;;
  ok <- is_valid valid ;;
  when ok then
    gc_values <- jrequest j (read_attr str_mbean "CollectionTime,CollectionCount") ;;
    let gc_name_no_spaces := no_spaces gc_name in
    ok' <- status_ok gc_values ;;
    when ok' then
      store (gc_name_no_spaces +:+ "CollectionTime")
            (result_bind (jvalue gc_values "CollectionTime") millis_to_sec) ;;
      store (gc_name_no_spaces +:+ "CollectionCount")
            (jvalue gc_values "CollectionCount").

(** The body of [for pool_name in mp_names] in [add_jmxstats_parameters] *)
Definition jmxstats_pool (j : client) (pool_name : string) : M xstate unit :=
  let str_mbean := "java.lang:type=MemoryPool,name=" +:+ pool_name in
  valid <- jrequest j (read_attr str_mbean "Valid") ;;
  ok <- is_valid valid ;;
  when ok then
    mp_values <- jrequest j (read_attr str_mbean "Usage") ;;
    let pool_name_no_spaces := no_spaces pool_name in
    ok' <- status_ok mp_values ;;
    when ok' then
      store (pool_name_no_spaces +:+ "UsageUsed")
            (result_bind (jvalue mp_values "used") bytes_to_mb).

Definition param_list : list string :=
  ["G1OldGenerationCollectionTime"; "G1OldGenerationCollectionCount";
   "G1YoungGenerationCollectionTime"; "G1YoungGenerationCollectionCount";
   "G1OldGenUsageUsed"; "G1SurvivorSpaceUsageUsed"; "MetaspaceUsageUsed";
   "CodeCacheUsageUsed"; "CompressedClassSpaceUsageUsed"; "G1EdenSpaceUsageUsed"].

(** The statements of [add_jmxstats_parameters] up to the defaults *)
Definition jmxstats_head (j : client) : M xstate unit :=
  classloading <- jrequest j (read_mbean "java.lang:type=ClassLoading") ;;
  ok <- status_ok classloading ;;
  (when ok then
     store "unloadedClass" (jvalue classloading "UnloadedClassCount") ;;
     store "loadedClass" (jvalue classloading "LoadedClassCount")) ;;
  thread_json <- jrequest j (read_mbean "java.lang:type=Threading") ;;
  ok <- status_ok thread_json ;;
  (when ok then store "threads" (jvalue thread_json "ThreadCount")) ;;
  memory_json <- jrequest j (read_mbean "java.lang:type=Memory") ;;
  ok <- status_ok memory_json ;;
  (when ok then
     heap <- lift (jvalue memory_json "HeapMemoryUsage") ;;
     init <- lift (py_getitem heap "init") ;;
     handle_neg_bytes init "heapMemoryUsageInit" ;;
     store "heapMemoryUsageUsed" (result_bind (py_getitem heap "used") bytes_to_mb) ;;
     store "heapMemoryUsageCommitted" (result_bind (py_getitem heap "committed") bytes_to_mb) ;;
     non_heap <- lift (jvalue memory_json "NonHeapMemoryUsage") ;;
     init <- lift (py_getitem non_heap "init") ;;
     handle_neg_bytes init "nonHeapMemoryUsageInit" ;;
     store "nonHeapMemoryUsageUsed" (result_bind (py_getitem non_heap "used") bytes_to_mb) ;;
     store "nonHeapMemoryUsageCommitted"
           (result_bind (py_getitem non_heap "committed") bytes_to_mb)).

(** [for param in param_list: dict_jmx[param] = 0] *)
Definition jmxstats_defaults : M xstate unit :=
  for_each param_list (fun param => setitem param (VInt 0)).

Definition add_jmxstats_parameters (j : client) : M xstate unit :=
  jmxstats_head j ;;
  jmxstats_defaults ;;
  gc_names <- get_gc_names j ;;
  for_each gc_names (jmxstats_gc j) ;;
  mp_names <- get_memory_pool_names j ;;
  for_each mp_names (jmxstats_pool j).

(** [self.port] is the configured ZooKeeper client port ([zk_port]). *)
Definition add_zookeeper_parameters (zk_port : value) (j : client) : M xstate unit :=
  mbean <- lift (str_concat "org.apache.ZooKeeperService:name0=StandaloneServer_port" zk_port) ;;
  zookper <- jrequest j (read_mbean mbean) ;;
  ok <- status_ok zookper ;;
  (when ok then
     store "avgRequestLatency" (result_bind (jvalue zookper "AvgRequestLatency") millis_to_sec) ;;
     store "maxSessionTimeout" (result_bind (jvalue zookper "MaxSessionTimeout") millis_to_sec) ;;
     store "minSessionTimeout" (result_bind (jvalue zookper "MinSessionTimeout") millis_to_sec) ;;
     store "maxClientCnxnsPerHost" (jvalue zookper "MaxClientCnxnsPerHost") ;;
     store "numAliveConnections" (jvalue zookper "NumAliveConnections") ;;
     store "outstandingRequests" (jvalue zookper "OutstandingRequests") ;;
     store "packetsReceived" (jvalue zookper "PacketsReceived") ;;
     store "packetsSent" (jvalue zookper "PacketsSent") ;;
     store "zookeeperVersion" (jvalue zookper "Version")) ;;
  let mbean_memory := mbean +:+ ",name1=InMemoryDataTree" in
  zookper_count <- jrequest j (read_mbean mbean_memory) ;;
  ok <- status_ok zookper_count ;;
  (when ok then
     store "nodeCount" (jvalue zookper_count "NodeCount") ;;
     store "watchCount" (jvalue zookper_count "WatchCount")) ;;
  zookper_ephemerals <- jrequest j (exec_op mbean_memory "countEphemerals") ;;
  ok <- status_ok zookper_ephemerals ;;
  (when ok then store "countEphemerals" (py_getitem zookper_ephemerals "value")) ;;
  zookper_datasize <- jrequest j (exec_op mbean_memory "countEphemerals") ;;
  ok <- status_ok zookper_datasize ;;
  when ok then
    store "approximateDataSize"
          (result_bind (py_getitem zookper_datasize "value") bytes_to_mb).

Definition add_operating_system_parameters (j : client) : M xstate unit :=
  ops <- jrequest j (read_mbean "java.lang:type=OperatingSystem") ;;
  ok <- status_ok ops ;;
  when ok then
    store "osArchitecture" (jvalue ops "Arch") ;;
    store "availableProcessors" (jvalue ops "AvailableProcessors") ;;
    committed <- lift (jvalue ops "CommittedVirtualMemorySize") ;;
    handle_neg_bytes committed "committedVirtualMemorySize" ;;
    store "freePhysicalMemorySize" (result_bind (jvalue ops "FreePhysicalMemorySize") bytes_to_mb) ;;
    store "freeSwapSpaceSize" (result_bind (jvalue ops "FreeSwapSpaceSize") bytes_to_mb) ;;
    store "maxFileDescriptors" (jvalue ops "MaxFileDescriptorCount") ;;
    store "osName" (jvalue ops "Name") ;;
    store "openFileDescriptors" (jvalue ops "OpenFileDescriptorCount") ;;
    store "processCpuLoad" (jvalue ops "ProcessCpuLoad") ;;
    pcputime <- lift (jvalue ops "ProcessCpuTime") ;;
    nonneg <- lift (py_ge pcputime (VInt 0)) ;;
    pcputime <- (if nonneg then lift (nanos_to_sec pcputime) else ret pcputime) ;;
    setitem "processCpuTime" pcputime ;;
    store "totalPhysicalMemorySize" (result_bind (jvalue ops "TotalPhysicalMemorySize") bytes_to_mb) ;;
    store "totalSwapSpaceSize" (result_bind (jvalue ops "TotalSwapSpaceSize") bytes_to_mb) ;;
    store "osVersion" (jvalue ops "Version") ;;
    store "systemCpuLoad" (jvalue ops "SystemCpuLoad") ;;
    store "systemLoadAverage" (jvalue ops "SystemLoadAverage").

Fixpoint nio_names (items : list (string * value)) : result (list value) :=
  match items with
  | [] => Ok []
  | (_, v) :: rest =>
      result_bind (py_getitem v "Name") (fun name =>
      result_bind (nio_names rest) (fun names => Ok (name :: names)))
  end.

Definition nio_pool (j : client) (poolname : value) : M xstate unit :=
  str_mbean <- lift (str_concat "java.nio:type=BufferPool,name=" poolname) ;;
  poolinfo <- jrequest j (read_mbean str_mbean) ;;
  ok <- status_ok poolinfo ;;
  when ok then
    p <- lift (str_concat "" poolname) ;;
    store (p +:+ "BufferPoolCount") (jvalue poolinfo "Count") ;;
    used <- lift (jvalue poolinfo "MemoryUsed") ;;
    handle_neg_bytes used (p +:+ "BufferPoolMemoryUsed") ;;
    capacity <- lift (jvalue poolinfo "TotalCapacity") ;;
    handle_neg_bytes capacity (p +:+ "BufferPoolTotalCapacity").

Definition add_nio_parameters (j : client) : M xstate unit :=
  nio <- jrequest j (read_attr "java.nio:type=BufferPool,*" "Name") ;;
  ok <- status_ok nio ;;
  bufferpool_names <-
    (if ok then lift (result_bind (result_bind (py_getitem nio "value") py_items) nio_names)
     else ret []) ;;
  for_each bufferpool_names (nio_pool j).

Definition add_compilation_parameters (j : client) : M xstate unit :=
  compilation <- jrequest j (read_mbean "java.lang:type=Compilation") ;;
  ok <- status_ok compilation ;;
  when ok then
    store "compilerName" (jvalue compilation "Name") ;;
    store "totalCompilationTime"
          (result_bind (jvalue compilation "TotalCompilationTime") millis_to_sec).

Definition add_classloading_parameters (j : client) : M xstate unit :=
  classloading <- jrequest j (read_mbean "java.lang:type=ClassLoading") ;;
  ok <- status_ok classloading ;;
  when ok then
    store "unloadedClass" (jvalue classloading "UnloadedClassCount") ;;
    store "loadedClass" (jvalue classloading "LoadedClassCount") ;;
    store "totalLoadedClass" (jvalue classloading "TotalLoadedClassCount").

(** The body of [for name, values in mempool_gc.items()] in the local
    function [memory_gc_usage] of [add_gc_parameters] *)
Definition memory_gc_entry (key gc_name : string) (entry : string * value) : M xstate unit :=
  let (name, values) := entry in
  when existsb (String.eqb name) ["G1 Eden Space"; "G1 Old Gen"] then
    let mp_name := no_spaces name in
    init <- lift (py_getitem values "init") ;;
    handle_neg_bytes init (gc_name +:+ key +:+ mp_name +:+ "Init") ;;
    max <- lift (py_getitem values "max") ;;
    handle_neg_bytes max (gc_name +:+ key +:+ mp_name +:+ "Max") ;;
    store (gc_name +:+ key +:+ mp_name +:+ "Used")
          (result_bind (py_getitem values "used") bytes_to_mb) ;;
    store (gc_name +:+ key +:+ mp_name +:+ "Committed")
          (result_bind (py_getitem values "committed") bytes_to_mb).

Definition memory_gc_usage (mempool_gc : value) (key gc_name : string) : M xstate unit :=
  items <- lift (py_items mempool_gc) ;;
  for_each items (memory_gc_entry key gc_name).

(** The body of [for gc_name in gc_names] in [add_gc_parameters] *)
Definition gc_collector (j : client) (gc_name : string) : M xstate unit :=
  let str_mbean := "java.lang:type=GarbageCollector,name=" +:+ gc_name in
  if_valid <- jrequest j (read_attr str_mbean "Valid") ;;
  ok <- is_valid if_valid ;;
  when ok then
    gc_values <- jrequest j (read_attr str_mbean "CollectionTime,CollectionCount,LastGcInfo") ;;
    let gc_name_no_spaces := no_spaces gc_name in
    ok' <- status_ok gc_values ;;
    when ok' then
      store (gc_name_no_spaces +:+ "CollectionTime")
            (result_bind (jvalue gc_values "CollectionTime") millis_to_sec) ;;
      store (gc_name_no_spaces +:+ "CollectionCount") (jvalue gc_values "CollectionCount") ;;
      last <- lift (jvalue gc_values "LastGcInfo") ;;
      when truthy last then
        store (gc_name_no_spaces +:+ "GcThreadCount") (py_getitem last "GcThreadCount") ;;
        store (gc_name_no_spaces +:+ "StartTime")
              (result_bind (py_getitem last "startTime") millis_to_sec) ;;
        store (gc_name_no_spaces +:+ "EndTime")
              (result_bind (py_getitem last "endTime") millis_to_sec) ;;
        store (gc_name_no_spaces +:+ "Duration")
              (result_bind (py_getitem last "duration") millis_to_sec) ;;
        mem_aftergc <- lift (py_getitem last "memoryUsageAfterGc") ;;
        memory_gc_usage mem_aftergc "MemUsageAfGc" gc_name_no_spaces ;;
        mem_beforegc <- lift (py_getitem last "memoryUsageBeforeGc") ;;
        memory_gc_usage mem_beforegc "MemUsageBfGc" gc_name_no_spaces.

Definition add_gc_parameters (j : client) : M xstate unit :=
  gc_names <- get_gc_names j ;;
  for_each gc_names (gc_collector j).

Definition add_threading_parameters (j : client) : M xstate unit :=
  thread_json <- jrequest j (read_mbean "java.lang:type=Threading") ;;
  ok <- status_ok thread_json ;;
  when ok then
    store "threads" (jvalue thread_json "ThreadCount") ;;
    store "peakThreads" (jvalue thread_json "PeakThreadCount") ;;
    store "daemonThreads" (jvalue thread_json "DaemonThreadCount") ;;
    store "totalStartedThreads" (jvalue thread_json "TotalStartedThreadCount") ;;
    supported <- lift (jvalue thread_json "CurrentThreadCpuTimeSupported") ;;
    when truthy supported then
      store "currentThreadCpuTime"
            (result_bind (jvalue thread_json "CurrentThreadCpuTime") nanos_to_sec) ;;
      store "currentThreadUserTime"
            (result_bind (jvalue thread_json "CurrentThreadUserTime") nanos_to_sec).

Definition add_memory_parameters (j : client) : M xstate unit :=
  memory_json <- jrequest j (read_mbean "java.lang:type=Memory") ;;
  ok <- status_ok memory_json ;;
  when ok then
    heap <- lift (jvalue memory_json "HeapMemoryUsage") ;;
    init <- lift (py_getitem heap "init") ;;
    handle_neg_bytes init "heapMemoryUsageInit" ;;
    max <- lift (py_getitem heap "max") ;;
    handle_neg_bytes max "heapMemoryUsageMax" ;;
    store "heapMemoryUsageUsed" (result_bind (py_getitem heap "used") bytes_to_mb) ;;
    store "heapMemoryUsageCommitted" (result_bind (py_getitem heap "committed") bytes_to_mb) ;;
    non_heap <- lift (jvalue memory_json "NonHeapMemoryUsage") ;;
    init <- lift (py_getitem non_heap "init") ;;
    handle_neg_bytes init "nonHeapMemoryUsageInit" ;;
    max <- lift (py_getitem non_heap "max") ;;
    handle_neg_bytes max "nonHeapMemoryUsageMax" ;;
    store "nonHeapMemoryUsageUsed" (result_bind (py_getitem non_heap "used") bytes_to_mb) ;;
    store "nonHeapMemoryUsageCommitted"
          (result_bind (py_getitem non_heap "committed") bytes_to_mb) ;;
    store "objectPendingFinalization" (jvalue memory_json "ObjectPendingFinalizationCount").

(** The four stores made for one [MemoryUsage] object ([usage['max']],
    [usage['init']], [usage['used']], [usage['committed']]) under the key
    prefix [p] *)
Definition pool_usage (usage : value) (p : string) : M xstate unit :=
  max <- lift (py_getitem usage "max") ;;
  handle_neg_bytes max (p +:+ "Max") ;;
  init <- lift (py_getitem usage "init") ;;
  handle_neg_bytes init (p +:+ "Init") ;;
  store (p +:+ "Used") (result_bind (py_getitem usage "used") bytes_to_mb) ;;
  store (p +:+ "Committed") (result_bind (py_getitem usage "committed") bytes_to_mb).

(** The body of [for pool_name in mp_names] in [add_memory_pool_parameters] *)
Definition memory_pool (j : client) (pool_name : string) : M xstate unit :=
  let str_mbean := "java.lang:type=MemoryPool,name=" +:+ pool_name in
  if_valid <- jrequest j (read_attr str_mbean "Valid") ;;
  ok <- is_valid if_valid ;;
  when ok then
    mp_values <- jrequest j (read_attr str_mbean
      "CollectionUsage,PeakUsage,Type,Usage,CollectionUsageThresholdSupported,UsageThresholdSupported") ;;
    let pool_name_no_spaces := no_spaces pool_name in
    ok' <- status_ok mp_values ;;
    when ok' then
      coll_usage <- lift (jvalue mp_values "CollectionUsage") ;;
      (when truthy coll_usage then
         pool_usage coll_usage (pool_name_no_spaces +:+ "CollectionUsage")) ;;
      usage <- lift (jvalue mp_values "Usage") ;;
      pool_usage usage (pool_name_no_spaces +:+ "Usage") ;;
      peak_usage <- lift (jvalue mp_values "PeakUsage") ;;
      pool_usage peak_usage (pool_name_no_spaces +:+ "PeakUsage") ;;
      coll_supported <- lift (jvalue mp_values "CollectionUsageThresholdSupported") ;;
      (when truthy coll_supported then
         coll_threshold <- jrequest j (read_attr str_mbean
           "CollectionUsageThreshold,CollectionUsageThresholdCount,CollectionUsageThresholdExceeded") ;;
         ok'' <- status_ok coll_threshold ;;
         when ok'' then
           store (pool_name_no_spaces +:+ "CollectionUsageThreshold")
                 (result_bind (jvalue coll_threshold "CollectionUsageThreshold") bytes_to_mb) ;;
           store (pool_name_no_spaces +:+ "CollectionUsageThresholdCount")
                 (jvalue coll_threshold "CollectionUsageThreshold") ;;
           store (pool_name_no_spaces +:+ "CollectionUsageThresholdExceeded")
                 (jvalue coll_threshold "CollectionUsageThresholdExceeded")) ;;
      usage_supported <- lift (jvalue mp_values "UsageThresholdSupported") ;;
      when truthy usage_supported then
        usage_threshold <- jrequest j (read_attr str_mbean
          "UsageThreshold,UsageThresholdCount,UsageThresholdExceeded") ;;
        ok'' <- status_ok usage_threshold ;;
        when ok'' then
          store (pool_name_no_spaces +:+ "UsageThreshold")
                (result_bind (jvalue usage_threshold "UsageThreshold") bytes_to_mb) ;;
          store (pool_name_no_spaces +:+ "UsageThresholdCount")
                (jvalue usage_threshold "UsageThreshold") ;;
          store (pool_name_no_spaces +:+ "UsageThresholdExceeded")
                (jvalue usage_threshold "UsageThresholdExceeded").

Definition add_memory_pool_parameters (j : client) : M xstate unit :=
  mp_names <- get_memory_pool_names j ;;
  for_each mp_names (memory_pool j).

(** ** One worker: the categories of one process *)

(** What a worker meets outside the program: the answer of the agent's
    version endpoint ([requests.get], a status code or an exception), the
    agent's answers to the requests of one category's extraction, and the
    clock read by [add_common_params] ([int(round(time.time()))]). *)
Record agent : Type := Agent {
  version_probe : string -> result Z;
  answers : string -> client;
  clock : string -> Z
}.

Definition connection_available (probe : result Z) : M xstate bool :=
  match probe with
  | Ok status_code => ret (status_code =? 200)
  | Raise ConnectionError => ret false
  | Raise e => raise e
  end.

Definition get_jmx_parameters (a : agent) (zk_port : value) (doc : string)
  : M xstate unit :=
  up <- connection_available (version_probe a doc) ;;
  if negb up then ret tt else
  let jolokiaclient := answers a doc in
  if String.eqb doc "memoryPoolStats" then add_memory_pool_parameters jolokiaclient
  else if String.eqb doc "memoryStats" then add_memory_parameters jolokiaclient
  else if String.eqb doc "threadStats" then add_threading_parameters jolokiaclient
  else if String.eqb doc "gcStats" then add_gc_parameters jolokiaclient
  else if String.eqb doc "classLoadingStats" then add_classloading_parameters jolokiaclient
  else if String.eqb doc "compilationStats" then add_compilation_parameters jolokiaclient
  else if String.eqb doc "nioStats" then add_nio_parameters jolokiaclient
  else if String.eqb doc "operatingSysStats" then add_operating_system_parameters jolokiaclient
  else if String.eqb doc "zookeeperStats" then add_zookeeper_parameters zk_port jolokiaclient
  else if String.eqb doc "jmxStats" then add_jmxstats_parameters jolokiaclient
  else ret tt.

Section WithConstants.
Context `{Constants}.

Definition add_common_params (now : Z) (doc : string) : M xstate unit :=
  setitem TIMESTAMP (VInt now) ;;
  setitem PLUGIN ZOOK_JMX ;;
  setitem PLUGINTYPE (VStr doc) ;;
  setitem ACTUALPLUGINTYPE ZOOK_JMX ;;
  setitem PLUGIN_INS (VStr doc) ;;
  xlog_add LInfo MsgCommonAdded.

(** A tuple put on the result queue: [(pid, doc, dict_jmx)] *)
Definition tuple : Type := string * string * gmap string value.

(** The [try] block of [get_pid_jmx_stats] for one category; its value is the
    record put on the queue. *)
Definition collect_doc (a : agent) (zk_port : value) (pid doc : string)
  : M xstate (gmap string value) :=
  get_jmx_parameters a zk_port doc ;;
  s <- get_state ;;
  (if Nat.eqb (size (dict_jmx s)) 0 then raise (Exception_ "No data found") else ret tt) ;;
  xlog_add LInfo (MsgDocAdded doc pid) ;;
  add_common_params (clock a doc) doc ;;
  s <- get_state ;;
  ret (dict_jmx s).

(** [get_pid_jmx_stats]: the tuples put on the queue and the lines logged *)
Fixpoint get_pid_jmx_stats_docs (a : agent) (zk_port : value) (pid : string)
    (docs : list string) : list tuple * list log_entry :=
  match docs with
  | [] => ([], [])
  | doc :: rest =>
      let (put, logged) :=
        match collect_doc a zk_port pid doc (XState ∅ 0 []) with
        | (Ok d, s) => ([(pid, doc, d)], xlog s)
        | (Raise err, s) => ([], xlog s ++ [(LError, MsgDocError doc err)])
        end in
      let (puts, logs) := get_pid_jmx_stats_docs a zk_port pid rest in
      (put ++ puts, logged ++ logs)
  end.

Definition get_pid_jmx_stats (a : agent) (zk_port : value) (pid : string)
  : list tuple * list log_entry :=
  get_pid_jmx_stats_docs a zk_port pid ZOOK_DOCS.

(** ** The plugin object, the heap and the result queue

    [dict_jmx] objects are shared: [prev_data] keeps a reference to the very
    dict that [add_rate] has just mutated, and [deepcopy] makes a new object.
    The heap maps a reference to the dict's content. *)
Definition loc : Type := nat.

Record state : Type := State {
  interval : Q;                          (* float(self.interval) *)
  port : value;                          (* self.port *)
  prev_data : gmap string loc;           (* self.prev_data *)
  heap : gmap loc (gmap string value);
  log : list log_entry;                  (* collectd.error/info/debug *)
  dispatched : list (gmap string value); (* the records given to utils.dispatch *)
  output : list tuple;                   (* the result queue, oldest first *)
  pulls : nat                            (* number of get_nowait calls made *)
}.

Definition JmxStat_init : state :=
  State DEFAULT_INTERVAL VNone ∅ ∅ [] [] [] 0.

Definition set_prev_data (f : gmap string loc -> gmap string loc) (s : state) : state :=
  State (interval s) (port s) (f (prev_data s)) (heap s) (log s) (dispatched s)
        (output s) (pulls s).
Definition set_heap (f : gmap loc (gmap string value) -> gmap loc (gmap string value))
    (s : state) : state :=
  State (interval s) (port s) (prev_data s) (f (heap s)) (log s) (dispatched s)
        (output s) (pulls s).
Definition set_log (f : list log_entry -> list log_entry) (s : state) : state :=
  State (interval s) (port s) (prev_data s) (heap s) (f (log s)) (dispatched s)
        (output s) (pulls s).
Definition set_dispatched (f : list (gmap string value) -> list (gmap string value))
    (s : state) : state :=
  State (interval s) (port s) (prev_data s) (heap s) (log s) (f (dispatched s))
        (output s) (pulls s).
Definition set_output (q : list tuple) (n : nat) (s : state) : state :=
  State (interval s) (port s) (prev_data s) (heap s) (log s) (dispatched s) q n.

Definition log_add (l : level) (m : message) : M state unit :=
  modify (set_log (fun lg => lg ++ [(l, m)])).

(** The content of the dict at [r] *)
Definition deref (r : loc) : M state (gmap string value) :=
  s <- get_state ;; ret (heap s !!! r).

(** A new dict object with content [d] *)
Definition alloc (d : gmap string value) : M state loc :=
  s <- get_state ;;
  let r := fresh (dom (heap s)) in
  modify (set_heap <[r := d]>) ;; ret r.

(** [copy.deepcopy(r)]: the values of a record are immutable *)
Definition deepcopy (r : loc) : M state loc :=
  d <- deref r ;; alloc d.

(** [r[k] = v] *)
Definition dict_set (r : loc) (k : string) (v : value) : M state unit :=
  d <- deref r ;; modify (set_heap <[r := <[k := v]> d]>).

(** [del r[k]] *)
Definition dict_del (r : loc) (k : string) : M state unit :=
  d <- deref r ;;
  match d !! k with
  | Some _ => modify (set_heap <[r := delete k d]>)
  | None => raise (KeyError k)
  end.

(** [d[k]] *)
Definition dict_get (d : gmap string value) (k : string) : result value :=
  match d !! k with
  | Some v => Ok v
  | None => Raise (KeyError k)
  end.

(** [utils.dispatch(result)]: the downstream collector receives the record *)
Definition utils_dispatch (r : loc) : M state unit :=
  d <- deref r ;; modify (set_dispatched (fun l => l ++ [d])).

(** ** Rate calculator *)

Definition add_default_rate_value (dict_jmx : loc) : M state unit :=
  let keylist := ["packetsReceivedRate"; "packetsSentRate"] in
  for_each keylist (fun key => dict_set dict_jmx key (VInt 0)).

Definition has_key (k : string) (d : gmap string value) : bool :=
  match d !! k with Some _ => true | None => false end.

(** [prev_data] is [None] for Python's [None]. *)
Definition get_rate (key : string) (curr_data : gmap string value)
    (prev_data : option (gmap string value)) : M state value :=
  let rate := NAN in
  match prev_data with
  | None => ret rate
  | Some prev_data =>
  if Nat.eqb (size prev_data) 0 then ret rate else
  if negb (has_key key prev_data) then
    log_add LError (MsgKeyNotInPrevious key) ;; ret rate
  else if negb (has_key TIMESTAMP curr_data) || negb (has_key TIMESTAMP prev_data) then
    log_add LError (MsgKeyNotInPrevious key) ;; ret rate
  else
    curr_time <- lift (dict_get curr_data TIMESTAMP) ;;
    prev_time <- lift (dict_get prev_data TIMESTAMP) ;;
    le <- lift (py_le curr_time prev_time) ;;
    if le then
      log_add LError (MsgTimeNotIncreasing curr_time prev_time) ;; ret rate
    else
      c <- lift (dict_get curr_data key) ;;
      p <- lift (dict_get prev_data key) ;;
      diff <- lift (py_sub c p) ;;
      s <- get_state ;;
      rate <- lift (py_div_float diff (interval s)) ;;
      neg <- lift (py_lt rate (VInt 0)) ;;
      if neg then ret (VInt 0) else ret rate
  end.

(** [self.prev_data[pid]] *)
Definition prev_of (pid : string) : M state loc :=
  s <- get_state ;;
  match prev_data s !! pid with
  | Some r => ret r
  | None => raise (KeyError pid)
  end.

Definition add_rate (pid : string) (dict_jmx : loc) : M state unit :=
  curr <- deref dict_jmx ;;
  pr <- prev_of pid ;; prev <- deref pr ;;
  rate <- get_rate "packetsReceived" curr (Some prev) ;;
  (when negb (py_eq rate NAN) then
     rounded <- lift (py_round rate FLOATING_FACTOR) ;;
     dict_set dict_jmx "packetsReceivedRate" rounded) ;;
  curr <- deref dict_jmx ;;
  pr <- prev_of pid ;; prev <- deref pr ;;
  rate <- get_rate "packetsSent" curr (Some prev) ;;
  when negb (py_eq rate NAN) then
    rounded <- lift (py_round rate FLOATING_FACTOR) ;;
    dict_set dict_jmx "packetsSentRate" rounded.

Definition dispatch_data (doc_name : string) (result : loc) : M state unit :=
  (when String.eqb doc_name "zookeeperStats" then
     for_each ["packetsSent"; "packetsReceived"] (fun item => dict_del result item)) ;;
  log_add LInfo (MsgSent doc_name) ;;
  d <- deref result ;;
  log_add LDebug (MsgValues d) ;;
  utils_dispatch result.

Definition add_rate_dispatch (pid doc : string) (dict_jmx : loc) : M state unit :=
  s <- get_state ;;
  (if bool_decide (pid ∈ dom (prev_data s)) then add_rate pid dict_jmx
   else add_default_rate_value dict_jmx) ;;
  modify (set_prev_data <[pid := dict_jmx]>) ;;
  copy <- deepcopy dict_jmx ;;
  dispatch_data doc copy.

(** ** The orchestrator *)

(** What the orchestrator meets outside the program during one cycle. *)
Record host : Type := Host {
  euid : Z;                                     (* os.geteuid() *)
  pid_cmd : string * string;                    (* (stdout, stderr) of the jcmd pipeline *)
  uid_cmd : string -> string * string;          (* (stdout, stderr) of the Uid lookup of a pid *)
  jolokia_cmd : string -> string -> string * string * Z;
                                                (* (stdout, stderr, exit status) of
                                                   [jolokia.jar <cmd> <pid>] *)
  free_port : string -> Z;                      (* get_free_port() when starting for a pid *)
  agent_of : string -> agent;                   (* the agent attached to a pid *)
  deliver : list (list tuple) -> list tuple     (* what the queue holds after the join,
                                                   given what each worker put *)
}.

Definition check_prerequiste (h : host) : M state bool :=
  if negb (euid h =? 0) then log_add LError MsgNotRoot ;; ret false
  else ret true.

Definition nonempty (s : string) : bool := negb (String.eqb s "").

(** The loop of [get_pid] over the lines of the command output *)
Fixpoint pid_list_of (pids : list string) : result (list string) :=
  match pids with
  | [] => Ok []
  | pid :: rest =>
      if nonempty pid then
        result_bind (py_index (split_ws pid) 0) (fun pidval0 =>
        result_bind (pid_list_of rest) (fun pid_list => Ok (pidval0 :: pid_list)))
      else pid_list_of rest
  end.

(** [get_pid]: [None] stands for the [False] it returns on an error. *)
Definition get_pid (h : host) : M state (option (list string)) :=
  let (pids, err) := pid_cmd h in
  if nonempty err then log_add LError (MsgPidError err) ;; ret None
  else pid_list <- lift (pid_list_of (splitlines pids)) ;; ret (Some pid_list).

Fixpoint lstrip (s : string) : string :=
  match s with
  | String c s' => if is_space c then lstrip s' else s
  | EmptyString => EmptyString
  end.
Definition strip (s : string) : string :=
  String.rev (lstrip (String.rev (lstrip s))).

Definition get_uid (h : host) (pid : string) : M state value :=
  let (uid, err) := uid_cmd h pid in
  if nonempty err then log_add LError (MsgUidError pid err) ;; ret (VBool false)
  else ret (VStr (strip uid)).

Definition run_jolokia_cmd (h : host) (cmd pid : string) : M state (string * string * Z) :=
  process_uid <- get_uid h pid ;;
  ret (jolokia_cmd h cmd pid).

Definition get_pid_port (h : host) (pid : string) : M state value :=
  out <- run_jolokia_cmd h "status" pid ;;
  let '(status, err, ret_code) := out in
  if nonempty err || negb (ret_code =? 0) then
    let port := free_port h pid in
    out <- run_jolokia_cmd h "start" pid ;;
    let '(status, err, ret_code) := out in
    if nonempty err || negb (ret_code =? 0) then
      log_add LError (MsgStartFailed pid err) ;; ret (VBool false)
    else
      log_add LInfo (MsgStarted pid) ;; ret (VInt port)
  else
    joloip <- lift (py_index (splitlines status) 1) ;;
    field <- lift (py_index (split_char ":" joloip) 2) ;;
    port <- lift (py_index (findall_digits field) 0) ;;
    log_add LDebug (MsgAlreadyRunning pid) ;;
    ret (VStr port).

(** The first loop of [run_pid_process]: one worker per pid whose port is
    truthy.  A worker is a separate process; what it puts on the queue and
    what it logs is [get_pid_jmx_stats]. *)
Fixpoint start_workers (h : host) (list_pid : list string)
  : M state (list (list tuple)) :=
  match list_pid with
  | [] => ret []
  | pid :: rest =>
      pt <- get_pid_port h pid ;;
      if truthy pt then
        s <- get_state ;;
        let (puts, logged) := get_pid_jmx_stats (agent_of h pid) (port s) pid in
        modify (set_log (fun lg => lg ++ logged)) ;;
        procs <- start_workers h rest ;;
        ret (puts :: procs)
      else start_workers h rest
  end.

(** [run_pid_process]: the workers are joined; the queue then holds what was
    delivered.  The value is [procs]. *)
Definition run_pid_process (h : host) (list_pid : list string)
  : M state (list (list tuple)) :=
  procs <- start_workers h list_pid ;;
  modify (set_output (deliver h procs) 0) ;;
  ret procs.

(** [output.get_nowait()] *)
Definition get_nowait : M state tuple :=
  s <- get_state ;;
  match output s with
  | [] => modify (set_output [] (S (pulls s))) ;; raise QueueEmpty
  | t :: q => modify (set_output q (S (pulls s))) ;; ret t
  end.

(** The body of the inner loop of [collect_jmx_data] *)
Definition drain_one (doc : string) : M state unit :=
  got <- try_except (t <- get_nowait ;; ret (Some t))
           (fun e => match e with
                     | QueueEmpty => log_add LError MsgLostResult ;; ret None
                     | _ => raise e
                     end) ;;
  match got with
  | None => ret tt
  | Some (pid, doc_name, doc_result) =>
      r <- alloc doc_result ;;
      if String.eqb doc_name "zookeeperStats" then add_rate_dispatch pid doc_name r
      else dispatch_data doc_name r
  end.

(** [for _ in procs: for doc in ZOOK_DOCS: ...] *)
Definition drain {A} (procs : list A) : M state unit :=
  for_each procs (fun _ => for_each ZOOK_DOCS drain_one).

Definition collect_jmx_data (h : host) : M state unit :=
  root <- check_prerequiste h ;;
  if negb root then ret tt else
  list_pid <- get_pid h ;;
  match list_pid with
  | None | Some [] => log_add LError MsgNoProcess
  | Some list_pid =>
      procs <- run_pid_process h list_pid ;;
      drain procs
  end.

End WithConstants.

(** * Vocabulary of the statements *)

(** The number a record holds under [k] (0 when it holds none) *)
Definition num_at (k : string) (d : gmap string value) : Q :=
  default 0%Q (d !! k ≫= as_num).

Definition numeric_at (k : string) (d : gmap string value) : Prop :=
  forall v, d !! k = Some v -> is_number v = true.

(** [(c - p) / interval], a negative result replaced by 0 *)
Definition clamped_rate (c p i : Q) : value :=
  let q := Qred ((c - p) / i) in
  match (q ?= 0)%Q with Lt => VInt 0 | _ => VFloat q end.

(** The last statements of [get_rate], reached when no NaN condition holds:
    the quotient as Python evaluates it, then the clamp. *)
Definition rate_value (key : string) (curr prev : gmap string value) (i : Q)
  : result value :=
  result_bind (dict_get curr key) (fun c =>
  result_bind (dict_get prev key) (fun p =>
  result_bind (py_sub c p) (fun diff =>
  result_bind (py_div_float diff i) (fun rate =>
  result_bind (py_lt rate (VInt 0)) (fun neg =>
  Ok (if neg then VInt 0 else rate)))))).

(** What [dispatch_data] leaves of a record, per category *)
Definition stripped (doc_name : string) (d : gmap string value) : gmap string value :=
  if String.eqb doc_name "zookeeperStats"
  then delete "packetsReceived" (delete "packetsSent" d) else d.

(** A record with the two first-poll rate fields *)
Definition with_default_rates (d : gmap string value) : gmap string value :=
  <["packetsSentRate" := VInt 0]> (<["packetsReceivedRate" := VInt 0]> d).

(** A statement sequence keeps a relation between the state before and the
    state after, however it ends. *)
Definition preserves {S A} (R : S -> S -> Prop) (m : M S A) : Prop :=
  forall s, R s (snd (m s)).

(** What the rate step of [add_rate_dispatch] may change: the log, and in the
    record at [r] the two rate fields. *)
Definition rate_frame (r : loc) (s s' : state) : Prop :=
  interval s' = interval s /\ port s' = port s /\ prev_data s' = prev_data s /\
  dispatched s' = dispatched s /\ output s' = output s /\ pulls s' = pulls s /\
  (is_Some (heap s !! r) -> is_Some (heap s' !! r)) /\
  (forall l, l <> r -> heap s' !! l = heap s !! l) /\
  (forall k, k <> "packetsReceivedRate" -> k <> "packetsSentRate" ->
     (heap s' !!! r) !! k = (heap s !!! r) !! k).

(** The sentinel-preserving conversion of a byte count: -1 is kept, any
    other value becomes megabytes rounded to 2 decimals. *)
Definition neg_bytes_value (v : value) : result value :=
  if py_eq v (VInt (-1)) then Ok v else bytes_to_mb v.

(** The record [d] holds under [key] the sentinel-preserving conversion of
    the attribute [attr] of the memory-usage object [usage]. *)
Definition converted (usage : value) (attr : string) (d : gmap string value)
    (key : string) : Prop :=
  exists raw w,
    py_getitem usage attr = Ok raw /\ neg_bytes_value raw = Ok w /\ d !! key = Some w.

(** The answer has status 200. *)
Definition accepted (json : value) : Prop :=
  exists st, py_getitem json "status" = Ok st /\ py_eq st (VInt 200) = true.

(** The number of lost-result lines in a log *)
Definition lost_results (lg : list log_entry) : nat :=
  length (List.filter (fun e => match e with
                                | (LError, MsgLostResult) => true
                                | _ => false
                                end) lg).

(** What dispatching a record leaves untouched: the queue, the count of
    pulls, and the number of lost-result lines. *)
Definition queue_frame (s s' : state) : Prop :=
  output s' = output s /\ pulls s' = pulls s /\
  lost_results (log s') = lost_results (log s).

Section Vocabulary.
Context `{Constants}.

(** The conditions under which the rate calculator gives no rate *)
Definition rate_undefined (key : string) (curr : gmap string value)
    (prev : option (gmap string value)) : Prop :=
  match prev with
  | None => True
  | Some p =>
      p = ∅ \/ p !! key = None \/ curr !! TIMESTAMP = None \/ p !! TIMESTAMP = None \/
      (num_at TIMESTAMP curr <= num_at TIMESTAMP p)%Q
  end.

(** The first statement of [add_rate_dispatch] *)
Definition rate_step (pid : string) (dict_jmx : loc) : M state unit :=
  fun s => (if bool_decide (pid ∈ dom (prev_data s)) then add_rate pid dict_jmx
            else add_default_rate_value dict_jmx) s.

End Vocabulary.

(** * Sample data *)

Definition sample_constants : Constants := {|
  NAN := VStr "NaN";
  TIMESTAMP := "_timeStamp";
  PLUGIN := "_plugin";
  PLUGINTYPE := "_documentType";
  ACTUALPLUGINTYPE := "_actualPlugin";
  PLUGIN_INS := "_pluginInstance";
  ZOOK_JMX := VStr "zookeeperjmx";
  FLOATING_FACTOR := 2;
  DEFAULT_INTERVAL := 300
|}.

(** The two samples of the end-to-end scenario, one minute apart *)
Definition sample_first : gmap string value :=
  <["packetsReceived" := VInt 100]> (<["packetsSent" := VInt 50]>
    (<["_timeStamp" := VInt 1000]> ∅)).
Definition sample_second : gmap string value :=
  <["packetsReceived" := VInt 160]> (<["packetsSent" := VInt 80]>
    (<["_timeStamp" := VInt 1060]> ∅)).

(** A plugin with interval 60 and no stored sample, whose heap holds
    [sample_first] at reference 0 *)
Definition sample_state : state :=
  State 60 (VStr "2181") ∅ (<[0%nat := sample_first]> ∅) [] [] [] 0.

Definition nl : string := String "010" EmptyString.

(** An agent that answers every request with status 404 *)
Definition not_found : value := VDict [("status", VInt 404)].
Definition client_not_found : client := fun _ _ => Ok not_found.

(** A ZooKeeper whose server bean is not found while the data-tree bean
    answers: the record gets the node counts but no packet counter. *)
Definition client_no_server_bean : client := fun _ req =>
  match req_type req with
  | Exec => Ok (VDict [("status", VInt 200); ("value", VInt 3)])
  | Read =>
      if String.eqb (req_mbean req)
           "org.apache.ZooKeeperService:name0=StandaloneServer_port2181,name1=InMemoryDataTree"
      then Ok (VDict [("status", VInt 200);
                      ("value", VDict [("NodeCount", VInt 5); ("WatchCount", VInt 0)])])
      else Ok not_found
  end.

Definition agent_no_server_bean : agent := {|
  version_probe := fun _ => Ok 200;
  answers := fun doc =>
    if String.eqb doc "zookeeperStats" then client_no_server_bean else client_not_found;
  clock := fun _ => 1000
|}.

Definition status_running : string :=
  "Jolokia started for PID 111" +:+ nl +:+ "http://127.0.0.1:8778/jolokia/" +:+ nl.

(** One ZooKeeper process, pid 111, its agent already attached *)
Definition host_no_server_bean : host := {|
  euid := 0;
  pid_cmd := ("111 QuorumPeerMain" +:+ nl, "");
  uid_cmd := fun _ => ("0" +:+ nl, "");
  jolokia_cmd := fun _ _ => (status_running, "", 0);
  free_port := fun _ => 40000;
  agent_of := fun _ => agent_no_server_bean;
  deliver := fun puts => List.concat puts
|}.

(** The same host when the agent's status output has a single line *)
Definition host_short_status : host := {|
  euid := 0;
  pid_cmd := ("111 QuorumPeerMain" +:+ nl, "");
  uid_cmd := fun _ => ("0" +:+ nl, "");
  jolokia_cmd := fun _ _ => ("Jolokia agent attached", "", 0);
  free_port := fun _ => 40000;
  agent_of := fun _ => agent_no_server_bean;
  deliver := fun puts => List.concat puts
|}.

(** Two processes, 111 and 222; of the four tuples the workers put, the
    queue holds the first three when it is drained. *)
Definition host_three_of_four : host := {|
  euid := 0;
  pid_cmd := ("111 QuorumPeerMain" +:+ nl +:+ "222 QuorumPeerMain" +:+ nl, "");
  uid_cmd := fun _ => ("0" +:+ nl, "");
  jolokia_cmd := fun _ _ => (status_running, "", 0);
  free_port := fun _ => 40000;
  agent_of := fun _ => agent_no_server_bean;
  deliver := fun puts => take 3 (List.concat puts)
|}.

(** The plugin as configured for a ZooKeeper on port 2181, interval 60 *)
Definition sample_plugin : state := State 60 (VStr "2181") ∅ ∅ [] [] [] 0.

(** A JVM whose thread CPU time measurement is supported but switched off:
    both thread CPU times read -1. *)
Definition threading_disabled : value :=
  VDict [("status", VInt 200);
         ("value", VDict [("ThreadCount", VInt 10); ("PeakThreadCount", VInt 12);
                          ("DaemonThreadCount", VInt 8);
                          ("TotalStartedThreadCount", VInt 20);
                          ("CurrentThreadCpuTimeSupported", VBool true);
                          ("CurrentThreadCpuTime", VInt (-1));
                          ("CurrentThreadUserTime", VInt (-1))])].
Definition client_threading_disabled : client := fun _ _ => Ok threading_disabled.

(** An operating-system bean whose process CPU time reads -1 *)
Definition os_unsupported : value :=
  VDict [("status", VInt 200);
         ("value", VDict [("Arch", VStr "amd64"); ("AvailableProcessors", VInt 4);
                          ("CommittedVirtualMemorySize", VInt (-1));
                          ("FreePhysicalMemorySize", VInt 1048576);
                          ("FreeSwapSpaceSize", VInt 0);
                          ("MaxFileDescriptorCount", VInt 1024);
                          ("Name", VStr "Linux");
                          ("OpenFileDescriptorCount", VInt 10);
                          ("ProcessCpuLoad", VInt 0);
                          ("ProcessCpuTime", VInt (-1));
                          ("TotalPhysicalMemorySize", VInt 2097152);
                          ("TotalSwapSpaceSize", VInt 0);
                          ("Version", VStr "5.4");
                          ("SystemCpuLoad", VInt 0);
                          ("SystemLoadAverage", VInt 1)])].
Definition client_os_unsupported : client := fun _ _ => Ok os_unsupported.

(** A memory bean whose heap has no maximum *)
Definition memory_unbounded : value :=
  VDict [("status", VInt 200);
         ("value",
          VDict [("HeapMemoryUsage",
                  VDict [("init", VInt 3145728); ("max", VInt (-1));
                         ("used", VInt 1048576); ("committed", VInt 2097152)]);
                 ("NonHeapMemoryUsage",
                  VDict [("init", VInt 2097152); ("max", VInt (-1));
                         ("used", VInt 1048576); ("committed", VInt 1048576)]);
                 ("ObjectPendingFinalizationCount", VInt 0)])].
Definition client_memory_unbounded : client := fun _ _ => Ok memory_unbounded.

Definition empty_record : xstate := XState ∅ 0 [].

(** The answer to a "Valid" query lets the detailed extraction go on. *)
Definition says_valid (json : value) : Prop :=
  accepted json /\
  exists v, py_getitem json "value" = Ok v /\ py_eq v (VBool true) = true.

(** A request that raises or is answered with a status other than 200 *)
Definition declines (r : result value) : Prop :=
  match r with Ok json => ~ accepted json | Raise _ => True end.

(** A "Valid" query that raises or does not answer 200 and true *)
Definition not_valid (r : result value) : Prop :=
  match r with Ok json => ~ says_valid json | Raise _ => True end.

(** Every per-name extraction fails: its "Valid" query does, or else the
    query for its values does. *)
Definition named_queries_fail (j : client) : Prop :=
  forall n mbean,
    not_valid (j n (read_attr mbean "Valid")) \/
    forall attribute, declines (j (S n) (read_attr mbean attribute)).

(** The statements of [add_jmxstats_parameters] after the defaults *)
Definition jmxstats_named (j : client) : M xstate unit :=
  (gc_names <- get_gc_names j ;;
   for_each gc_names (jmxstats_gc j) ;;
   mp_names <- get_memory_pool_names j ;;
   for_each mp_names (jmxstats_pool j))%py.

(** A statement sequence never removes a key of the record. *)
Definition keeps_keys (s s' : xstate) : Prop :=
  forall k, is_Some (dict_jmx s !! k) -> is_Some (dict_jmx s' !! k).

(** The names of a discovery answer, in the order of its items: those on the
    allow-list, and those that are not. *)
Definition name_of (item : string * value) : result value :=
  py_getitem (snd item) "Name".

Definition listed (allow : list string) (items : list (string * value)) : list string :=
  omap (fun item => match name_of item with
                    | Ok n => in_names n allow
                    | Raise _ => None
                    end) items.

Definition unlisted (allow : list string) (items : list (string * value)) : list value :=
  omap (fun item => match name_of item with
                    | Ok n => match in_names n allow with
                              | Some _ => None
                              | None => Some n
                              end
                    | Raise _ => None
                    end) items.

(** The items of a discovery answer: [json['value'].items()] *)
Definition discovered (json : value) : result (list (string * value)) :=
  result_bind (py_getitem json "value") py_items.

(** A memory pool on the allow-list whose "Valid" flag is false *)
Definition client_invalid_pool : client := fun _ req =>
  match req_attribute req with
  | Some a =>
      if String.eqb a "Name" then
        Ok (VDict [("status", VInt 200);
                   ("value", VDict [("java.lang:name=G1 Old Gen,type=MemoryPool",
                                     VDict [("Name", VStr "G1 Old Gen")])])])
      else if String.eqb a "Valid" then
        Ok (VDict [("status", VInt 200); ("value", VBool false)])
      else Ok not_found
  | None => Ok not_found
  end.

(** An agent with one supported collector and one unsupported pool; every
    other query is answered 404. *)
Definition client_one_collector : client := fun _ req =>
  match req_attribute req with
  | Some a =>
      if String.eqb a "Name" then
        if String.eqb (req_mbean req) "java.lang:type=GarbageCollector,*" then
          Ok (VDict [("status", VInt 200);
                     ("value", VDict [("java.lang:name=G1 Young Generation,type=GarbageCollector",
                                       VDict [("Name", VStr "G1 Young Generation")])])])
        else
          Ok (VDict [("status", VInt 200);
                     ("value", VDict [("java.lang:name=PS Eden Space,type=MemoryPool",
                                       VDict [("Name", VStr "PS Eden Space")])])])
      else if String.eqb a "Valid" then
        Ok (VDict [("status", VInt 200); ("value", VBool true)])
      else if String.eqb a "CollectionTime,CollectionCount" then
        Ok (VDict [("status", VInt 200);
                   ("value", VDict [("CollectionTime", VInt 1500);
                                    ("CollectionCount", VInt 7)])])
      else Ok not_found
  | None => Ok not_found
  end.

(** A queue of three well-formed tuples for two workers *)
Definition sample_queue_state : state :=
  set_output [("111", "jmxStats", <["threads" := VInt 5]> ∅);
              ("111", "zookeeperStats", sample_first);
              ("222", "jmxStats", <["threads" := VInt 7]> ∅)] 0 sample_plugin.

(** A standalone ZooKeeper on port 2181 that has received and sent the given
    numbers of packets *)
Definition client_zookeeper (received sent : Z) : client := fun _ req =>
  match req_type req with
  | Exec => Ok (VDict [("status", VInt 200); ("value", VInt 3)])
  | Read =>
      if String.eqb (req_mbean req)
           "org.apache.ZooKeeperService:name0=StandaloneServer_port2181"
      then Ok (VDict [("status", VInt 200);
                      ("value", VDict [("AvgRequestLatency", VInt 2);
                                       ("MaxSessionTimeout", VInt 40000);
                                       ("MinSessionTimeout", VInt 4000);
                                       ("MaxClientCnxnsPerHost", VInt 60);
                                       ("NumAliveConnections", VInt 1);
                                       ("OutstandingRequests", VInt 0);
                                       ("PacketsReceived", VInt received);
                                       ("PacketsSent", VInt sent);
                                       ("Version", VStr "3.4.13")])])
      else if String.eqb (req_mbean req)
           "org.apache.ZooKeeperService:name0=StandaloneServer_port2181,name1=InMemoryDataTree"
      then Ok (VDict [("status", VInt 200);
                      ("value", VDict [("NodeCount", VInt 5); ("WatchCount", VInt 0)])])
      else Ok not_found
  end.

(** A cycle of the end-to-end scenario: processes 111 and 222, agents already
    attached; the ZooKeeper counters and the clock are those of the cycle. *)
Definition host_cycle (received sent now : Z) : host := {|
  euid := 0;
  pid_cmd := ("111 QuorumPeerMain" +:+ nl +:+ "222 QuorumPeerMain" +:+ nl, "");
  uid_cmd := fun _ => ("0" +:+ nl, "");
  jolokia_cmd := fun _ _ => (status_running, "", 0);
  free_port := fun _ => 40000;
  agent_of := fun _ => {|
    version_probe := fun _ => Ok 200;
    answers := fun doc =>
      if String.eqb doc "zookeeperStats" then client_zookeeper received sent
      else client_not_found;
    clock := fun _ => now
  |};
  deliver := fun puts => List.concat puts
|}.

(** The field [k] of the [n]-th record given to the collector *)
Definition dispatched_field (s : state) (n : nat) (k : string) : option value :=
  dispatched s !! n ≫= fun record => record !! k.

(** * Vocabulary of the further properties *)

(** Every character of [s] satisfies [p]. *)
Fixpoint all_chars (p : ascii -> bool) (s : string) : bool :=
  match s with
  | EmptyString => true
  | String c s' => p c && all_chars p s'
  end.

(** [s] begins with a character that satisfies [p]. *)
Definition starts_with (p : ascii -> bool) (s : string) : bool :=
  match s with
  | String c _ => p c
  | EmptyString => false
  end.

(** The longest prefix of [s] whose characters satisfy [p], and what follows it *)
Fixpoint take_while (p : ascii -> bool) (s : string) : string :=
  match s with
  | String c s' => if p c then String c (take_while p s') else EmptyString
  | EmptyString => EmptyString
  end.
Fixpoint drop_while (p : ascii -> bool) (s : string) : string :=
  match s with
  | String c s' => if p c then drop_while p s' else s
  | EmptyString => EmptyString
  end.

Definition is_newline (c : ascii) : bool := Ascii.eqb c "010" || Ascii.eqb c "013".
Definition not_newline (c : ascii) : bool := negb (is_newline c).
Definition not_colon (c : ascii) : bool := negb (Ascii.eqb c ":").
Definition not_space (c : ascii) : bool := negb (is_space c).

(** A line of blanks only *)
Definition blank (s : string) : bool := all_chars is_space s.

(** The first word of a line: the leading blanks are skipped, the word runs
    up to the next blank.  A blank line has none. *)
Definition first_word (line : string) : option string :=
  let t := drop_while is_space line in
  if nonempty t then Some (take_while not_space t) else None.

(** The error lines of the uid lookup for [pid] *)
Definition uid_errors (h : host) (pid : string) : list log_entry :=
  let (uid, err) := uid_cmd h pid in
  if nonempty err then [(LError, MsgUidError pid err)] else [].

(** The state with the lines [added] appended to the log *)
Definition with_log (added : list log_entry) (s : state) : state :=
  set_log (fun lg => lg ++ added) s.

(** A host whose process 111 has no agent attached yet: the status command
    fails and the start command succeeds. *)
Definition host_agent_absent : host := {|
  euid := 0;
  pid_cmd := ("111 QuorumPeerMain" +:+ nl, "");
  uid_cmd := fun _ => ("0" +:+ nl, "");
  jolokia_cmd := fun cmd _ =>
    if String.eqb cmd "status" then ("No Jolokia agent attached to process", "", 1)
    else ("Started Jolokia for PID 111", "", 0);
  free_port := fun _ => 40000;
  agent_of := fun _ => agent_no_server_bean;
  deliver := fun puts => List.concat puts
|}.

(** A log line about a discovered name that is not on the allow-list *)
Definition unsupported_line (e : log_entry) : Prop :=
  exists name, e = (LError, MsgPoolNotSupported name) \/ e = (LError, MsgGcNotSupported name).

(** What an extraction may do to its state: add or overwrite fields of the
    record, make requests, and log lines about unsupported names. *)
Definition extends (s s' : xstate) : Prop :=
  keeps_keys s s' /\ (calls s <= calls s')%nat /\
  exists added, xlog s' = xlog s ++ added /\ Forall unsupported_line added.

(** The number of per-category error lines of a worker's log *)
Definition doc_errors (lg : list log_entry) : nat :=
  length (List.filter (fun e => match e with
                                | (LError, MsgDocError _ _) => true
                                | _ => false
                                end) lg).

Definition tuple_pid (t : string * string * gmap string value) : string := fst (fst t).
Definition tuple_doc (t : string * string * gmap string value) : string := snd (fst t).
Definition tuple_record (t : string * string * gmap string value) : gmap string value := snd t.

(** The exception a category ends with when the agent's version endpoint
    does not answer 200 *)
Definition probe_exn (probe : result Z) : exn :=
  match probe with
  | Ok _ | Raise ConnectionError => Exception_ "No data found"
  | Raise e => e
  end.

Definition is_str (v : value) : bool :=
  match v with VStr _ => true | _ => false end.

(** An agent whose version endpoint refuses the connection *)
Definition agent_down : agent := {|
  version_probe := fun _ => Raise ConnectionError;
  answers := fun _ => client_not_found;
  clock := fun _ => 1000
|}.

Section MoreVocabulary.
Context `{Constants}.

(** A record with the five common parameters of [add_common_params] *)
Definition common_params (now : Z) (doc : string) (d : gmap string value)
  : gmap string value :=
  <[PLUGIN_INS := VStr doc]> (<[ACTUALPLUGINTYPE := ZOOK_JMX]>
    (<[PLUGINTYPE := VStr doc]> (<[PLUGIN := ZOOK_JMX]>
      (<[TIMESTAMP := VInt now]> d)))).

End MoreVocabulary.

(** An agent that answers every request with a status other than 200 *)
Definition refuses (j : client) : Prop :=
  forall n r, exists json st,
    j n r = Ok json /\ py_getitem json "status" = Ok st /\ py_eq st (VInt 200) = false.

(** The state after [n] more requests that stored nothing *)
Definition requested (n : nat) (s : xstate) : xstate :=
  XState (dict_jmx s) (n + calls s) (xlog s).

(** The bean of the ZooKeeper data tree for the client port [p] *)
Definition data_tree_bean (p : string) : string :=
  ("org.apache.ZooKeeperService:name0=StandaloneServer_port" +:+ p) +:+
  ",name1=InMemoryDataTree".

(** A statement sequence writes no field of the record outside [K]. *)
Definition only_writes (K : list string) (s s' : xstate) : Prop :=
  forall k, k ∉ K -> dict_jmx s' !! k = dict_jmx s !! k.

(** The field names of the two categories the plugin collects *)
Definition jmxstats_fields : list string :=
  ["unloadedClass"; "loadedClass"; "threads";
   "heapMemoryUsageInit"; "heapMemoryUsageUsed"; "heapMemoryUsageCommitted";
   "nonHeapMemoryUsageInit"; "nonHeapMemoryUsageUsed"; "nonHeapMemoryUsageCommitted"]
  ++ param_list.

Definition zookeeper_fields : list string :=
  ["avgRequestLatency"; "maxSessionTimeout"; "minSessionTimeout"; "maxClientCnxnsPerHost";
   "numAliveConnections"; "outstandingRequests"; "packetsReceived"; "packetsSent";
   "zookeeperVersion"; "nodeCount"; "watchCount"; "countEphemerals"; "approximateDataSize"].

Definition fields_of (doc : string) : list string :=
  if String.eqb doc "jmxStats" then jmxstats_fields
  else if String.eqb doc "zookeeperStats" then zookeeper_fields
  else [].

Section CommonNames.
Context `{Constants}.

Definition common_names : list string :=
  [TIMESTAMP; PLUGIN; PLUGINTYPE; ACTUALPLUGINTYPE; PLUGIN_INS].

End CommonNames.

(** In the record [d] the field [count_key] holds a threshold in bytes and
    the field [key] its conversion to megabytes. *)
Definition count_is_threshold (d : gmap string value) (key count_key : string) : Prop :=
  exists raw mb,
    d !! count_key = Some raw /\ bytes_to_mb raw = Ok mb /\ d !! key = Some mb.

(** The fields [key] and [count_key] are as they were. *)
Definition pair_untouched (d d' : gmap string value) (key count_key : string) : Prop :=
  d' !! key = d !! key /\ d' !! count_key = d !! count_key.

(** The state after [dispatch_data] has sent the record [d] of category
    [doc]: two log lines, and [d] given to the collector. *)
Definition delivered (doc : string) (d : gmap string value) (s : state) : state :=
  set_dispatched (fun l => l ++ [d])
    (with_log [(LInfo, MsgSent doc); (LDebug, MsgValues d)] s).

(** What a cycle keeps of the plugin: the configuration, every process id of
    the rate state, and what was already logged and dispatched. *)
Definition grows (s s' : state) : Prop :=
  interval s' = interval s /\ port s' = port s /\
  dom (prev_data s) ⊆ dom (prev_data s') /\
  log s `prefix_of` log s' /\
  dispatched s `prefix_of` dispatched s'.

Section RateVocabulary.
Context `{Constants}.

(** The value [add_rate] stores for a counter that went from [p] to [c]:
    the quotient by the interval, a negative one replaced by 0, rounded to
    [FLOATING_FACTOR] decimals. *)
Definition rate_field (c p i : Q) : value :=
  let q := ((c - p) / i)%Q in
  VFloat (round_q (if Qle_bool 0 q then q else 0) FLOATING_FACTOR).

End RateVocabulary.

(** A record with the two rate fields *)
Definition with_rates (received sent : value) (d : gmap string value)
  : gmap string value :=
  <["packetsSentRate" := sent]> (<["packetsReceivedRate" := received]> d).

(** The sample of the end-to-end scenario with its first-poll rate fields,
    stored for process 111 at reference 0; the next sample is at reference 1. *)
Definition sample_later_state : state :=
  State 60 (VStr "2181") (<["111" := 0%nat]> ∅)
        (<[1%nat := sample_second]> (<[0%nat := with_default_rates sample_first]> ∅))
        [] [] [] 0.

(** The same, when the next sample was taken within the same second *)
Definition sample_stale_state : state :=
  State 60 (VStr "2181") (<["111" := 0%nat]> ∅)
        (<[1%nat := sample_first]> (<[0%nat := with_default_rates sample_first]> ∅))
        [] [] [] 0.

(** The state differs from [s] by lines appended to the log only. *)
Definition logs_only (s s' : state) : Prop := exists lines, s' = with_log lines s.

(** The fields [add_rate_dispatch] and [dispatch_data] add or remove *)
Definition rate_keys : list string :=
  ["packetsReceived"; "packetsSent"; "packetsReceivedRate"; "packetsSentRate"].

(** The record [sent] is what the drain gives to the collector for the
    queued tuple [t]: the queued record itself for another category than
    zookeeperStats; for zookeeperStats, a record without the raw counters
    that agrees with the queued one outside the counters and the rate
    fields. *)
Definition sent_for (t : string * string * gmap string value)
    (sent : gmap string value) : Prop :=
  if String.eqb (tuple_doc t) "zookeeperStats"
  then sent !! "packetsReceived" = None /\ sent !! "packetsSent" = None /\
       forall k, k ∉ rate_keys -> sent !! k = tuple_record t !! k
  else sent = tuple_record t.

(** * The configuration callback

    [config] reads the children of the plugin's configuration block.  The
    key names [INTERVAL], [PROCESS], [LISTENERIP] and [PORT] come from
    [constants.py]. *)
Class ConfigKeys := {
  INTERVAL : string;
  PROCESS : string;
  LISTENERIP : string;
  PORT : string
}.

(** A child of the configuration block: [children.key], [children.values] *)
Record child : Type := Child {
  child_key : string;
  child_values : list value
}.

(** The fields of the plugin object that [__init__] and [config] set *)
Record settings : Type := Settings {
  cfg_interval : value;    (* self.interval *)
  cfg_listenerip : value;  (* self.listenerip *)
  cfg_process : value;     (* self.process *)
  cfg_port : value         (* self.port *)
}.

Section WithConfigKeys.
Context `{ConfigKeys}.

(** The body of [for children in cfg.children] *)
Definition config_child (children : child) : M settings unit :=
  (when String.eqb (child_key children) INTERVAL then
     v <- lift (py_index (child_values children) 0) ;;
     modify (fun c => Settings v (cfg_listenerip c) (cfg_process c) (cfg_port c))) ;;
  (when String.eqb (child_key children) PROCESS then
     v <- lift (py_index (child_values children) 0) ;;
     modify (fun c => Settings (cfg_interval c) (cfg_listenerip c) v (cfg_port c))) ;;
  (when String.eqb (child_key children) LISTENERIP then
     v <- lift (py_index (child_values children) 0) ;;
     modify (fun c => Settings (cfg_interval c) v (cfg_process c) (cfg_port c))) ;;
  (when String.eqb (child_key children) PORT then
     v <- lift (py_index (child_values children) 0) ;;
     modify (fun c => Settings (cfg_interval c) (cfg_listenerip c) (cfg_process c) v)).

Definition config (cfg_children : list child) : M settings unit :=
  for_each cfg_children config_child.

(** A child with one of the four keys and no value *)
Definition malformed (c : child) : bool :=
  existsb (String.eqb (child_key c)) [INTERVAL; PROCESS; LISTENERIP; PORT] &&
  match child_values c with [] => true | _ => false end.

(** The first value of the last child whose key is [k] *)
Definition child_setting (k : string) (c : child) : option value :=
  if String.eqb (child_key c) k then head (child_values c) else None.

Fixpoint last_setting (k : string) (cfg_children : list child) : option value :=
  match cfg_children with
  | [] => None
  | c :: rest =>
      match last_setting k rest with
      | Some v => Some v
      | None => child_setting k c
      end
  end.

(** The settings after a configuration block has been read *)
Definition configured (cfg_children : list child) (c : settings) : settings :=
  Settings (default (cfg_interval c) (last_setting INTERVAL cfg_children))
           (default (cfg_listenerip c) (last_setting LISTENERIP cfg_children))
           (default (cfg_process c) (last_setting PROCESS cfg_children))
           (default (cfg_port c) (last_setting PORT cfg_children)).

End WithConfigKeys.

Section WithAllConstants.
Context `{Constants}.

(** The fields as [__init__] sets them *)
Definition settings_init : settings :=
  Settings (VFloat DEFAULT_INTERVAL) (VStr "localhost") VNone VNone.

End WithAllConstants.

Definition sample_keys : ConfigKeys := {|
  INTERVAL := "interval";
  PROCESS := "process";
  LISTENERIP := "listener_ip";
  PORT := "port"
|}.

(** A configuration block that sets the interval twice and no port *)
Definition sample_block : list child :=
  [Child "interval" [VFloat 300]; Child "process" [VStr "zookeeper"];
   Child "name" []; Child "interval" [VFloat 60; VFloat 10]].

(** The later poll of the scenario for a plugin configured with interval 0 *)
Definition sample_zero_interval_state : state :=
  State 0 (VStr "2181") (<["111" := 0%nat]> ∅)
        (<[1%nat := sample_second]> (<[0%nat := with_default_rates sample_first]> ∅))
        [] [] [] 0.

(** A cycle changes neither the number of per-category error lines nor the
    number of lost-result lines. *)
Definition quiet (s s' : state) : Prop :=
  doc_errors (log s') = doc_errors (log s) /\
  lost_results (log s') = lost_results (log s).

(** A cycle adds no per-category error line. *)
Definition same_doc_errors (s s' : state) : Prop :=
  doc_errors (log s') = doc_errors (log s).

(** The number of categories the workers did not put on the queue *)
Definition uncollected (procs : list (list (string * string * gmap string value))) : nat :=
  sum_list (map (fun puts => length ZOOK_DOCS - length puts)%nat procs).

(** A process whose agent is up but knows no ZooKeeper bean: the summary
    category is collected, the ZooKeeper category finds no data. *)
Definition host_no_zookeeper : host := {|
  euid := 0;
  pid_cmd := ("111 QuorumPeerMain" +:+ nl, "");
  uid_cmd := fun _ => ("0" +:+ nl, "");
  jolokia_cmd := fun _ _ => (status_running, "", 0);
  free_port := fun _ => 40000;
  agent_of := fun _ => {|
    version_probe := fun _ => Ok 200;
    answers := fun _ => client_not_found;
    clock := fun _ => 1000
  |};
  deliver := fun puts => List.concat puts
|}.

(** A memory usage of 1 MB used, 2 MB committed, no maximum *)
Definition usage_sample : value :=
  VDict [("init", VInt 0); ("max", VInt (-1)); ("used", VInt 1048576);
         ("committed", VInt 2097152)].

(** An agent whose pools are valid and support both thresholds: the usage
    threshold is 3 MB and was crossed 7 times. *)
Definition client_thresholds : client := fun _ req =>
  match req_attribute req with
  | Some a =>
      if String.eqb a "Valid" then
        Ok (VDict [("status", VInt 200); ("value", VBool true)])
      else if String.eqb a "UsageThreshold,UsageThresholdCount,UsageThresholdExceeded" then
        Ok (VDict [("status", VInt 200);
                   ("value", VDict [("UsageThreshold", VInt 3145728);
                                    ("UsageThresholdCount", VInt 7);
                                    ("UsageThresholdExceeded", VBool false)])])
      else if String.eqb a
           "CollectionUsageThreshold,CollectionUsageThresholdCount,CollectionUsageThresholdExceeded"
      then
        Ok (VDict [("status", VInt 200);
                   ("value", VDict [("CollectionUsageThreshold", VInt 1048576);
                                    ("CollectionUsageThresholdCount", VInt 2);
                                    ("CollectionUsageThresholdExceeded", VBool false)])])
      else
        Ok (VDict [("status", VInt 200);
                   ("value", VDict [("CollectionUsage", usage_sample);
                                    ("PeakUsage", usage_sample);
                                    ("Type", VStr "HEAP");
                                    ("Usage", usage_sample);
                                    ("CollectionUsageThresholdSupported", VBool true);
                                    ("UsageThresholdSupported", VBool true)])])
  | None => Ok not_found
  end.


(** * Reasoning about statement sequences *)

Section Monad.
Context {S : Type}.

Lemma bind_ok {A B} (m : M S A) (k : A -> M S B) s a s' :
  m s = (Ok a, s') -> bind m k s = k a s'.
Proof. unfold bind. intros ->. reflexivity. Qed.

Lemma bind_raise {A B} (m : M S A) (k : A -> M S B) s e s' :
  m s = (Raise e, s') -> bind m k s = (Raise e, s').
Proof. unfold bind. intros ->. reflexivity. Qed.

Lemma bind_inv_ok {A B} (m : M S A) (k : A -> M S B) s b s'' :
  bind m k s = (Ok b, s'') ->
  exists a s', m s = (Ok a, s') /\ k a s' = (Ok b, s'').
Proof.
  unfold bind. destruct (m s) as [[a|e] s'] eqn:E; intros Hk.
  - eauto.
  - discriminate.
Qed.

Lemma lift_inv {A} (r : result A) (s s' : S) (a : A) :
  lift r s = (Ok a, s') -> r = Ok a /\ s' = s.
Proof. unfold lift. intros [= -> ->]. auto. Qed.

Lemma ret_inv {A} (a b : A) (s s' : S) :
  ret a s = (Ok b, s') -> b = a /\ s' = s.
Proof. unfold ret. intros [= -> ->]. auto. Qed.

End Monad.

(** * The rate calculator *)

Section Rate.
Context `{Constants}.

Lemma size_zero_empty (d : gmap string value) : Nat.eqb (size d) 0 = true <-> d = ∅.
Proof. rewrite Nat.eqb_eq. apply map_size_empty_iff. Qed.

Lemma has_key_false k (d : gmap string value) : has_key k d = false <-> d !! k = None.
Proof. unfold has_key. destruct (d !! k); split; congruence. Qed.

Lemma is_number_as_num v : is_number v = true -> exists q, as_num v = Some q.
Proof. unfold is_number. destruct (as_num v); eauto; discriminate. Qed.

Lemma py_cmp_num a b x y :
  as_num a = Some x -> as_num b = Some y -> py_cmp a b = Ok (x ?= y)%Q.
Proof. intros Ha Hb. unfold py_cmp. rewrite Ha, Hb. reflexivity. Qed.

Lemma py_sub_num a b x y :
  as_num a = Some x -> as_num b = Some y ->
  exists d q, py_sub a b = Ok d /\ as_num d = Some q /\ (q == x - y)%Q.
Proof.
  intros Ha Hb. unfold py_sub.
  destruct a; simpl in *; try discriminate; destruct b; simpl in *; try discriminate;
    injection Ha as <-; injection Hb as <-;
    eexists _, _; (split; [reflexivity|]); simpl; (split; [reflexivity|]);
    try apply Qred_correct;
    unfold Qminus, Qeq, Qplus, Qopp, inject_Z; simpl; lia.
Qed.

Lemma num_at_lookup k (d : gmap string value) v q :
  d !! k = Some v -> as_num v = Some q -> num_at k d = q.
Proof. intros Hv Hq. unfold num_at. rewrite Hv. simpl. rewrite Hq. reflexivity. Qed.

(** [get_rate] answers NaN under the conditions of [rate_undefined], and
    otherwise goes on to the quotient. *)
Lemma get_rate_cases (key : string) (curr : gmap string value)
    (prev : option (gmap string value)) (s : state) :
  numeric_at TIMESTAMP curr ->
  (forall p, prev = Some p -> numeric_at TIMESTAMP p) ->
  (rate_undefined key curr prev /\ fst (get_rate key curr prev s) = Ok NAN) \/
  (~ rate_undefined key curr prev /\
   exists p, prev = Some p /\
     fst (get_rate key curr prev s) = rate_value key curr p (interval s)).
Proof.
  intros Htc Hprev. unfold get_rate. cbv zeta.
  destruct prev as [p|]; [|left; simpl; auto].
  specialize (Hprev p eq_refl).
  remember (rate_undefined key curr (Some p)) as U eqn:HU.
  destruct (Nat.eqb (size p) 0) eqn:Hsz.
  { apply size_zero_empty in Hsz. left. subst U. simpl. auto. }
  destruct (has_key key p) eqn:Hk.
  2:{ apply has_key_false in Hk. left. subst U. simpl. auto. }
  destruct (has_key TIMESTAMP curr) eqn:Hkc.
  2:{ apply has_key_false in Hkc. left. subst U. simpl. auto. }
  destruct (has_key TIMESTAMP p) eqn:Hkp.
  2:{ apply has_key_false in Hkp. left. subst U. simpl. auto 6. }
  unfold has_key in Hk, Hkc, Hkp.
  destruct (p !! key) as [pv|] eqn:Hpv; [|discriminate].
  destruct (curr !! TIMESTAMP) as [ct|] eqn:Hct; [|discriminate].
  destruct (p !! TIMESTAMP) as [pt|] eqn:Hpt; [|discriminate].
  destruct (is_number_as_num _ (Htc _ Hct)) as [ctq Hctq].
  destruct (is_number_as_num _ (Hprev _ Hpt)) as [ptq Hptq].
  pose proof (num_at_lookup _ _ _ _ Hct Hctq) as Hnum_ct.
  pose proof (num_at_lookup _ _ _ _ Hpt Hptq) as Hnum_pt.
  cbn [negb orb]. unfold bind, lift, dict_get. rewrite Hct, Hpt.
  unfold py_le. rewrite (py_cmp_num _ _ _ _ Hctq Hptq). cbn [result_bind].
  destruct (ctq ?= ptq)%Q eqn:Hcmp.
  - left. split; [|reflexivity]. subst U. simpl. rewrite Hnum_ct, Hnum_pt.
    apply Qeq_alt in Hcmp. do 4 right. rewrite Hcmp. apply Qle_refl.
  - left. split; [|reflexivity]. subst U. simpl. rewrite Hnum_ct, Hnum_pt.
    apply Qlt_alt in Hcmp. do 4 right. apply Qlt_le_weak, Hcmp.
  - right. split.
    + subst U. simpl. rewrite Hnum_ct, Hnum_pt. apply Qgt_alt in Hcmp.
      intros [E|[?|[?|[?|Hle]]]]; try congruence.
      * apply size_zero_empty in E. congruence.
      * apply (Qlt_not_le _ _ Hcmp Hle).
    + exists p. split; [reflexivity|].
      unfold rate_value, dict_get. rewrite Hpv.
      destruct (curr !! key) as [c|]; [|reflexivity]. cbn [result_bind].
      destruct (py_sub c pv) as [diff|e]; [|reflexivity]. cbn [result_bind].
      unfold get_state.
      destruct (py_div_float diff (interval s)) as [rate|e]; [|reflexivity].
      cbn [result_bind].
      destruct (py_lt rate (VInt 0)) as [[]|e]; reflexivity.
Qed.

(** The quotient, when it has a value, is a number that is not negative. *)
Lemma rate_value_number key curr p i v :
  rate_value key curr p i = Ok v -> exists q, as_num v = Some q /\ (0 <= q)%Q.
Proof.
  unfold rate_value. intros Hv.
  destruct (dict_get curr key) as [c|]; [|discriminate]. cbn [result_bind] in Hv.
  destruct (dict_get p key) as [pv|]; [|discriminate]. cbn [result_bind] in Hv.
  destruct (py_sub c pv) as [diff|]; [|discriminate]. cbn [result_bind] in Hv.
  unfold py_div_float in Hv.
  destruct (as_num diff) as [dq|]; [|discriminate].
  destruct (Qeq_bool i 0); [discriminate|]. cbn [result_bind] in Hv.
  unfold py_lt in Hv. erewrite py_cmp_num in Hv by reflexivity. cbn [result_bind] in Hv.
  change (inject_Z 0) with 0%Q in Hv.
  destruct (Qred (dq / i) ?= 0)%Q eqn:Hz; injection Hv as <-; simpl; eexists;
    (split; [reflexivity|]).
  - apply Qeq_alt in Hz. rewrite Hz. apply Qle_refl.
  - apply Qle_refl.
  - apply Qgt_alt in Hz. apply Qlt_le_weak, Hz.
Qed.

(** The quotient of two numbers over a non-zero interval *)
Lemma rate_value_numbers key curr p i c0 p0 :
  curr !! key = Some c0 -> p !! key = Some p0 ->
  is_number c0 = true -> is_number p0 = true -> ~ (i == 0)%Q ->
  rate_value key curr p i = Ok (clamped_rate (num_at key curr) (num_at key p) i).
Proof.
  intros Hc Hp Hnc Hnp Hi.
  destruct (is_number_as_num _ Hnc) as [cq Hcq].
  destruct (is_number_as_num _ Hnp) as [pq Hpq].
  rewrite (num_at_lookup _ _ _ _ Hc Hcq), (num_at_lookup _ _ _ _ Hp Hpq).
  unfold rate_value, dict_get. rewrite Hc, Hp. cbn [result_bind].
  destruct (py_sub_num _ _ _ _ Hcq Hpq) as (d & dq & Hsub & Hdq & Hdeq).
  rewrite Hsub. cbn [result_bind]. unfold py_div_float. rewrite Hdq.
  destruct (Qeq_bool i 0) eqn:Hi0; [apply Qeq_bool_iff in Hi0; contradiction|].
  cbn [result_bind]. unfold py_lt. erewrite py_cmp_num by reflexivity.
  cbn [result_bind]. change (inject_Z 0) with 0%Q.
  assert (Hq : Qred (dq / i) = Qred ((cq - pq) / i)).
  { apply Qred_complete. rewrite Hdeq. reflexivity. }
  rewrite Hq. unfold clamped_rate. cbv zeta.
  destruct (Qred ((cq - pq) / i) ?= 0)%Q; reflexivity.
Qed.

(** C1. [get_rate], for samples whose timestamps are numbers and a NaN
    sentinel that is not a number: it returns the NaN sentinel if and only
    if there is no previous sample or it is empty, or the key is missing
    from the previous sample, or either sample lacks the timestamp, or the
    current timestamp is not strictly greater than the previous one;
    otherwise, the two counters being numbers and the interval not zero, it
    returns [(current[key] - previous[key]) / interval] with a negative
    result replaced by 0; and a number it returns is never negative. *)
Theorem get_rate_spec (key : string) (curr : gmap string value)
    (prev : option (gmap string value)) (s : state) :
  as_num NAN = None ->
  numeric_at TIMESTAMP curr ->
  (forall p, prev = Some p -> numeric_at TIMESTAMP p) ->
  (fst (get_rate key curr prev s) = Ok NAN <-> rate_undefined key curr prev) /\
  (forall p c0 p0,
     ~ rate_undefined key curr prev ->
     prev = Some p -> curr !! key = Some c0 -> p !! key = Some p0 ->
     is_number c0 = true -> is_number p0 = true -> ~ (interval s == 0)%Q ->
     fst (get_rate key curr prev s)
       = Ok (clamped_rate (num_at key curr) (num_at key p) (interval s))) /\
  (forall v q, fst (get_rate key curr prev s) = Ok v -> as_num v = Some q -> (0 <= q)%Q).
Proof.
  intros Hnan Htc Hprev.
  destruct (get_rate_cases key curr prev s Htc Hprev)
    as [[Hu Hres]|(Hd & p & Hp & Hres)]; rewrite Hres.
  - split; [tauto|]. split; [tauto|].
    intros v q [= <-] Hq. congruence.
  - split; [|split].
    + split; [|tauto]. intros Hv. apply rate_value_number in Hv.
      destruct Hv as (q & Hq & _). congruence.
    + intros p' c0 p0 _ Hp' Hc Hp0 Hnc Hnp Hi.
      assert (p' = p) by congruence. subst p'.
      apply (rate_value_numbers key curr p (interval s) c0 p0); assumption.
    + intros v q Hv Hq. apply rate_value_number in Hv.
      destruct Hv as (q' & Hq' & Hpos). congruence.
Qed.

End Rate.

Lemma get_rate_spec_witness :
  (fst (get_rate (H := sample_constants) "packetsReceived" sample_second
          (Some sample_first) sample_state) = Ok (VStr "NaN") <->
   rate_undefined (H := sample_constants) "packetsReceived" sample_second
     (Some sample_first)) /\
  (forall p c0 p0,
     ~ rate_undefined (H := sample_constants) "packetsReceived" sample_second
         (Some sample_first) ->
     Some sample_first = Some p ->
     sample_second !! "packetsReceived" = Some c0 -> p !! "packetsReceived" = Some p0 ->
     is_number c0 = true -> is_number p0 = true -> ~ (60 == 0)%Q ->
     fst (get_rate (H := sample_constants) "packetsReceived" sample_second
            (Some sample_first) sample_state)
       = Ok (clamped_rate (num_at "packetsReceived" sample_second)
               (num_at "packetsReceived" p) 60)) /\
  (forall v q,
     fst (get_rate (H := sample_constants) "packetsReceived" sample_second
            (Some sample_first) sample_state) = Ok v ->
     as_num v = Some q -> (0 <= q)%Q).
Proof.
  apply (get_rate_spec (H := sample_constants) "packetsReceived" sample_second
           (Some sample_first) sample_state).
  - reflexivity.
  - intros v Hv. vm_compute in Hv. injection Hv as <-. reflexivity.
  - intros p [= <-] v Hv. vm_compute in Hv. injection Hv as <-. reflexivity.
Defined.

(** The second sample of the scenario against the first: one packet per
    second received, half a packet per second sent; and a counter that went
    back gives 0. *)
Example get_rate_scenario :
  fst (get_rate (H := sample_constants) "packetsReceived" sample_second
         (Some sample_first) sample_state) = Ok (VFloat 1) /\
  fst (get_rate (H := sample_constants) "packetsSent" sample_second
         (Some sample_first) sample_state) = Ok (VFloat (1 # 2)) /\
  fst (get_rate (H := sample_constants) "packetsSent"
         (<["packetsSent" := VInt 10]> sample_second)
         (Some sample_first) sample_state) = Ok (VInt 0) /\
  fst (get_rate (H := sample_constants) "packetsSent" sample_first
         (Some sample_second) sample_state) = Ok (VStr "NaN").
Proof. vm_compute. repeat split. Qed.

(** * Shared records: the heap, [dispatch_data] and the first poll *)

Section Heap.
Context `{Constants}.

Lemma deref_lookup r d s : heap s !! r = Some d -> deref r s = (Ok d, s).
Proof.
  intros Hr. unfold deref, bind, get_state, ret.
  rewrite (lookup_total_correct _ _ _ Hr). reflexivity.
Qed.

Lemma dict_set_lookup r k v d s :
  heap s !! r = Some d ->
  dict_set r k v s = (Ok tt, set_heap <[r := <[k := v]> d]> s).
Proof.
  intros Hr. unfold dict_set. rewrite (bind_ok _ _ _ _ _ (deref_lookup _ _ _ Hr)).
  reflexivity.
Qed.

Lemma dict_del_present r k v d s :
  heap s !! r = Some d -> d !! k = Some v ->
  dict_del r k s = (Ok tt, set_heap <[r := delete k d]> s).
Proof.
  intros Hr Hk. unfold dict_del. rewrite (bind_ok _ _ _ _ _ (deref_lookup _ _ _ Hr)).
  rewrite Hk. reflexivity.
Qed.

Lemma dict_del_absent r k d s :
  heap s !! r = Some d -> d !! k = None ->
  dict_del r k s = (Raise (KeyError k), s).
Proof.
  intros Hr Hk. unfold dict_del. rewrite (bind_ok _ _ _ _ _ (deref_lookup _ _ _ Hr)).
  rewrite Hk. reflexivity.
Qed.

Lemma deepcopy_lookup r d s :
  heap s !! r = Some d ->
  deepcopy r s = (Ok (fresh (dom (heap s))), set_heap <[fresh (dom (heap s)) := d]> s).
Proof.
  intros Hr. unfold deepcopy. rewrite (bind_ok _ _ _ _ _ (deref_lookup _ _ _ Hr)).
  reflexivity.
Qed.

Lemma fresh_ne r d (h : gmap loc (gmap string value)) :
  h !! r = Some d -> fresh (dom h) <> r.
Proof.
  intros Hr E. apply (is_fresh (dom h)). rewrite E. apply elem_of_dom. eauto.
Qed.

Lemma dispatch_data_ok doc_name r d s :
  heap s !! r = Some d ->
  String.eqb doc_name "zookeeperStats" = false \/
    (is_Some (d !! "packetsSent") /\ is_Some (d !! "packetsReceived")) ->
  exists s',
    dispatch_data doc_name r s = (Ok tt, s') /\
    dispatched s' = dispatched s ++ [stripped doc_name d] /\
    prev_data s' = prev_data s /\
    heap s' = <[r := stripped doc_name d]> (heap s).
Proof.
  intros Hr Hc. unfold dispatch_data, stripped.
  destruct (String.eqb doc_name "zookeeperStats") eqn:Hdoc.
  - destruct Hc as [|[[v1 H1] [v2 H2]]]; [discriminate|].
    cbn [for_each].
    erewrite bind_ok.
    2:{ erewrite bind_ok by (eapply dict_del_present; eauto).
        erewrite bind_ok.
        2:{ eapply dict_del_present; [simpl; apply lookup_insert_eq|].
            rewrite lookup_delete_ne by discriminate. eassumption. }
        reflexivity. }
    eexists. split; [reflexivity|]. simpl.
    rewrite !lookup_total_insert_eq, insert_insert_eq. auto.
  - eexists. unfold bind, log_add, modify, deref, utils_dispatch, get_state, ret, bind; simpl.
    rewrite (lookup_total_correct _ _ _ Hr).
    split; [reflexivity|]. simpl. rewrite insert_id by assumption. auto.
Qed.

Lemma dispatch_data_raises r d s :
  heap s !! r = Some d ->
  d !! "packetsSent" = None \/ d !! "packetsReceived" = None ->
  exists k s',
    dispatch_data "zookeeperStats" r s = (Raise (KeyError k), s') /\
    dispatched s' = dispatched s /\ prev_data s' = prev_data s /\
    forall l, l <> r -> heap s' !! l = heap s !! l.
Proof.
  intros Hr Hc. unfold dispatch_data. simpl String.eqb. cbn [for_each].
  destruct (d !! "packetsSent") as [v|] eqn:Hs.
  - destruct Hc as [|Hrcv]; [discriminate|].
    erewrite bind_raise.
    2:{ erewrite bind_ok by (eapply dict_del_present; eauto).
        erewrite bind_raise.
        2:{ eapply dict_del_absent; [simpl; apply lookup_insert_eq|].
            rewrite lookup_delete_ne by discriminate. eassumption. }
        reflexivity. }
    eexists _, _. split; [reflexivity|]. simpl. repeat split.
    intros l Hl. rewrite lookup_insert_ne by congruence. reflexivity.
  - erewrite bind_raise.
    2:{ erewrite bind_raise by (eapply dict_del_absent; eauto). reflexivity. }
    eexists _, _. split; [reflexivity|]. auto.
Qed.


Lemma add_default_rate_value_lookup r d s :
  heap s !! r = Some d ->
  add_default_rate_value r s = (Ok tt, set_heap <[r := with_default_rates d]> s).
Proof.
  intros Hr. unfold add_default_rate_value. cbn [for_each].
  erewrite bind_ok by (eapply dict_set_lookup; eauto).
  erewrite bind_ok by (eapply dict_set_lookup; simpl; apply lookup_insert_eq).
  unfold ret, set_heap, with_default_rates; simpl. rewrite insert_insert_eq. reflexivity.
Qed.

Lemma first_poll_steps pid doc r d s :
  prev_data s !! pid = None -> heap s !! r = Some d ->
  let s1 := set_prev_data <[pid := r]> (set_heap <[r := with_default_rates d]> s) in
  let copy := fresh (dom (heap s1)) in
  add_rate_dispatch pid doc r s =
    dispatch_data doc copy (set_heap <[copy := with_default_rates d]> s1).
Proof.
  intros Hp Hr s1 copy. unfold add_rate_dispatch.
  erewrite bind_ok by (unfold get_state; reflexivity).
  rewrite bool_decide_eq_false_2 by (rewrite not_elem_of_dom; exact Hp).
  erewrite bind_ok by (eapply add_default_rate_value_lookup; eauto).
  erewrite bind_ok by reflexivity.
  erewrite bind_ok.
  2:{ apply (deepcopy_lookup r (with_default_rates d)). simpl. apply lookup_insert_eq. }
  reflexivity.
Qed.

(** C2. For a process id with no entry in [prev_data], [add_rate_dispatch]
    attaches [packetsReceivedRate = 0] and [packetsSentRate = 0]: the record
    it dispatches carries both, and afterwards [prev_data] holds the current
    sample (the object [r], now with the two rate fields) under the process
    id.  A record is dispatched unless the category is zookeeperStats and a
    raw counter is missing. *)
Theorem first_poll_default_rates (pid doc : string) (r : loc) (d : gmap string value)
    (s : state) :
  prev_data s !! pid = None ->
  heap s !! r = Some d ->
  let out := add_rate_dispatch pid doc r s in
  prev_data (snd out) !! pid = Some r /\
  heap (snd out) !! r = Some (with_default_rates d) /\
  (fst out = Ok tt ->
   exists record, dispatched (snd out) = dispatched s ++ [record] /\
     record !! "packetsReceivedRate" = Some (VInt 0) /\
     record !! "packetsSentRate" = Some (VInt 0)) /\
  (fst out <> Ok tt -> dispatched (snd out) = dispatched s) /\
  (doc <> "zookeeperStats" \/
     (is_Some (d !! "packetsSent") /\ is_Some (d !! "packetsReceived")) ->
   fst out = Ok tt).
Proof.
  intros Hp Hr out. subst out. rewrite (first_poll_steps pid doc r d s Hp Hr).
  set (s1 := set_prev_data <[pid := r]> (set_heap <[r := with_default_rates d]> s)).
  set (copy := fresh (dom (heap s1))).
  set (s2 := set_heap <[copy := with_default_rates d]> s1).
  assert (Hcopy : copy <> r).
  { apply (fresh_ne r (with_default_rates d)). simpl. apply lookup_insert_eq. }
  assert (Hc2 : heap s2 !! copy = Some (with_default_rates d)) by (simpl; apply lookup_insert_eq).
  assert (Hr2 : heap s2 !! r = Some (with_default_rates d)).
  { simpl. rewrite lookup_insert_ne by exact Hcopy. apply lookup_insert_eq. }
  assert (Hp2 : prev_data s2 !! pid = Some r) by (simpl; apply lookup_insert_eq).
  assert (Hrates : forall doc', stripped doc' (with_default_rates d) !! "packetsReceivedRate" = Some (VInt 0)
                     /\ stripped doc' (with_default_rates d) !! "packetsSentRate" = Some (VInt 0)).
  { intros doc'. unfold stripped, with_default_rates.
    destruct (String.eqb doc' "zookeeperStats");
      rewrite ?lookup_delete_ne by discriminate;
      (split; [rewrite lookup_insert_ne by discriminate|]; apply lookup_insert_eq). }
  destruct (String.eqb doc "zookeeperStats") eqn:Hdoc.
  - apply String.eqb_eq in Hdoc. subst doc.
    destruct (d !! "packetsSent") as [v1|] eqn:H1; [destruct (d !! "packetsReceived") as [v2|] eqn:H2|].
    + destruct (dispatch_data_ok "zookeeperStats" copy _ s2 Hc2) as (s' & E & Hd & Hpd & Hh).
      { right. unfold with_default_rates. rewrite !lookup_insert_ne by discriminate.
        rewrite H1, H2. eauto. }
      rewrite E. simpl. rewrite Hd, Hpd, Hh.
      rewrite lookup_insert_ne by exact Hcopy.
      repeat split; auto.
      * intros _. eexists. split; [reflexivity|]. apply Hrates.
      * congruence.
    + destruct (dispatch_data_raises copy _ s2 Hc2) as (k & s' & E & Hd & Hpd & Hh).
      { right. unfold with_default_rates. rewrite !lookup_insert_ne by discriminate. exact H2. }
      rewrite E. simpl. rewrite Hd, Hpd, (Hh r) by congruence.
      repeat split; auto; try discriminate.
      intros [Hne|[_ [v Hv]]]; congruence.
    + destruct (dispatch_data_raises copy _ s2 Hc2) as (k & s' & E & Hd & Hpd & Hh).
      { left. unfold with_default_rates. rewrite !lookup_insert_ne by discriminate. exact H1. }
      rewrite E. simpl. rewrite Hd, Hpd, (Hh r) by congruence.
      repeat split; auto; try discriminate.
      intros [Hne|[[v Hv] _]]; congruence.
  - destruct (dispatch_data_ok doc copy _ s2 Hc2) as (s' & E & Hd & Hpd & Hh); [left; exact Hdoc|].
    rewrite E. simpl. rewrite Hd, Hpd, Hh.
    rewrite lookup_insert_ne by exact Hcopy.
    repeat split; auto.
    + intros _. eexists. split; [reflexivity|]. apply Hrates.
    + congruence.
Qed.

End Heap.

Lemma first_poll_default_rates_witness :
  let out := add_rate_dispatch (H := sample_constants) "111" "zookeeperStats" 0%nat
               sample_state in
  prev_data (snd out) !! "111" = Some 0%nat /\
  heap (snd out) !! 0%nat = Some (with_default_rates sample_first) /\
  (fst out = Ok tt ->
   exists record, dispatched (snd out) = dispatched sample_state ++ [record] /\
     record !! "packetsReceivedRate" = Some (VInt 0) /\
     record !! "packetsSentRate" = Some (VInt 0)) /\
  (fst out <> Ok tt -> dispatched (snd out) = dispatched sample_state) /\
  ("zookeeperStats" <> "zookeeperStats" \/
     (is_Some (sample_first !! "packetsSent") /\
      is_Some (sample_first !! "packetsReceived")) ->
   fst out = Ok tt).
Proof.
  apply (first_poll_default_rates (H := sample_constants) "111" "zookeeperStats" 0%nat
           sample_first sample_state); reflexivity.
Defined.

(** * What the rate step leaves untouched *)

Section Preserves.
Context {S : Type} (R : S -> S -> Prop) `{!Reflexive R} `{!Transitive R}.

Lemma preserves_ret {A} (a : A) : preserves R (ret a).
Proof. intros s. reflexivity. Qed.

Lemma preserves_raise {A} (e : exn) : preserves R (raise (A := A) e).
Proof. intros s. reflexivity. Qed.

Lemma preserves_lift {A} (r : result A) : preserves R (lift r).
Proof. intros s. reflexivity. Qed.

Lemma preserves_get_state : preserves R get_state.
Proof. intros s. reflexivity. Qed.

Lemma preserves_bind {A B} (m : M S A) (k : A -> M S B) :
  preserves R m -> (forall a, preserves R (k a)) -> preserves R (bind m k).
Proof.
  intros Hm Hk s. unfold bind. specialize (Hm s).
  destruct (m s) as [[a|e] s']; simpl in *.
  - transitivity s'; [assumption|apply Hk].
  - assumption.
Qed.

Lemma preserves_for_each {A} (l : list A) (body : A -> M S unit) :
  (forall x, preserves R (body x)) -> preserves R (for_each l body).
Proof.
  intros Hb. induction l as [|x l IH]; simpl.
  - apply preserves_ret.
  - apply preserves_bind; auto.
Qed.

Lemma preserves_try_except {A} (m : M S A) (h : exn -> M S A) :
  preserves R m -> (forall e, preserves R (h e)) -> preserves R (try_except m h).
Proof.
  intros Hm Hh s. unfold try_except. specialize (Hm s).
  destruct (m s) as [[a|e] s']; simpl in *.
  - assumption.
  - transitivity s'; [assumption|apply Hh].
Qed.

End Preserves.

(** Splits a [preserves] goal along the structure of the statement sequence. *)
Ltac preserves_step :=
  first
    [ apply preserves_ret; exact _
    | apply preserves_raise; exact _
    | apply preserves_lift; exact _
    | apply preserves_get_state; exact _
    | apply preserves_bind; try solve [exact _]; [|intros ?]
    | apply preserves_for_each; try solve [exact _]; intros ?
    | match goal with
      | |- preserves _ (if ?b then _ else _) => destruct b
      | |- preserves _ (match ?x with _ => _ end) => destruct x
      | |- preserves _ (let _ := _ in _) => cbv zeta
      end ].

Section RateFrame.
Context `{Constants}.

#[local] Instance rate_frame_refl r : Reflexive (rate_frame r).
Proof. intros s. unfold rate_frame. repeat split; auto. Qed.

#[local] Instance rate_frame_trans r : Transitive (rate_frame r).
Proof.
  intros s1 s2 s3 (A1 & A2 & A3 & A4 & A5 & A6 & A7 & A8 & A9)
    (B1 & B2 & B3 & B4 & B5 & B6 & B7 & B8 & B9).
  unfold rate_frame. repeat split; try congruence.
  - auto.
  - intros l Hl. rewrite B8, A8; auto.
  - intros k H1 H2. rewrite B9, A9; auto.
Qed.

Lemma log_add_frame r l m : preserves (rate_frame r) (log_add l m).
Proof. intros s. unfold rate_frame. simpl. repeat split; auto. Qed.

Lemma deref_frame r r' : preserves (rate_frame r) (deref r').
Proof. unfold deref. repeat preserves_step. Qed.

Lemma prev_of_frame r pid : preserves (rate_frame r) (prev_of pid).
Proof. unfold prev_of. repeat preserves_step. Qed.

Lemma dict_set_frame r k v :
  k = "packetsReceivedRate" \/ k = "packetsSentRate" ->
  preserves (rate_frame r) (dict_set r k v).
Proof.
  intros Hk s. unfold rate_frame. simpl. repeat split; auto.
  - intros _. rewrite lookup_insert_eq. eauto.
  - intros l Hl. apply lookup_insert_ne. congruence.
  - intros k' H1 H2. rewrite lookup_total_insert_eq.
    apply lookup_insert_ne. destruct Hk; congruence.
Qed.

Lemma get_rate_frame r key curr prev : preserves (rate_frame r) (get_rate key curr prev).
Proof.
  unfold get_rate. cbv zeta.
  repeat first [apply log_add_frame | preserves_step].
Qed.

Lemma add_rate_frame r pid : preserves (rate_frame r) (add_rate pid r).
Proof.
  unfold add_rate.
  repeat first
    [ apply deref_frame | apply prev_of_frame | apply get_rate_frame
    | apply dict_set_frame; auto | preserves_step ].
Qed.

Lemma add_default_rate_value_frame r : preserves (rate_frame r) (add_default_rate_value r).
Proof.
  unfold add_default_rate_value. cbv zeta. cbn [for_each].
  repeat first [apply dict_set_frame; auto | preserves_step].
Qed.

Lemma rate_step_frame r pid : preserves (rate_frame r) (rate_step pid r).
Proof.
  intros s. unfold rate_step. destruct (bool_decide _).
  - apply add_rate_frame.
  - apply add_default_rate_value_frame.
Qed.

(** [add_rate_dispatch] after its first statement: the store into
    [prev_data], the copy, and [dispatch_data] on the copy *)
Lemma add_rate_dispatch_steps pid doc r s :
  add_rate_dispatch pid doc r s =
  match rate_step pid r s with
  | (Ok _, s1) =>
      let s2 := set_prev_data <[pid := r]> s1 in
      let copy := fresh (dom (heap s2)) in
      dispatch_data doc copy (set_heap <[copy := heap s1 !!! r]> s2)
  | (Raise e, s1) => (Raise e, s1)
  end.
Proof.
  unfold add_rate_dispatch, rate_step.
  erewrite bind_ok by (unfold get_state; reflexivity).
  unfold bind at 1.
  destruct (bool_decide (pid ∈ dom (prev_data s))).
  - destruct (add_rate pid r s) as [[[]|e] s1]; reflexivity.
  - destruct (add_default_rate_value r s) as [[[]|e] s1]; reflexivity.
Qed.

(** C4. Every zookeeperStats record that [add_rate_dispatch] dispatches has
    had [packetsReceived] and [packetsSent] removed, while the sample kept in
    the heap for the next rate computation retains them: the call either
    dispatches one record without the two counters (and then the input held
    both), or raises and dispatches nothing; in both cases the counters of
    the record at [r] are as before the call. *)
Theorem raw_counters_stripped (pid : string) (r : loc) (d : gmap string value)
    (s : state) :
  heap s !! r = Some d ->
  let out := add_rate_dispatch pid "zookeeperStats" r s in
  ((exists record,
      fst out = Ok tt /\ dispatched (snd out) = dispatched s ++ [record] /\
      record !! "packetsReceived" = None /\ record !! "packetsSent" = None /\
      is_Some (d !! "packetsReceived") /\ is_Some (d !! "packetsSent")) \/
   (fst out <> Ok tt /\ dispatched (snd out) = dispatched s)) /\
  (heap (snd out) !!! r) !! "packetsReceived" = d !! "packetsReceived" /\
  (heap (snd out) !!! r) !! "packetsSent" = d !! "packetsSent".
Proof.
  intros Hr out. subst out. rewrite add_rate_dispatch_steps.
  pose proof (rate_step_frame r pid s) as F.
  destruct (rate_step pid r s) as [[[]|e] s1]; simpl in F;
    destruct F as (_ & _ & Fp & Fd & _ & _ & Fr & Fo & Fk);
    assert (Hrcv : (heap s1 !!! r) !! "packetsReceived" = d !! "packetsReceived")
      by (rewrite Fk by discriminate; rewrite (lookup_total_correct _ _ _ Hr); reflexivity);
    assert (Hsnt : (heap s1 !!! r) !! "packetsSent" = d !! "packetsSent")
      by (rewrite Fk by discriminate; rewrite (lookup_total_correct _ _ _ Hr); reflexivity).
  2:{ simpl. split; [right; split; [discriminate|assumption]|]. auto. }
  destruct (Fr (ex_intro _ d Hr)) as [d1 Hd1].
  rewrite (lookup_total_correct _ _ _ Hd1) in *.
  cbv zeta.
  set (s2 := set_prev_data <[pid := r]> s1).
  set (copy := fresh (dom (heap s2))).
  set (s3 := set_heap <[copy := d1]> s2).
  assert (Hcopy : copy <> r) by (apply (fresh_ne r d1); exact Hd1).
  assert (Hc3 : heap s3 !! copy = Some d1) by (simpl; apply lookup_insert_eq).
  assert (Hkeep : forall s', heap s' !! r = heap s3 !! r ->
            (heap s' !!! r) !! "packetsReceived" = d !! "packetsReceived" /\
            (heap s' !!! r) !! "packetsSent" = d !! "packetsSent").
  { intros s' E. rewrite !lookup_total_alt, E. simpl.
    rewrite lookup_insert_ne by exact Hcopy. rewrite Hd1. simpl. auto. }
  destruct (d !! "packetsSent") as [v1|] eqn:H1;
    [destruct (d !! "packetsReceived") as [v2|] eqn:H2|].
  - destruct (dispatch_data_ok "zookeeperStats" copy d1 s3 Hc3) as (s' & E & Hd & Hpd & Hh);
      [right; rewrite Hrcv, Hsnt; eauto|].
    rewrite E. simpl. split.
    + left. eexists. split; [reflexivity|]. split; [rewrite Hd, <- Fd; reflexivity|].
      unfold stripped. simpl.
      rewrite lookup_delete_eq, lookup_delete_ne, lookup_delete_eq by discriminate. eauto.
    + apply Hkeep. rewrite Hh. rewrite lookup_insert_ne by exact Hcopy. reflexivity.
  - destruct (dispatch_data_raises copy d1 s3 Hc3) as (k & s' & E & Hd & Hpd & Hh);
      [right; congruence|].
    rewrite E. simpl. split.
    + right. split; [discriminate|]. rewrite Hd, <- Fd. reflexivity.
    + apply Hkeep. apply Hh. congruence.
  - destruct (dispatch_data_raises copy d1 s3 Hc3) as (k & s' & E & Hd & Hpd & Hh);
      [left; congruence|].
    rewrite E. simpl. split.
    + right. split; [discriminate|]. rewrite Hd, <- Fd. reflexivity.
    + apply Hkeep. apply Hh. congruence.
Qed.

Lemma dispatch_data_cases doc r d s :
  heap s !! r = Some d ->
  let out := dispatch_data doc r s in
  prev_data (snd out) = prev_data s /\
  (forall l, l <> r -> heap (snd out) !! l = heap s !! l) /\
  ((fst out = Ok tt /\ dispatched (snd out) = dispatched s ++ [stripped doc d]) \/
   (fst out <> Ok tt /\ dispatched (snd out) = dispatched s)).
Proof.
  intros Hr out. subst out.
  destruct (String.eqb doc "zookeeperStats") eqn:Hdoc.
  - apply String.eqb_eq in Hdoc. subst doc.
    destruct (d !! "packetsSent") as [v1|] eqn:H1;
      [destruct (d !! "packetsReceived") as [v2|] eqn:H2|].
    + destruct (dispatch_data_ok "zookeeperStats" r d s Hr) as (s' & E & Hd & Hpd & Hh);
        [right; eauto|].
      rewrite E. simpl. split; [assumption|]. split; [|left; auto].
      intros l Hl. rewrite Hh. apply lookup_insert_ne. congruence.
    + destruct (dispatch_data_raises r d s Hr) as (k & s' & E & Hd & Hpd & Hh); [auto|].
      rewrite E. simpl. split; [assumption|]. split; [assumption|].
      right. split; [discriminate|assumption].
    + destruct (dispatch_data_raises r d s Hr) as (k & s' & E & Hd & Hpd & Hh); [auto|].
      rewrite E. simpl. split; [assumption|]. split; [assumption|].
      right. split; [discriminate|assumption].
  - destruct (dispatch_data_ok doc r d s Hr) as (s' & E & Hd & Hpd & Hh); [left; exact Hdoc|].
    rewrite E. simpl. split; [assumption|]. split; [|left; auto].
    intros l Hl. rewrite Hh. apply lookup_insert_ne. congruence.
Qed.

(** C3, as the code has it.  When the rate step of [add_rate_dispatch] does
    not raise, [prev_data] holds under the process id the current sample
    object itself, with the content the rate step left in it: the rate
    fields are attached to the stored sample (on a first poll both are 0),
    and every other field, the raw counters included, is as in the input.
    The record given to [dispatch_data] is a new object: whatever
    [dispatch_data] removes, every other object of the heap, the stored
    sample among them, is unchanged.  When the rate step raises, nothing is
    stored or dispatched. *)
Theorem stored_sample_is_current_object (pid doc : string) (r : loc)
    (d : gmap string value) (s : state) :
  heap s !! r = Some d ->
  let rated := rate_step pid r s in
  let out := add_rate_dispatch pid doc r s in
  (fst rated <> Ok tt -> out = rated) /\
  (fst rated = Ok tt ->
   prev_data (snd out) !! pid = Some r /\
   heap (snd out) !! r = heap (snd rated) !! r /\
   (forall k, k <> "packetsReceivedRate" -> k <> "packetsSentRate" ->
      (heap (snd out) !!! r) !! k = d !! k) /\
   (prev_data s !! pid = None -> heap (snd out) !! r = Some (with_default_rates d)) /\
   exists copy,
     copy <> r /\ heap s !! copy = None /\
     (forall l, l <> copy -> heap (snd out) !! l = heap (snd rated) !! l) /\
     (fst out = Ok tt ->
      dispatched (snd out) = dispatched s ++ [stripped doc (heap (snd rated) !!! r)]) /\
     (fst out <> Ok tt -> dispatched (snd out) = dispatched s)).
Proof.
  intros Hr rated out. subst rated out. rewrite add_rate_dispatch_steps.
  pose proof (rate_step_frame r pid s) as F.
  assert (Hfirst : prev_data s !! pid = None ->
            rate_step pid r s = (Ok tt, set_heap <[r := with_default_rates d]> s)).
  { intros Hp. unfold rate_step.
    rewrite bool_decide_eq_false_2 by (rewrite not_elem_of_dom; exact Hp).
    apply add_default_rate_value_lookup. exact Hr. }
  destruct (rate_step pid r s) as [[[]|e] s1]; simpl in F; cbn [fst snd].
  2:{ split; [reflexivity|discriminate]. }
  split; [congruence|]. intros _.
  destruct F as (_ & _ & Fp & Fd & _ & _ & Fr & Fo & Fk).
  destruct (Fr (ex_intro _ d Hr)) as [d1 Hd1].
  rewrite (lookup_total_correct _ _ _ Hd1).
  cbv zeta.
  set (s2 := set_prev_data <[pid := r]> s1).
  set (copy := fresh (dom (heap s2))).
  set (s3 := set_heap <[copy := d1]> s2).
  assert (Hcopy : copy <> r) by (apply (fresh_ne r d1); exact Hd1).
  assert (Hnew : heap s1 !! copy = None).
  { apply not_elem_of_dom. apply (is_fresh (dom (heap s1))). }
  assert (Hc3 : heap s3 !! copy = Some d1) by (simpl; apply lookup_insert_eq).
  destruct (dispatch_data_cases doc copy d1 s3 Hc3) as (Hpd & Hh & Hdis).
  assert (Hstored : heap (dispatch_data doc copy s3).2 !! r = Some d1).
  { rewrite Hh by congruence. simpl. rewrite lookup_insert_ne by exact Hcopy. exact Hd1. }
  split; [rewrite Hpd; simpl; apply lookup_insert_eq|].
  split; [congruence|].
  split.
  { intros k H1 H2. rewrite (lookup_total_correct _ _ _ Hstored).
    rewrite <- (lookup_total_correct _ _ _ Hd1), Fk by assumption.
    rewrite (lookup_total_correct _ _ _ Hr). reflexivity. }
  split.
  { intros Hp. specialize (Hfirst Hp). injection Hfirst as ->.
    rewrite Hstored, <- Hd1. simpl. apply lookup_insert_eq. }
  exists copy. split; [exact Hcopy|].
  split; [rewrite <- Fo by exact Hcopy; exact Hnew|].
  split.
  { intros l Hl. rewrite Hh by exact Hl. simpl. apply lookup_insert_ne. congruence. }
  destruct Hdis as [[E Hd]|[E Hd]].
  - split.
    + intros _. rewrite Hd. simpl. rewrite Fd. reflexivity.
    + intros E'. contradiction.
  - split.
    + intros E'. contradiction.
    + intros _. rewrite Hd. simpl. exact Fd.
Qed.

End RateFrame.

Lemma raw_counters_stripped_witness :
  let out := add_rate_dispatch (H := sample_constants) "111" "zookeeperStats" 0%nat
               sample_state in
  ((exists record,
      fst out = Ok tt /\ dispatched (snd out) = dispatched sample_state ++ [record] /\
      record !! "packetsReceived" = None /\ record !! "packetsSent" = None /\
      is_Some (sample_first !! "packetsReceived") /\
      is_Some (sample_first !! "packetsSent")) \/
   (fst out <> Ok tt /\ dispatched (snd out) = dispatched sample_state)) /\
  (heap (snd out) !!! 0%nat) !! "packetsReceived" = sample_first !! "packetsReceived" /\
  (heap (snd out) !!! 0%nat) !! "packetsSent" = sample_first !! "packetsSent".
Proof.
  apply (raw_counters_stripped (H := sample_constants) "111" 0%nat sample_first
           sample_state).
  reflexivity.
Defined.

(** C3 as stated fails: after the first poll of the sample scenario the
    sample stored under the process id carries [packetsReceivedRate], a field
    the sample did not have before the rate step. *)
Lemma stored_sample_carries_rate_fields :
  let out := add_rate_dispatch (H := sample_constants) "111" "zookeeperStats" 0%nat
               sample_state in
  fst out = Ok tt /\
  prev_data (snd out) !! "111" = Some 0%nat /\
  (heap (snd out) !!! 0%nat) !! "packetsReceivedRate" = Some (VInt 0) /\
  (heap (snd out) !!! 0%nat) !! "packetsSentRate" = Some (VInt 0) /\
  sample_first !! "packetsReceivedRate" = None /\
  sample_first !! "packetsSentRate" = None.
Proof. vm_compute. repeat split. Qed.

Lemma stored_sample_is_current_object_witness :
  let rated := rate_step (H := sample_constants) "111" 0%nat sample_state in
  let out := add_rate_dispatch (H := sample_constants) "111" "zookeeperStats" 0%nat
               sample_state in
  (fst rated <> Ok tt -> out = rated) /\
  (fst rated = Ok tt ->
   prev_data (snd out) !! "111" = Some 0%nat /\
   heap (snd out) !! 0%nat = heap (snd rated) !! 0%nat /\
   (forall k, k <> "packetsReceivedRate" -> k <> "packetsSentRate" ->
      (heap (snd out) !!! 0%nat) !! k = sample_first !! k) /\
   (prev_data sample_state !! "111" = None ->
    heap (snd out) !! 0%nat = Some (with_default_rates sample_first)) /\
   exists copy,
     copy <> 0%nat /\ heap sample_state !! copy = None /\
     (forall l, l <> copy -> heap (snd out) !! l = heap (snd rated) !! l) /\
     (fst out = Ok tt ->
      dispatched (snd out) =
        dispatched sample_state ++ [stripped "zookeeperStats" (heap (snd rated) !!! 0%nat)]) /\
     (fst out <> Ok tt -> dispatched (snd out) = dispatched sample_state)).
Proof.
  apply (stored_sample_is_current_object (H := sample_constants) "111" "zookeeperStats"
           0%nat sample_first sample_state).
  reflexivity.
Defined.

(** * The orchestrator on concrete cycles *)

(** C9 fails on the code.  A zookeeperStats record without [packetsSent]
    (the server bean answered 404, the data-tree bean answered) makes
    [del result[item]] in [dispatch_data] raise [KeyError], and a one-line
    status output makes [status.splitlines()[1]] in [get_pid_port] raise
    [IndexError]; neither statement is inside a [try], and the exception
    leaves [collect_jmx_data]. *)
Theorem uncaught_exceptions_leave_the_cycle :
  fst (collect_jmx_data (H := sample_constants) host_no_server_bean sample_plugin)
    = Raise (KeyError "packetsSent") /\
  fst (collect_jmx_data (H := sample_constants) host_short_status sample_plugin)
    = Raise IndexError.
Proof. split; vm_compute; reflexivity. Qed.

(** C5 fails on the code.  Two workers, three tuples on the queue, the
    second a zookeeperStats record without packet counters: the drain makes
    two pulls instead of four, dispatches one record instead of three, logs
    no lost result, and leaves the third tuple on the queue, because the
    [KeyError] of [dispatch_data] ends the loops. *)
Theorem drain_aborted_by_dispatch :
  let joined := run_pid_process (H := sample_constants) host_three_of_four
                  ["111"; "222"] sample_plugin in
  let out := collect_jmx_data (H := sample_constants) host_three_of_four sample_plugin in
  match fst joined with Ok procs => length procs | Raise _ => 0%nat end = 2%nat /\
  length (output (snd joined)) = 3%nat /\
  fst out = Raise (KeyError "packetsSent") /\
  pulls (snd out) = 2%nat /\
  length (dispatched (snd out)) = 1%nat /\
  lost_results (log (snd out)) = 0%nat /\
  length (output (snd out)) = 1%nat.
Proof.
  repeat split; vm_compute; reflexivity.
Qed.

(** * The drain loop when every dispatch completes *)

Section Drain.
Context `{Constants}.

#[local] Instance queue_frame_refl : Reflexive queue_frame.
Proof. intros s. unfold queue_frame. auto. Qed.

#[local] Instance queue_frame_trans : Transitive queue_frame.
Proof.
  intros s1 s2 s3 (A1 & A2 & A3) (B1 & B2 & B3). unfold queue_frame.
  repeat split; congruence.
Qed.

Lemma lost_results_app lg l m :
  m <> MsgLostResult -> lost_results (lg ++ [(l, m)]) = lost_results lg.
Proof.
  intros Hm. unfold lost_results. rewrite List.filter_app, length_app.
  destruct l, m; simpl; try lia; contradiction.
Qed.

Lemma log_add_queue_frame l m : m <> MsgLostResult -> preserves queue_frame (log_add l m).
Proof.
  intros Hm s. unfold queue_frame. simpl. split; [reflexivity|]. split; [reflexivity|].
  apply lost_results_app. exact Hm.
Qed.

Lemma set_heap_queue_frame f : preserves queue_frame (modify (set_heap f)).
Proof. intros s. unfold queue_frame. simpl. auto. Qed.

Lemma set_prev_data_queue_frame f : preserves queue_frame (modify (set_prev_data f)).
Proof. intros s. unfold queue_frame. simpl. auto. Qed.

Lemma set_dispatched_queue_frame f : preserves queue_frame (modify (set_dispatched f)).
Proof. intros s. unfold queue_frame. simpl. auto. Qed.

Ltac queue_step :=
  first [ apply log_add_queue_frame; discriminate
        | apply set_heap_queue_frame | apply set_prev_data_queue_frame
        | apply set_dispatched_queue_frame
        | preserves_step ].

Lemma deref_queue_frame r : preserves queue_frame (deref r).
Proof. unfold deref. repeat queue_step. Qed.

Lemma alloc_queue_frame d : preserves queue_frame (alloc d).
Proof. unfold alloc. repeat queue_step. Qed.

Lemma dict_set_queue_frame r k v : preserves queue_frame (dict_set r k v).
Proof. unfold dict_set. repeat first [apply deref_queue_frame | queue_step]. Qed.

Lemma dict_del_queue_frame r k : preserves queue_frame (dict_del r k).
Proof. unfold dict_del. repeat first [apply deref_queue_frame | queue_step]. Qed.

Lemma get_rate_queue_frame key curr prev : preserves queue_frame (get_rate key curr prev).
Proof. unfold get_rate. cbv zeta. repeat queue_step. Qed.

Lemma dispatch_data_queue_frame doc r : preserves queue_frame (dispatch_data doc r).
Proof.
  unfold dispatch_data, utils_dispatch.
  repeat first [apply deref_queue_frame | apply dict_del_queue_frame | queue_step].
Qed.

Lemma add_rate_dispatch_queue_frame pid doc r :
  preserves queue_frame (add_rate_dispatch pid doc r).
Proof.
  unfold add_rate_dispatch, add_rate, add_default_rate_value, deepcopy, prev_of.
  cbv zeta.
  repeat first
    [ apply deref_queue_frame | apply alloc_queue_frame | apply dict_set_queue_frame
    | apply get_rate_queue_frame | apply dispatch_data_queue_frame | queue_step ].
Qed.

Lemma alloc_lookup d s :
  exists r, alloc d s = (Ok r, set_heap <[r := d]> s) /\
    heap (set_heap <[r := d]> s) !! r = Some d.
Proof.
  exists (fresh (dom (heap s))). split; [reflexivity|]. simpl. apply lookup_insert_eq.
Qed.

(** A completed [add_rate_dispatch] has given one record to the collector. *)
Lemma add_rate_dispatch_dispatches pid doc r d s s' :
  heap s !! r = Some d ->
  add_rate_dispatch pid doc r s = (Ok tt, s') ->
  length (dispatched s') = Datatypes.S (length (dispatched s)).
Proof.
  intros Hr Hrun. rewrite add_rate_dispatch_steps in Hrun.
  pose proof (rate_step_frame r pid s) as F.
  destruct (rate_step pid r s) as [[[]|e] s1]; [|discriminate]. simpl in F.
  destruct F as (_ & _ & _ & Fd & _ & _ & Fr & _ & _).
  destruct (Fr (ex_intro _ d Hr)) as [d1 Hd1].
  rewrite (lookup_total_correct _ _ _ Hd1) in Hrun. cbv zeta in Hrun.
  match type of Hrun with
  | dispatch_data _ ?c ?s3 = _ =>
      assert (Hc : heap s3 !! c = Some d1) by (simpl; apply lookup_insert_eq);
      destruct (dispatch_data_cases doc c d1 s3 Hc) as (_ & _ & [[_ Hd]|[Hne _]])
  end.
  - rewrite Hrun in Hd. simpl in Hd. rewrite Hd, length_app, Fd. simpl. lia.
  - rewrite Hrun in Hne. contradiction.
Qed.

Lemma dispatch_data_dispatches doc r d s s' :
  heap s !! r = Some d ->
  dispatch_data doc r s = (Ok tt, s') ->
  length (dispatched s') = Datatypes.S (length (dispatched s)).
Proof.
  intros Hr Hrun.
  destruct (dispatch_data_cases doc r d s Hr) as (_ & _ & [[_ Hd]|[Hne _]]).
  - rewrite Hrun in Hd. simpl in Hd. rewrite Hd, length_app. simpl. lia.
  - rewrite Hrun in Hne. contradiction.
Qed.

Lemma get_nowait_empty s :
  output s = [] ->
  get_nowait s = (Raise QueueEmpty, set_output [] (Datatypes.S (pulls s)) s).
Proof.
  intros Hout. unfold get_nowait.
  erewrite bind_ok by (unfold get_state; reflexivity). rewrite Hout. reflexivity.
Qed.

Lemma get_nowait_cons s t q :
  output s = t :: q ->
  get_nowait s = (Ok t, set_output q (Datatypes.S (pulls s)) s).
Proof.
  intros Hout. unfold get_nowait.
  erewrite bind_ok by (unfold get_state; reflexivity). rewrite Hout. reflexivity.
Qed.

(** One completed iteration of the inner loop: one pull; on an empty queue a
    lost result is logged and nothing is dispatched, otherwise the oldest
    tuple leaves the queue and one record is dispatched. *)
Lemma drain_one_counts doc s s' :
  drain_one doc s = (Ok tt, s') ->
  pulls s' = Datatypes.S (pulls s) /\
  length (output s') = pred (length (output s)) /\
  match output s with
  | [] => lost_results (log s') = Datatypes.S (lost_results (log s)) /\
          length (dispatched s') = length (dispatched s)
  | _ :: _ => lost_results (log s') = lost_results (log s) /\
              length (dispatched s') = Datatypes.S (length (dispatched s))
  end.
Proof.
  unfold drain_one. intros Hrun.
  destruct (output s) as [|[[pid doc_name] doc_result] q] eqn:Hout.
  - erewrite bind_ok in Hrun.
    2:{ unfold try_except.
        erewrite bind_raise by (apply get_nowait_empty; exact Hout). reflexivity. }
    apply ret_inv in Hrun. destruct Hrun as [_ ->]. simpl.
    split; [reflexivity|]. split; [reflexivity|]. split; [|reflexivity].
    unfold lost_results. rewrite List.filter_app, length_app. simpl.
    apply Nat.add_1_r.
  - erewrite bind_ok in Hrun.
    2:{ unfold try_except.
        erewrite bind_ok by (apply get_nowait_cons; exact Hout). reflexivity. }
    cbv beta iota in Hrun.
    set (s0 := set_output q (Datatypes.S (pulls s)) s) in *.
    destruct (alloc_lookup doc_result s0) as (r & Halloc & Hr).
    rewrite (bind_ok _ _ _ _ _ Halloc) in Hrun.
    set (s1 := set_heap <[r := doc_result]> s0) in *.
    assert (Hframe : queue_frame s1 s' /\
              length (dispatched s') = Datatypes.S (length (dispatched s1))).
    { destruct (String.eqb doc_name "zookeeperStats").
      - split.
        + pose proof (add_rate_dispatch_queue_frame pid doc_name r s1) as F.
          rewrite Hrun in F. exact F.
        + eapply add_rate_dispatch_dispatches; eassumption.
      - split.
        + pose proof (dispatch_data_queue_frame doc_name r s1) as F.
          rewrite Hrun in F. exact F.
        + eapply dispatch_data_dispatches; eassumption. }
    destruct Hframe as ((Fo & Fp & Fl) & Fd).
    rewrite Fo, Fp, Fl, Fd. simpl. auto.
Qed.

Lemma drain_docs_counts (docs : list string) s s' :
  for_each docs drain_one s = (Ok tt, s') ->
  pulls s' = (pulls s + length docs)%nat /\
  length (output s') = (length (output s) - length docs)%nat /\
  lost_results (log s') =
    (lost_results (log s) + (length docs - length (output s)))%nat /\
  length (dispatched s') =
    (length (dispatched s) + Nat.min (length (output s)) (length docs))%nat.
Proof.
  revert s. induction docs as [|doc docs IH]; intros s Hrun.
  - apply ret_inv in Hrun. destruct Hrun as [_ ->]. simpl. lia.
  - cbn [for_each] in Hrun.
    apply bind_inv_ok in Hrun. destruct Hrun as ([] & s1 & Hone & Hrun).
    apply drain_one_counts in Hone. destruct Hone as (Hp & Ho & Hcase).
    apply IH in Hrun. destruct Hrun as (Hp' & Ho' & Hl' & Hd').
    rewrite Hp', Ho', Hl', Hd', Hp, Ho. cbn [length].
    destruct (output s) as [|t q]; destruct Hcase as [Hl Hd]; rewrite Hl, Hd; simpl; lia.
Qed.

(** The drain of [collect_jmx_data], when it completes: exactly
    [#workers x #categories] pulls were made; every pull that found the queue
    empty logged one lost result, and every tuple pulled was dispatched. *)
Theorem drain_counts {A} (procs : list A) (s s' : state) :
  drain procs s = (Ok tt, s') ->
  pulls s' = (pulls s + length procs * length ZOOK_DOCS)%nat /\
  lost_results (log s') =
    (lost_results (log s) + (length procs * length ZOOK_DOCS - length (output s)))%nat /\
  length (dispatched s') =
    (length (dispatched s)
     + Nat.min (length (output s)) (length procs * length ZOOK_DOCS))%nat /\
  length (output s') = (length (output s) - length procs * length ZOOK_DOCS)%nat.
Proof.
  unfold drain. revert s. induction procs as [|p procs IH]; intros s Hrun.
  - apply ret_inv in Hrun. destruct Hrun as [_ ->]. simpl. lia.
  - cbn [for_each] in Hrun.
    apply bind_inv_ok in Hrun. destruct Hrun as ([] & s1 & Hdocs & Hrun).
    apply drain_docs_counts in Hdocs. destruct Hdocs as (Hp & Ho & Hl & Hd).
    apply IH in Hrun. destruct Hrun as (Hp' & Hl' & Hd' & Ho').
    rewrite Hp', Hl', Hd', Ho', Hp, Ho, Hl, Hd. cbn [length]. lia.
Qed.

End Drain.

Lemma drain_counts_witness :
  let s' := snd (drain (H := sample_constants) [tt; tt] sample_queue_state) in
  pulls s' = (pulls sample_queue_state + length [tt; tt] * length ZOOK_DOCS)%nat /\
  lost_results (log s') =
    (lost_results (log sample_queue_state)
     + (length [tt; tt] * length ZOOK_DOCS - length (output sample_queue_state)))%nat /\
  length (dispatched s') =
    (length (dispatched sample_queue_state)
     + Nat.min (length (output sample_queue_state))
               (length [tt; tt] * length ZOOK_DOCS))%nat /\
  length (output s') =
    (length (output sample_queue_state) - length [tt; tt] * length ZOOK_DOCS)%nat.
Proof.
  apply (drain_counts (H := sample_constants) [tt; tt] sample_queue_state).
  vm_compute. reflexivity.
Defined.

(** Two workers and three well-formed tuples: four pulls, one lost result
    logged, three records dispatched. *)
Example drain_three_of_four :
  let out := drain (H := sample_constants) [tt; tt] sample_queue_state in
  fst out = Ok tt /\ pulls (snd out) = 4%nat /\
  lost_results (log (snd out)) = 1%nat /\ length (dispatched (snd out)) = 3%nat.
Proof. repeat split; vm_compute; reflexivity. Qed.

(** The end-to-end scenario: ZooKeeper counters 100/50 at time 1000 and
    160/80 at time 1060, interval 60.  The first cycle dispatches rates 0 and
    0 for process 111, the second 1.0 and 0.5; the raw counters are in
    neither record. *)
Theorem two_cycles_scenario :
  let first := collect_jmx_data (H := sample_constants) (host_cycle 100 50 1000)
                 sample_plugin in
  let second := collect_jmx_data (H := sample_constants) (host_cycle 160 80 1060)
                  (snd first) in
  fst first = Ok tt /\ fst second = Ok tt /\
  length (dispatched (snd first)) = 4%nat /\
  length (dispatched (snd second)) = 8%nat /\
  dispatched_field (snd first) 1 "_documentType" = Some (VStr "zookeeperStats") /\
  dispatched_field (snd first) 1 "packetsReceivedRate" = Some (VInt 0) /\
  dispatched_field (snd first) 1 "packetsSentRate" = Some (VInt 0) /\
  dispatched_field (snd first) 1 "packetsReceived" = None /\
  dispatched_field (snd first) 1 "packetsSent" = None /\
  dispatched_field (snd second) 5 "_documentType" = Some (VStr "zookeeperStats") /\
  dispatched_field (snd second) 5 "packetsReceivedRate" = Some (VFloat 1) /\
  dispatched_field (snd second) 5 "packetsSentRate" = Some (VFloat (1 # 2)) /\
  dispatched_field (snd second) 5 "packetsReceived" = None /\
  dispatched_field (snd second) 5 "packetsSent" = None.
Proof. repeat split; vm_compute; reflexivity. Qed.

(** * Extraction routines *)

Lemma jrequest_inv j r s v s' :
  jrequest j r s = (Ok v, s') ->
  j (calls s) r = Ok v /\ s' = XState (dict_jmx s) (S (calls s)) (xlog s).
Proof. unfold jrequest. intros [= -> <-]. auto. Qed.

Lemma setitem_inv k v s u s' :
  setitem k v s = (Ok u, s') ->
  s' = XState (<[k := v]> (dict_jmx s)) (calls s) (xlog s).
Proof. unfold setitem, modify. intros [= _ <-]. reflexivity. Qed.

Lemma store_inv k e s u s' :
  store k e s = (Ok u, s') ->
  exists v, e = Ok v /\ s' = XState (<[k := v]> (dict_jmx s)) (calls s) (xlog s).
Proof.
  unfold store. intros Hb. apply bind_inv_ok in Hb. destruct Hb as (v & s1 & Hl & Hs).
  apply lift_inv in Hl. destruct Hl as [-> ->]. apply setitem_inv in Hs. eauto.
Qed.

Lemma status_ok_inv json s b s' :
  status_ok json s = (Ok b, s') ->
  s' = s /\ exists st, py_getitem json "status" = Ok st /\ b = py_eq st (VInt 200).
Proof.
  unfold status_ok. intros Hb. apply bind_inv_ok in Hb. destruct Hb as (st & s1 & Hl & Hr).
  apply lift_inv in Hl. destruct Hl as [Hst ->]. apply ret_inv in Hr. destruct Hr as [-> ->].
  eauto.
Qed.

Lemma handle_neg_bytes_inv v k s u s' :
  handle_neg_bytes v k s = (Ok u, s') ->
  exists w, neg_bytes_value v = Ok w /\
    s' = XState (<[k := w]> (dict_jmx s)) (calls s) (xlog s).
Proof.
  unfold handle_neg_bytes, neg_bytes_value. destruct (py_eq v (VInt (-1))).
  - intros Hs. apply setitem_inv in Hs. eauto.
  - apply store_inv.
Qed.

(** Takes apart a hypothesis [m s = (Ok a, s')] along the statements of [m]. *)
Ltac inv_ok H :=
  lazymatch type of H with
  | bind _ _ _ = (Ok _, _) =>
      let a := fresh "a" in let s := fresh "s" in let H1 := fresh "H" in
      apply bind_inv_ok in H; destruct H as (a & s & H1 & H);
      inv_ok H1; inv_ok H
  | lift _ _ = (Ok _, _) =>
      let E := fresh "E" in apply lift_inv in H; destruct H as [E ->]
  | ret _ _ = (Ok _, _) =>
      let E := fresh "E" in apply ret_inv in H; destruct H as [E ->]; try subst
  | jrequest _ _ _ = (Ok _, _) =>
      let E := fresh "E" in
      apply jrequest_inv in H; destruct H as [E ->]; cbn [dict_jmx calls xlog] in *
  | setitem _ _ _ = (Ok _, _) =>
      apply setitem_inv in H; subst; cbn [dict_jmx calls xlog] in *
  | store _ _ _ = (Ok _, _) =>
      let v := fresh "v" in let E := fresh "E" in
      apply store_inv in H; destruct H as (v & E & ->); cbn [dict_jmx calls xlog] in *
  | status_ok _ _ = (Ok _, _) =>
      let st := fresh "st" in let E := fresh "E" in
      apply status_ok_inv in H; destruct H as (-> & st & E & ->)
  | handle_neg_bytes _ _ _ = (Ok _, _) =>
      let w := fresh "w" in let E := fresh "E" in
      apply handle_neg_bytes_inv in H; destruct H as (w & E & ->);
      cbn [dict_jmx calls xlog] in *
  | (if ?b then _ else _) _ = (Ok _, _) =>
      let Hb := fresh "Hb" in destruct b eqn:Hb; inv_ok H
  | _ => idtac
  end.

(** Reads a key of a record built by a sequence of stores. *)
Ltac read_store :=
  cbn [dict_jmx];
  repeat (rewrite lookup_insert_ne by discriminate);
  first [apply lookup_insert_eq | reflexivity | eassumption].

Ltac show_converted :=
  match goal with
  | |- converted _ _ _ _ => eexists _, _; repeat split; [eassumption|eassumption|read_store]
  end.

Lemma add_memory_parameters_converts j s s' json :
  add_memory_parameters j s = (Ok tt, s') ->
  j (calls s) (read_mbean "java.lang:type=Memory") = Ok json ->
  accepted json ->
  exists heap non_heap,
    jvalue json "HeapMemoryUsage" = Ok heap /\
    jvalue json "NonHeapMemoryUsage" = Ok non_heap /\
    converted heap "init" (dict_jmx s') "heapMemoryUsageInit" /\
    converted heap "max" (dict_jmx s') "heapMemoryUsageMax" /\
    converted non_heap "init" (dict_jmx s') "nonHeapMemoryUsageInit" /\
    converted non_heap "max" (dict_jmx s') "nonHeapMemoryUsageMax".
Proof.
  intros Hrun Hj (st & Hst & H200).
  unfold add_memory_parameters in Hrun.
  apply bind_inv_ok in Hrun. destruct Hrun as (json' & s1 & Hreq & Hrun).
  apply jrequest_inv in Hreq. destruct Hreq as [Hreq ->].
  rewrite Hj in Hreq. injection Hreq as <-.
  apply bind_inv_ok in Hrun. destruct Hrun as (ok & s2 & Hok & Hrun).
  apply status_ok_inv in Hok. destruct Hok as (-> & st2 & Hst2 & ->).
  rewrite Hst in Hst2. injection Hst2 as <-. rewrite H200 in Hrun.
  inv_ok Hrun.
  eexists _, _. split; [eassumption|]. split; [eassumption|].
  repeat split; show_converted.
Qed.

Lemma jmxstats_head_converts j s s' :
  jmxstats_head j s = (Ok tt, s') ->
  exists memory_json,
    j (S (S (calls s))) (read_mbean "java.lang:type=Memory") = Ok memory_json /\
    (accepted memory_json ->
     exists heap non_heap,
       jvalue memory_json "HeapMemoryUsage" = Ok heap /\
       jvalue memory_json "NonHeapMemoryUsage" = Ok non_heap /\
       converted heap "init" (dict_jmx s') "heapMemoryUsageInit" /\
       converted non_heap "init" (dict_jmx s') "nonHeapMemoryUsageInit").
Proof.
  intros Hrun. unfold jmxstats_head in Hrun.
  apply bind_inv_ok in Hrun. destruct Hrun as (cl & s1 & Hreq & Hrun). inv_ok Hreq.
  apply bind_inv_ok in Hrun. destruct Hrun as (ok1 & s2 & Hok & Hrun). inv_ok Hok.
  apply bind_inv_ok in Hrun. destruct Hrun as ([] & s3 & Hcl & Hrun).
  assert (Hc3 : calls s3 = S (calls s)).
  { destruct (py_eq st (VInt 200)); inv_ok Hcl; reflexivity. }
  clear Hcl.
  apply bind_inv_ok in Hrun. destruct Hrun as (th & s4 & Hreq & Hrun). inv_ok Hreq.
  apply bind_inv_ok in Hrun. destruct Hrun as (ok2 & s5 & Hok & Hrun). inv_ok Hok.
  apply bind_inv_ok in Hrun. destruct Hrun as ([] & s6 & Hth & Hrun).
  assert (Hc6 : calls s6 = S (S (calls s))).
  { destruct (py_eq st0 (VInt 200)); inv_ok Hth; cbn [calls]; rewrite Hc3; reflexivity. }
  clear Hth.
  apply bind_inv_ok in Hrun. destruct Hrun as (mem & s7 & Hreq & Hrun).
  apply jrequest_inv in Hreq. destruct Hreq as [Hmem ->]. rewrite Hc6 in Hmem.
  apply bind_inv_ok in Hrun. destruct Hrun as (ok3 & s8 & Hok & Hrun).
  apply status_ok_inv in Hok. destruct Hok as (-> & st3 & Hst3 & ->).
  exists mem. split; [assumption|].
  intros (st' & Hst' & H200). rewrite Hst' in Hst3. injection Hst3 as <-.
  rewrite H200 in Hrun. inv_ok Hrun.
  eexists _, _. split; [eassumption|]. split; [eassumption|].
  split; show_converted.
Qed.

Lemma round_half_away_comp x y : (x == y)%Q -> round_half_away x = round_half_away y.
Proof.
  intros E. unfold round_half_away.
  assert (Hb : Qle_bool 0 x = Qle_bool 0 y).
  { destruct (Qle_bool 0 x) eqn:Hx, (Qle_bool 0 y) eqn:Hy; try reflexivity.
    - apply Qle_bool_iff in Hx. rewrite E in Hx. apply Qle_bool_iff in Hx. congruence.
    - apply Qle_bool_iff in Hy. rewrite <- E in Hy. apply Qle_bool_iff in Hy. congruence. }
  rewrite Hb. destruct (Qle_bool 0 y).
  - apply Qfloor_comp. rewrite E. reflexivity.
  - f_equal. apply Qfloor_comp. rewrite E. reflexivity.
Qed.

Lemma round_q_comp x y n : (x == y)%Q -> round_q x n = round_q y n.
Proof.
  intros E. unfold round_q. destruct (0 <=? n).
  - rewrite (round_half_away_comp (x * pow10 n) (y * pow10 n)) by (rewrite E; reflexivity).
    reflexivity.
  - rewrite (round_half_away_comp (x / pow10 (- n)) (y / pow10 (- n)))
      by (rewrite E; reflexivity).
    reflexivity.
Qed.

Lemma py_eq_number v q n : as_num v = Some q -> py_eq v (VInt n) = Qeq_bool q (inject_Z n).
Proof. destruct v; simpl; intros [= <-]; reflexivity. Qed.

Lemma bytes_to_mb_number v q :
  as_num v = Some q -> bytes_to_mb v = Ok (VFloat (round_q (q / 1024 / 1024) 2)).
Proof.
  intros Hq. unfold bytes_to_mb, py_div_float. rewrite Hq. simpl.
  unfold py_round. simpl. f_equal. f_equal. apply round_q_comp.
  rewrite !Qred_correct. reflexivity.
Qed.

(** [handle_neg_bytes] on a number *)
Lemma handle_neg_bytes_number v q k s :
  as_num v = Some q ->
  handle_neg_bytes v k s =
    (Ok tt,
     XState (<[k := if Qeq_bool q (-1) then v else VFloat (round_q (q / 1024 / 1024) 2)]>
               (dict_jmx s)) (calls s) (xlog s)).
Proof.
  intros Hq. unfold handle_neg_bytes. rewrite (py_eq_number v q (-1) Hq).
  change (inject_Z (-1)) with (-1)%Q.
  destruct (Qeq_bool q (-1)); [reflexivity|].
  unfold store, bind, lift. rewrite (bytes_to_mb_number v q Hq). reflexivity.
Qed.

Lemma append_inj_r p a b : p +:+ a = p +:+ b -> a = b.
Proof. induction p as [|c p IH]; simpl; [auto|]. intros [= E]. auto. Qed.

Lemma append_assoc p a b : (p +:+ a) +:+ b = p +:+ (a +:+ b).
Proof.
  induction p as [|c p IH]; [reflexivity|].
  change (String c ((p +:+ a) +:+ b) = String c (p +:+ (a +:+ b))).
  f_equal. exact IH.
Qed.

(** Reads a key [p +:+ suffix] of a record built by stores under the prefix [p]. *)
Ltac read_store_under :=
  cbn [dict_jmx];
  repeat (rewrite lookup_insert_ne
            by (let E := fresh in intros E; apply append_inj_r in E; discriminate E));
  first [apply lookup_insert_eq | reflexivity | eassumption].

(** Brings keys [(p +:+ a) +:+ b] to the form [p +:+ ab]. *)
Ltac norm_keys :=
  rewrite ?append_assoc;
  repeat match goal with
         | |- context [String ?c ?a +:+ ?b] =>
             let r := eval cbv in (String c a +:+ b) in
             change (String c a +:+ b) with r
         end.

Ltac show_converted_under :=
  match goal with
  | |- converted _ _ _ _ =>
      eexists _, _; split; [eassumption|split; [eassumption|read_store_under]]
  end.

Lemma pool_usage_converts usage p s s' :
  pool_usage usage p s = (Ok tt, s') ->
  converted usage "max" (dict_jmx s') (p +:+ "Max") /\
  converted usage "init" (dict_jmx s') (p +:+ "Init").
Proof.
  intros Hrun. unfold pool_usage in Hrun. inv_ok Hrun.
  split; eexists _, _; (split; [eassumption|]); (split; [eassumption|]); read_store_under.
Qed.

Lemma memory_gc_entry_converts key gc_name name values s s' :
  memory_gc_entry key gc_name (name, values) s = (Ok tt, s') ->
  name = "G1 Eden Space" \/ name = "G1 Old Gen" ->
  converted values "init" (dict_jmx s')
    (gc_name +:+ key +:+ no_spaces name +:+ "Init") /\
  converted values "max" (dict_jmx s')
    (gc_name +:+ key +:+ no_spaces name +:+ "Max").
Proof.
  intros Hrun Hname. unfold memory_gc_entry in Hrun.
  assert (Hin : existsb (String.eqb name) ["G1 Eden Space"; "G1 Old Gen"] = true).
  { destruct Hname as [-> | ->]; reflexivity. }
  rewrite Hin in Hrun. cbv zeta in Hrun. inv_ok Hrun.
  rewrite <- !append_assoc.
  split; eexists _, _; (split; [eassumption|]); (split; [eassumption|]); read_store_under.
Qed.

Lemma is_valid_inv valid s b s' :
  is_valid valid s = (Ok b, s') ->
  s' = s /\
  (b = true ->
   accepted valid /\ exists v, py_getitem valid "value" = Ok v /\ py_eq v (VBool true) = true).
Proof.
  unfold is_valid. intros Hrun.
  apply bind_inv_ok in Hrun. destruct Hrun as (ok & s1 & Hok & Hrun).
  apply status_ok_inv in Hok. destruct Hok as (-> & st & Hst & ->).
  destruct (py_eq st (VInt 200)) eqn:H200.
  - inv_ok Hrun. split; [reflexivity|]. intros Hv. split; [exists st; auto|eauto].
  - inv_ok Hrun. split; [reflexivity|]. discriminate.
Qed.

Lemma memory_pool_converts j pool_name s s' mp_values :
  memory_pool j pool_name s = (Ok tt, s') ->
  j (S (calls s))
    (read_attr ("java.lang:type=MemoryPool,name=" +:+ pool_name)
       "CollectionUsage,PeakUsage,Type,Usage,CollectionUsageThresholdSupported,UsageThresholdSupported")
    = Ok mp_values ->
  accepted mp_values ->
  dict_jmx s' = dict_jmx s \/
  exists coll_usage usage peak_usage,
    jvalue mp_values "CollectionUsage" = Ok coll_usage /\
    jvalue mp_values "Usage" = Ok usage /\
    jvalue mp_values "PeakUsage" = Ok peak_usage /\
    (truthy coll_usage = true ->
     converted coll_usage "max" (dict_jmx s') (no_spaces pool_name +:+ "CollectionUsageMax") /\
     converted coll_usage "init" (dict_jmx s') (no_spaces pool_name +:+ "CollectionUsageInit")) /\
    converted usage "max" (dict_jmx s') (no_spaces pool_name +:+ "UsageMax") /\
    converted usage "init" (dict_jmx s') (no_spaces pool_name +:+ "UsageInit") /\
    converted peak_usage "max" (dict_jmx s') (no_spaces pool_name +:+ "PeakUsageMax") /\
    converted peak_usage "init" (dict_jmx s') (no_spaces pool_name +:+ "PeakUsageInit").
Proof.
  intros Hrun Hj (st & Hst & H200).
  unfold memory_pool in Hrun. cbv zeta in Hrun.
  apply bind_inv_ok in Hrun. destruct Hrun as (valid & s1 & Hreq & Hrun).
  apply jrequest_inv in Hreq. destruct Hreq as [Hvalid ->].
  apply bind_inv_ok in Hrun. destruct Hrun as (ok & s2 & Hok & Hrun).
  apply is_valid_inv in Hok. destruct Hok as (-> & Hok).
  destruct ok; [|inv_ok Hrun; left; reflexivity].
  apply bind_inv_ok in Hrun. destruct Hrun as (mp & s3 & Hreq & Hrun).
  apply jrequest_inv in Hreq. destruct Hreq as [Hmp ->].
  cbn [dict_jmx calls xlog] in *. rewrite Hj in Hmp. injection Hmp as <-.
  apply bind_inv_ok in Hrun. destruct Hrun as (ok' & s4 & Hok' & Hrun).
  apply status_ok_inv in Hok'. destruct Hok' as (-> & st' & Hst' & ->).
  rewrite Hst in Hst'. injection Hst' as <-. rewrite H200 in Hrun.
  unfold pool_usage in Hrun.
  inv_ok Hrun.
  all: right; eexists _, _, _;
    (split; [eassumption|]); (split; [eassumption|]); (split; [eassumption|]);
    norm_keys;
    (split; [intros Ht; first [congruence | split; show_converted_under]|]);
    repeat split; show_converted_under.
Qed.

(** C6. [handle_neg_bytes] stores a number equal to -1 unchanged and any
    other number as [round(value / 1024 / 1024, 2)]; and every "init" and
    "max" memory attribute that the plugin extracts is stored through this
    conversion: the heap and non-heap attributes of [add_memory_parameters]
    and of [add_jmxstats_parameters], the collection, current and peak usage
    of each pool in [add_memory_pool_parameters], and the per-pool usage
    before and after a collection in [add_gc_parameters]. *)
Theorem sentinel_preserving_conversion :
  (forall v q k s,
     as_num v = Some q ->
     handle_neg_bytes v k s =
       (Ok tt,
        XState (<[k := if Qeq_bool q (-1) then v
                       else VFloat (round_q (q / 1024 / 1024) 2)]> (dict_jmx s))
               (calls s) (xlog s))) /\
  (forall j s s' json,
     add_memory_parameters j s = (Ok tt, s') ->
     j (calls s) (read_mbean "java.lang:type=Memory") = Ok json ->
     accepted json ->
     exists heap non_heap,
       jvalue json "HeapMemoryUsage" = Ok heap /\
       jvalue json "NonHeapMemoryUsage" = Ok non_heap /\
       converted heap "init" (dict_jmx s') "heapMemoryUsageInit" /\
       converted heap "max" (dict_jmx s') "heapMemoryUsageMax" /\
       converted non_heap "init" (dict_jmx s') "nonHeapMemoryUsageInit" /\
       converted non_heap "max" (dict_jmx s') "nonHeapMemoryUsageMax") /\
  (forall j s s',
     jmxstats_head j s = (Ok tt, s') ->
     exists memory_json,
       j (S (S (calls s))) (read_mbean "java.lang:type=Memory") = Ok memory_json /\
       (accepted memory_json ->
        exists heap non_heap,
          jvalue memory_json "HeapMemoryUsage" = Ok heap /\
          jvalue memory_json "NonHeapMemoryUsage" = Ok non_heap /\
          converted heap "init" (dict_jmx s') "heapMemoryUsageInit" /\
          converted non_heap "init" (dict_jmx s') "nonHeapMemoryUsageInit")) /\
  (forall j pool_name s s' mp_values,
     memory_pool j pool_name s = (Ok tt, s') ->
     j (S (calls s))
       (read_attr ("java.lang:type=MemoryPool,name=" +:+ pool_name)
          "CollectionUsage,PeakUsage,Type,Usage,CollectionUsageThresholdSupported,UsageThresholdSupported")
       = Ok mp_values ->
     accepted mp_values ->
     dict_jmx s' = dict_jmx s \/
     exists coll_usage usage peak_usage,
       jvalue mp_values "CollectionUsage" = Ok coll_usage /\
       jvalue mp_values "Usage" = Ok usage /\
       jvalue mp_values "PeakUsage" = Ok peak_usage /\
       (truthy coll_usage = true ->
        converted coll_usage "max" (dict_jmx s')
          (no_spaces pool_name +:+ "CollectionUsageMax") /\
        converted coll_usage "init" (dict_jmx s')
          (no_spaces pool_name +:+ "CollectionUsageInit")) /\
       converted usage "max" (dict_jmx s') (no_spaces pool_name +:+ "UsageMax") /\
       converted usage "init" (dict_jmx s') (no_spaces pool_name +:+ "UsageInit") /\
       converted peak_usage "max" (dict_jmx s') (no_spaces pool_name +:+ "PeakUsageMax") /\
       converted peak_usage "init" (dict_jmx s') (no_spaces pool_name +:+ "PeakUsageInit")) /\
  (forall key gc_name name values s s',
     memory_gc_entry key gc_name (name, values) s = (Ok tt, s') ->
     name = "G1 Eden Space" \/ name = "G1 Old Gen" ->
     converted values "init" (dict_jmx s')
       (gc_name +:+ key +:+ no_spaces name +:+ "Init") /\
     converted values "max" (dict_jmx s')
       (gc_name +:+ key +:+ no_spaces name +:+ "Max")).
Proof.
  split; [exact handle_neg_bytes_number|].
  split; [exact add_memory_parameters_converts|].
  split; [exact jmxstats_head_converts|].
  split; [exact memory_pool_converts|].
  exact memory_gc_entry_converts.
Qed.

Lemma sentinel_preserving_conversion_witness :
  handle_neg_bytes (VInt (-1)) "heapMemoryUsageMax" empty_record =
    (Ok tt, XState (<["heapMemoryUsageMax" := VInt (-1)]> ∅) 0 []) /\
  handle_neg_bytes (VInt 3145728) "heapMemoryUsageInit" empty_record =
    (Ok tt, XState (<["heapMemoryUsageInit" := VFloat 3]> ∅) 0 []) /\
  exists heap non_heap,
    jvalue memory_unbounded "HeapMemoryUsage" = Ok heap /\
    jvalue memory_unbounded "NonHeapMemoryUsage" = Ok non_heap /\
    converted heap "init"
      (dict_jmx (snd (add_memory_parameters client_memory_unbounded empty_record)))
      "heapMemoryUsageInit" /\
    converted heap "max"
      (dict_jmx (snd (add_memory_parameters client_memory_unbounded empty_record)))
      "heapMemoryUsageMax" /\
    converted non_heap "init"
      (dict_jmx (snd (add_memory_parameters client_memory_unbounded empty_record)))
      "nonHeapMemoryUsageInit" /\
    converted non_heap "max"
      (dict_jmx (snd (add_memory_parameters client_memory_unbounded empty_record)))
      "nonHeapMemoryUsageMax".
Proof.
  split; [|split].
  - exact (proj1 sentinel_preserving_conversion (VInt (-1)) (-1)%Q "heapMemoryUsageMax"
             empty_record eq_refl).
  - exact (proj1 sentinel_preserving_conversion (VInt 3145728) 3145728%Q
             "heapMemoryUsageInit" empty_record eq_refl).
  - apply (proj1 (proj2 sentinel_preserving_conversion) client_memory_unbounded
             empty_record).
    + vm_compute. reflexivity.
    + reflexivity.
    + exists (VInt 200). split; reflexivity.
Defined.

Lemma result_bind_inv {A B} (r : result A) (k : A -> result B) b :
  result_bind r k = Ok b -> exists a, r = Ok a /\ k a = Ok b.
Proof. destruct r as [a|e]; simpl; [eauto|discriminate]. Qed.

Lemma processCpuTime_guarded j s s' ops :
  add_operating_system_parameters j s = (Ok tt, s') ->
  j (calls s) (read_mbean "java.lang:type=OperatingSystem") = Ok ops ->
  accepted ops ->
  exists raw,
    jvalue ops "ProcessCpuTime" = Ok raw /\
    ((py_ge raw (VInt 0) = Ok true /\
      exists w, nanos_to_sec raw = Ok w /\ dict_jmx s' !! "processCpuTime" = Some w) \/
     (py_ge raw (VInt 0) = Ok false /\ dict_jmx s' !! "processCpuTime" = Some raw)).
Proof.
  intros Hrun Hj (st & Hst & H200).
  unfold add_operating_system_parameters in Hrun.
  apply bind_inv_ok in Hrun. destruct Hrun as (ops' & s1 & Hreq & Hrun).
  apply jrequest_inv in Hreq. destruct Hreq as [Hreq ->].
  rewrite Hj in Hreq. injection Hreq as <-.
  apply bind_inv_ok in Hrun. destruct Hrun as (ok & s2 & Hok & Hrun).
  apply status_ok_inv in Hok. destruct Hok as (-> & st2 & Hst2 & ->).
  rewrite Hst in Hst2. injection Hst2 as <-. rewrite H200 in Hrun.
  inv_ok Hrun;
    match goal with
    | Hraw : jvalue ops "ProcessCpuTime" = Ok ?raw |- _ =>
        exists raw; split; [exact Hraw|]
    end.
  - left. split; [assumption|]. eexists. split; [eassumption|read_store].
  - right. split; [assumption|]. read_store.
Qed.

Lemma thread_times_gated_by_support j s s' th :
  add_threading_parameters j s = (Ok tt, s') ->
  j (calls s) (read_mbean "java.lang:type=Threading") = Ok th ->
  accepted th ->
  exists supported,
    jvalue th "CurrentThreadCpuTimeSupported" = Ok supported /\
    (truthy supported = true ->
     exists cpu user w_cpu w_user,
       jvalue th "CurrentThreadCpuTime" = Ok cpu /\ nanos_to_sec cpu = Ok w_cpu /\
       dict_jmx s' !! "currentThreadCpuTime" = Some w_cpu /\
       jvalue th "CurrentThreadUserTime" = Ok user /\ nanos_to_sec user = Ok w_user /\
       dict_jmx s' !! "currentThreadUserTime" = Some w_user) /\
    (truthy supported = false ->
     dict_jmx s' !! "currentThreadCpuTime" = dict_jmx s !! "currentThreadCpuTime" /\
     dict_jmx s' !! "currentThreadUserTime" = dict_jmx s !! "currentThreadUserTime").
Proof.
  intros Hrun Hj (st & Hst & H200).
  unfold add_threading_parameters in Hrun.
  apply bind_inv_ok in Hrun. destruct Hrun as (th' & s1 & Hreq & Hrun).
  apply jrequest_inv in Hreq. destruct Hreq as [Hreq ->].
  rewrite Hj in Hreq. injection Hreq as <-.
  apply bind_inv_ok in Hrun. destruct Hrun as (ok & s2 & Hok & Hrun).
  apply status_ok_inv in Hok. destruct Hok as (-> & st2 & Hst2 & ->).
  rewrite Hst in Hst2. injection Hst2 as <-. rewrite H200 in Hrun.
  inv_ok Hrun;
    match goal with
    | Hsup : jvalue th "CurrentThreadCpuTimeSupported" = Ok ?sup |- _ =>
        exists sup; split; [exact Hsup|]
    end.
  - split; [intros _|congruence].
    repeat match goal with
           | E : result_bind _ nanos_to_sec = Ok _ |- _ =>
               apply result_bind_inv in E; destruct E as (? & ? & ?)
           end.
    eexists _, _, _, _.
    split; [eassumption|]. split; [eassumption|]. split; [read_store|].
    split; [eassumption|]. split; [eassumption|]. read_store.
  - split; [congruence|intros _]. split; read_store.
Qed.

(** C7, as the code has it.  [processCpuTime] is converted to seconds only
    when the raw value is [>= 0] and is stored verbatim otherwise.  The two
    thread CPU times have no such guard: they are converted, whatever their
    sign, whenever [CurrentThreadCpuTimeSupported] is truthy, and are not
    stored at all when it is not. *)
Theorem cpu_time_conversion :
  (forall j s s' ops,
     add_operating_system_parameters j s = (Ok tt, s') ->
     j (calls s) (read_mbean "java.lang:type=OperatingSystem") = Ok ops ->
     accepted ops ->
     exists raw,
       jvalue ops "ProcessCpuTime" = Ok raw /\
       ((py_ge raw (VInt 0) = Ok true /\
         exists w, nanos_to_sec raw = Ok w /\ dict_jmx s' !! "processCpuTime" = Some w) \/
        (py_ge raw (VInt 0) = Ok false /\ dict_jmx s' !! "processCpuTime" = Some raw))) /\
  (forall j s s' th,
     add_threading_parameters j s = (Ok tt, s') ->
     j (calls s) (read_mbean "java.lang:type=Threading") = Ok th ->
     accepted th ->
     exists supported,
       jvalue th "CurrentThreadCpuTimeSupported" = Ok supported /\
       (truthy supported = true ->
        exists cpu user w_cpu w_user,
          jvalue th "CurrentThreadCpuTime" = Ok cpu /\ nanos_to_sec cpu = Ok w_cpu /\
          dict_jmx s' !! "currentThreadCpuTime" = Some w_cpu /\
          jvalue th "CurrentThreadUserTime" = Ok user /\ nanos_to_sec user = Ok w_user /\
          dict_jmx s' !! "currentThreadUserTime" = Some w_user) /\
       (truthy supported = false ->
        dict_jmx s' !! "currentThreadCpuTime" = dict_jmx s !! "currentThreadCpuTime" /\
        dict_jmx s' !! "currentThreadUserTime" = dict_jmx s !! "currentThreadUserTime")).
Proof. split; [exact processCpuTime_guarded|exact thread_times_gated_by_support]. Qed.

(** C7 as stated fails: with thread CPU time supported and both thread times
    reading -1, [add_threading_parameters] stores the converted value 0.0
    for each, not -1. *)
Lemma thread_sentinel_is_converted :
  let out := add_threading_parameters client_threading_disabled empty_record in
  fst out = Ok tt /\
  jvalue threading_disabled "CurrentThreadCpuTime" = Ok (VInt (-1)) /\
  jvalue threading_disabled "CurrentThreadUserTime" = Ok (VInt (-1)) /\
  dict_jmx (snd out) !! "currentThreadCpuTime" = Some (VFloat 0) /\
  dict_jmx (snd out) !! "currentThreadUserTime" = Some (VFloat 0).
Proof. vm_compute. repeat split. Qed.

Lemma cpu_time_conversion_witness :
  (exists raw,
     jvalue os_unsupported "ProcessCpuTime" = Ok raw /\
     ((py_ge raw (VInt 0) = Ok true /\
       exists w, nanos_to_sec raw = Ok w /\
         dict_jmx (snd (add_operating_system_parameters client_os_unsupported
                          empty_record)) !! "processCpuTime" = Some w) \/
      (py_ge raw (VInt 0) = Ok false /\
       dict_jmx (snd (add_operating_system_parameters client_os_unsupported
                        empty_record)) !! "processCpuTime" = Some raw))) /\
  (exists supported,
     jvalue threading_disabled "CurrentThreadCpuTimeSupported" = Ok supported /\
     (truthy supported = true ->
      exists cpu user w_cpu w_user,
        jvalue threading_disabled "CurrentThreadCpuTime" = Ok cpu /\
        nanos_to_sec cpu = Ok w_cpu /\
        dict_jmx (snd (add_threading_parameters client_threading_disabled empty_record))
          !! "currentThreadCpuTime" = Some w_cpu /\
        jvalue threading_disabled "CurrentThreadUserTime" = Ok user /\
        nanos_to_sec user = Ok w_user /\
        dict_jmx (snd (add_threading_parameters client_threading_disabled empty_record))
          !! "currentThreadUserTime" = Some w_user) /\
     (truthy supported = false ->
      dict_jmx (snd (add_threading_parameters client_threading_disabled empty_record))
        !! "currentThreadCpuTime" = dict_jmx empty_record !! "currentThreadCpuTime" /\
      dict_jmx (snd (add_threading_parameters client_threading_disabled empty_record))
        !! "currentThreadUserTime" = dict_jmx empty_record !! "currentThreadUserTime")).
Proof.
  split.
  - apply (proj1 cpu_time_conversion client_os_unsupported empty_record).
    + vm_compute. reflexivity.
    + reflexivity.
    + exists (VInt 200). split; reflexivity.
  - apply (proj2 cpu_time_conversion client_threading_disabled empty_record).
    + vm_compute. reflexivity.
    + reflexivity.
    + exists (VInt 200). split; reflexivity.
Defined.

(** * The combined summary category *)

#[local] Instance keeps_keys_refl : Reflexive keeps_keys.
Proof. intros s k Hk. exact Hk. Qed.

#[local] Instance keeps_keys_trans : Transitive keeps_keys.
Proof. intros s1 s2 s3 H12 H23 k Hk. auto. Qed.

Lemma jrequest_keeps j r : preserves keeps_keys (jrequest j r).
Proof. intros s k Hk. exact Hk. Qed.

Lemma setitem_keeps k v : preserves keeps_keys (setitem k v).
Proof.
  intros s k' Hk. simpl. destruct (decide (k = k')) as [->|Hne].
  - rewrite lookup_insert_eq. eauto.
  - rewrite lookup_insert_ne by exact Hne. exact Hk.
Qed.

Lemma xlog_add_keeps l m : preserves keeps_keys (xlog_add l m).
Proof. intros s k Hk. exact Hk. Qed.

Ltac keeps_step :=
  first [ apply jrequest_keeps | apply setitem_keeps | apply xlog_add_keeps
        | preserves_step ].

Lemma store_keeps k e : preserves keeps_keys (store k e).
Proof. unfold store. repeat keeps_step. Qed.

Lemma status_ok_keeps json : preserves keeps_keys (status_ok json).
Proof. unfold status_ok. repeat keeps_step. Qed.

Lemma is_valid_keeps json : preserves keeps_keys (is_valid json).
Proof. unfold is_valid. repeat first [apply status_ok_keeps | keeps_step]. Qed.

Lemma collect_names_keeps allow msg items : preserves keeps_keys (collect_names allow msg items).
Proof.
  induction items as [|[k v] items IH]; simpl.
  - repeat keeps_step.
  - repeat first [apply IH | keeps_step].
Qed.

Lemma get_gc_names_keeps j : preserves keeps_keys (get_gc_names j).
Proof.
  unfold get_gc_names.
  repeat first [apply collect_names_keeps | apply status_ok_keeps | keeps_step].
Qed.

Lemma get_memory_pool_names_keeps j : preserves keeps_keys (get_memory_pool_names j).
Proof.
  unfold get_memory_pool_names.
  repeat first [apply collect_names_keeps | apply status_ok_keeps | keeps_step].
Qed.

Lemma jmxstats_gc_keeps j name : preserves keeps_keys (jmxstats_gc j name).
Proof.
  unfold jmxstats_gc. cbv zeta.
  repeat first [apply is_valid_keeps | apply status_ok_keeps | apply store_keeps | keeps_step].
Qed.

Lemma jmxstats_pool_keeps j name : preserves keeps_keys (jmxstats_pool j name).
Proof.
  unfold jmxstats_pool. cbv zeta.
  repeat first [apply is_valid_keeps | apply status_ok_keeps | apply store_keeps | keeps_step].
Qed.

Lemma jmxstats_named_keeps j : preserves keeps_keys (jmxstats_named j).
Proof.
  unfold jmxstats_named.
  repeat first [ apply get_gc_names_keeps | apply get_memory_pool_names_keeps
               | apply jmxstats_gc_keeps | apply jmxstats_pool_keeps | keeps_step ].
Qed.

Lemma for_each_setitem (l : list string) (v : value) s :
  for_each l (fun k => setitem k v) s =
    (Ok tt, XState (foldl (fun d k => <[k := v]> d) (dict_jmx s) l) (calls s) (xlog s)).
Proof.
  revert s. induction l as [|k l IH]; intros s.
  - destruct s. reflexivity.
  - cbn [for_each foldl]. erewrite bind_ok by reflexivity. rewrite IH. reflexivity.
Qed.

Lemma foldl_insert_lookup (l : list string) (v : value) (d : gmap string value) k :
  k ∈ l \/ d !! k = Some v -> foldl (fun d k => <[k := v]> d) d l !! k = Some v.
Proof.
  revert d. induction l as [|k' l IH]; intros d [Hin|Hd]; cbn [foldl].
  - apply elem_of_nil in Hin. contradiction.
  - exact Hd.
  - apply IH. apply elem_of_cons in Hin. destruct Hin as [->|Hin].
    + right. apply lookup_insert_eq.
    + left. exact Hin.
  - apply IH. right. destruct (decide (k' = k)) as [->|Hne].
    + apply lookup_insert_eq.
    + rewrite lookup_insert_ne by exact Hne. exact Hd.
Qed.

Lemma jmxstats_defaults_sets s :
  exists s2, jmxstats_defaults s = (Ok tt, s2) /\
    calls s2 = calls s /\
    forall k, k ∈ param_list -> dict_jmx s2 !! k = Some (VInt 0).
Proof.
  unfold jmxstats_defaults. rewrite for_each_setitem.
  eexists. split; [reflexivity|]. split; [reflexivity|].
  intros k Hk. cbn [dict_jmx]. apply foldl_insert_lookup. left. exact Hk.
Qed.

Lemma add_jmxstats_parameters_split j s s' :
  add_jmxstats_parameters j s = (Ok tt, s') ->
  exists s1 s2,
    jmxstats_head j s = (Ok tt, s1) /\
    jmxstats_defaults s1 = (Ok tt, s2) /\
    jmxstats_named j s2 = (Ok tt, s').
Proof.
  unfold add_jmxstats_parameters. intros Hrun.
  apply bind_inv_ok in Hrun. destruct Hrun as ([] & s1 & Hhead & Hrun).
  apply bind_inv_ok in Hrun. destruct Hrun as ([] & s2 & Hdef & Hrun).
  exists s1, s2. auto.
Qed.

Lemma in_names_inv v allow n :
  in_names v allow = Some n -> v = VStr n /\ In n allow.
Proof.
  unfold in_names. destruct v; try discriminate.
  destruct (existsb (String.eqb s) allow) eqn:Hex; [|discriminate].
  intros [= <-]. split; [reflexivity|].
  apply existsb_exists in Hex. destruct Hex as (x & Hin & Heq).
  apply String.eqb_eq in Heq. subst x. exact Hin.
Qed.

Lemma in_names_none v allow :
  in_names v allow = None -> forall n, In n allow -> v <> VStr n.
Proof.
  unfold in_names. intros Hnone n Hin ->.
  destruct (existsb (String.eqb n) allow) eqn:Hex; [discriminate|].
  assert (existsb (String.eqb n) allow = true); [|congruence].
  apply existsb_exists. exists n. split; [exact Hin|apply String.eqb_refl].
Qed.

Lemma listed_cons allow k v items :
  listed allow ((k, v) :: items) =
  match py_getitem v "Name" with
  | Ok n => match in_names n allow with
            | Some x => x :: listed allow items
            | None => listed allow items
            end
  | Raise _ => listed allow items
  end.
Proof.
  unfold listed. simpl. unfold name_of at 1. simpl.
  destruct (py_getitem v "Name"); [destruct (in_names _ _)|]; reflexivity.
Qed.

Lemma unlisted_cons allow k v items :
  unlisted allow ((k, v) :: items) =
  match py_getitem v "Name" with
  | Ok n => match in_names n allow with
            | Some _ => unlisted allow items
            | None => n :: unlisted allow items
            end
  | Raise _ => unlisted allow items
  end.
Proof.
  unfold unlisted. simpl. unfold name_of at 1. simpl.
  destruct (py_getitem v "Name"); [destruct (in_names _ _)|]; reflexivity.
Qed.

(** [collect_names]: the allow-listed names are returned in order, one error
    line is logged per other name, and the record is not touched. *)
Lemma collect_names_spec allow msg items s names s' :
  collect_names allow msg items s = (Ok names, s') ->
  names = listed allow items /\
  s' = XState (dict_jmx s) (calls s)
         (xlog s ++ map (fun n => (LError, msg n)) (unlisted allow items)).
Proof.
  revert s names s'. induction items as [|[k v] items IH]; intros s names s' Hrun.
  - simpl in Hrun. inv_ok Hrun. destruct s. simpl. rewrite app_nil_r. auto.
  - cbn [collect_names] in Hrun.
    apply bind_inv_ok in Hrun. destruct Hrun as (name & s1 & Hname & Hrun).
    apply lift_inv in Hname. destruct Hname as [Hname ->].
    rewrite listed_cons, unlisted_cons, Hname.
    destruct (in_names name allow) as [n|] eqn:Hin.
    + apply bind_inv_ok in Hrun. destruct Hrun as (rest & s2 & Hrest & Hrun).
      apply ret_inv in Hrun. destruct Hrun as [-> ->].
      apply IH in Hrest. destruct Hrest as [-> ->]. auto.
    + apply bind_inv_ok in Hrun. destruct Hrun as ([] & s2 & Hlog & Hrun).
      unfold xlog_add, modify in Hlog. injection Hlog as <-.
      apply IH in Hrun. destruct Hrun as [-> ->]. cbn [dict_jmx calls xlog].
      split; [reflexivity|]. cbn [map]. rewrite <- app_assoc. reflexivity.
Qed.

Lemma discovery_spec mbean allow msg j s names s' :
  (json <- jrequest j (read_attr mbean "Name") ;;
   ok <- status_ok json ;;
   if ok then
     items <- lift (result_bind (py_getitem json "value") py_items) ;;
     collect_names allow msg items
   else ret [])%py s = (Ok names, s') ->
  exists json,
    j (calls s) (read_attr mbean "Name") = Ok json /\
    dict_jmx s' = dict_jmx s /\ calls s' = S (calls s) /\
    (~ accepted json -> names = [] /\ xlog s' = xlog s) /\
    (accepted json ->
     exists items,
       discovered json = Ok items /\
       names = listed allow items /\
       xlog s' = xlog s ++ map (fun n => (LError, msg n)) (unlisted allow items)).
Proof.
  intros Hrun.
  apply bind_inv_ok in Hrun. destruct Hrun as (json & s1 & Hreq & Hrun).
  apply jrequest_inv in Hreq. destruct Hreq as [Hreq ->].
  apply bind_inv_ok in Hrun. destruct Hrun as (ok & s2 & Hok & Hrun).
  apply status_ok_inv in Hok. destruct Hok as (-> & st & Hst & ->).
  exists json. split; [exact Hreq|].
  destruct (py_eq st (VInt 200)) eqn:H200.
  - apply bind_inv_ok in Hrun. destruct Hrun as (items & s3 & Hitems & Hrun).
    apply lift_inv in Hitems. destruct Hitems as [Hitems ->].
    apply collect_names_spec in Hrun. destruct Hrun as [-> ->]. cbn [dict_jmx calls xlog].
    split; [reflexivity|]. split; [reflexivity|]. split.
    + intros Hna. exfalso. apply Hna. exists st. auto.
    + intros _. exists items. auto.
  - apply ret_inv in Hrun. destruct Hrun as [-> ->]. cbn [dict_jmx calls xlog].
    split; [reflexivity|]. split; [reflexivity|]. split; [auto|].
    intros (st' & Hst' & H'). congruence.
Qed.

Lemma listed_spec allow items n :
  n ∈ listed allow items <->
  In n allow /\ exists item, item ∈ items /\ name_of item = Ok (VStr n).
Proof.
  unfold listed. rewrite list_elem_of_omap. split.
  - intros (item & Hitem & Hn). destruct (name_of item) as [v|e] eqn:Hv; [|discriminate].
    apply in_names_inv in Hn. destruct Hn as [-> Hin]. eauto.
  - intros (Hin & item & Hitem & Hv). exists item. split; [exact Hitem|].
    rewrite Hv. unfold in_names.
    assert (Hex : existsb (String.eqb n) allow = true).
    { apply existsb_exists. exists n. split; [exact Hin|apply String.eqb_refl]. }
    rewrite Hex. reflexivity.
Qed.

Lemma unlisted_spec allow items v :
  v ∈ unlisted allow items <->
  (forall n, In n allow -> v <> VStr n) /\
  exists item, item ∈ items /\ name_of item = Ok v.
Proof.
  unfold unlisted. rewrite list_elem_of_omap. split.
  - intros (item & Hitem & Hn). destruct (name_of item) as [w|e] eqn:Hw; [|discriminate].
    destruct (in_names w allow) eqn:Hin; [discriminate|]. injection Hn as ->.
    split; [apply in_names_none; exact Hin|eauto].
  - intros (Hnot & item & Hitem & Hv). exists item. split; [exact Hitem|].
    rewrite Hv. destruct (in_names v allow) as [n|] eqn:Hin; [|reflexivity].
    apply in_names_inv in Hin. destruct Hin as [-> Hin]. exfalso. exact (Hnot n Hin eq_refl).
Qed.

Lemma is_valid_spec valid s b s' :
  is_valid valid s = (Ok b, s') -> s' = s /\ (b = true <-> says_valid valid).
Proof.
  unfold is_valid, says_valid, accepted. intros Hrun.
  apply bind_inv_ok in Hrun. destruct Hrun as (ok & s1 & Hok & Hrun).
  apply status_ok_inv in Hok. destruct Hok as (-> & st & Hst & ->).
  destruct (py_eq st (VInt 200)) eqn:H200.
  - apply bind_inv_ok in Hrun. destruct Hrun as (v & s2 & Hv & Hrun).
    apply lift_inv in Hv. destruct Hv as [Hv ->].
    apply ret_inv in Hrun. destruct Hrun as [-> ->].
    split; [reflexivity|]. split.
    + intros Hb. split; [exists st; auto|exists v; auto].
    + intros (_ & v' & Hv' & Hb). congruence.
  - apply ret_inv in Hrun. destruct Hrun as [-> ->].
    split; [reflexivity|]. split; [discriminate|].
    intros ((st' & Hst' & H') & _). congruence.
Qed.

Lemma status_ok_spec json s b s' :
  status_ok json s = (Ok b, s') -> s' = s /\ (b = true <-> accepted json).
Proof.
  intros Hrun. apply status_ok_inv in Hrun. destruct Hrun as (-> & st & Hst & ->).
  split; [reflexivity|]. unfold accepted. split.
  - intros Hb. exists st. auto.
  - intros (st' & Hst' & Hb). congruence.
Qed.

(** One collector of the summary category: nothing is stored unless the
    "Valid" query says valid and the values are answered with status 200,
    and then both fields are. *)
Lemma jmxstats_gc_step j gc_name s s' :
  jmxstats_gc j gc_name s = (Ok tt, s') ->
  exists valid,
    j (calls s)
      (read_attr ("java.lang:type=GarbageCollector,name=" +:+ gc_name) "Valid") = Ok valid /\
    ((~ says_valid valid /\ dict_jmx s' = dict_jmx s) \/
     (says_valid valid /\
      exists gc_values,
        j (S (calls s))
          (read_attr ("java.lang:type=GarbageCollector,name=" +:+ gc_name)
             "CollectionTime,CollectionCount") = Ok gc_values /\
        ((~ accepted gc_values /\ dict_jmx s' = dict_jmx s) \/
         (accepted gc_values /\
          exists time count,
            result_bind (jvalue gc_values "CollectionTime") millis_to_sec = Ok time /\
            jvalue gc_values "CollectionCount" = Ok count /\
            dict_jmx s' =
              <[no_spaces gc_name +:+ "CollectionCount" := count]>
                (<[no_spaces gc_name +:+ "CollectionTime" := time]> (dict_jmx s)))))).
Proof.
  unfold jmxstats_gc. cbv zeta. intros Hrun.
  apply bind_inv_ok in Hrun. destruct Hrun as (valid & s1 & Hreq & Hrun).
  apply jrequest_inv in Hreq. destruct Hreq as [Hreq ->].
  apply bind_inv_ok in Hrun. destruct Hrun as (ok & s2 & Hok & Hrun).
  apply is_valid_spec in Hok. destruct Hok as (-> & Hok).
  exists valid. split; [exact Hreq|].
  destruct ok.
  2:{ apply ret_inv in Hrun. destruct Hrun as [_ ->]. left. split; [|reflexivity].
      intros Hv. apply Hok in Hv. discriminate. }
  right. split; [apply Hok; reflexivity|].
  apply bind_inv_ok in Hrun. destruct Hrun as (gc_values & s3 & Hreq' & Hrun).
  apply jrequest_inv in Hreq'. destruct Hreq' as [Hreq' ->]. cbn [dict_jmx calls xlog] in *.
  apply bind_inv_ok in Hrun. destruct Hrun as (ok' & s4 & Hok' & Hrun).
  apply status_ok_spec in Hok'. destruct Hok' as (-> & Hok').
  exists gc_values. split; [exact Hreq'|].
  destruct ok'.
  2:{ apply ret_inv in Hrun. destruct Hrun as [_ ->]. left. split; [|reflexivity].
      intros Hv. apply Hok' in Hv. discriminate. }
  right. split; [apply Hok'; reflexivity|].
  inv_ok Hrun. eauto.
Qed.

(** One pool of the summary category *)
Lemma jmxstats_pool_step j pool_name s s' :
  jmxstats_pool j pool_name s = (Ok tt, s') ->
  exists valid,
    j (calls s)
      (read_attr ("java.lang:type=MemoryPool,name=" +:+ pool_name) "Valid") = Ok valid /\
    ((~ says_valid valid /\ dict_jmx s' = dict_jmx s) \/
     (says_valid valid /\
      exists mp_values,
        j (S (calls s))
          (read_attr ("java.lang:type=MemoryPool,name=" +:+ pool_name) "Usage")
          = Ok mp_values /\
        ((~ accepted mp_values /\ dict_jmx s' = dict_jmx s) \/
         (accepted mp_values /\
          exists used,
            result_bind (jvalue mp_values "used") bytes_to_mb = Ok used /\
            dict_jmx s' =
              <[no_spaces pool_name +:+ "UsageUsed" := used]> (dict_jmx s))))).
Proof.
  unfold jmxstats_pool. cbv zeta. intros Hrun.
  apply bind_inv_ok in Hrun. destruct Hrun as (valid & s1 & Hreq & Hrun).
  apply jrequest_inv in Hreq. destruct Hreq as [Hreq ->].
  apply bind_inv_ok in Hrun. destruct Hrun as (ok & s2 & Hok & Hrun).
  apply is_valid_spec in Hok. destruct Hok as (-> & Hok).
  exists valid. split; [exact Hreq|].
  destruct ok.
  2:{ apply ret_inv in Hrun. destruct Hrun as [_ ->]. left. split; [|reflexivity].
      intros Hv. apply Hok in Hv. discriminate. }
  right. split; [apply Hok; reflexivity|].
  apply bind_inv_ok in Hrun. destruct Hrun as (mp_values & s3 & Hreq' & Hrun).
  apply jrequest_inv in Hreq'. destruct Hreq' as [Hreq' ->]. cbn [dict_jmx calls xlog] in *.
  apply bind_inv_ok in Hrun. destruct Hrun as (ok' & s4 & Hok' & Hrun).
  apply status_ok_spec in Hok'. destruct Hok' as (-> & Hok').
  exists mp_values. split; [exact Hreq'|].
  destruct ok'.
  2:{ apply ret_inv in Hrun. destruct Hrun as [_ ->]. left. split; [|reflexivity].
      intros Hv. apply Hok' in Hv. discriminate. }
  right. split; [apply Hok'; reflexivity|].
  inv_ok Hrun. eauto.
Qed.

Lemma for_each_same_record {A} (body : A -> M xstate unit) (l : list A) s s' :
  (forall x s s', body x s = (Ok tt, s') -> dict_jmx s' = dict_jmx s) ->
  for_each l body s = (Ok tt, s') -> dict_jmx s' = dict_jmx s.
Proof.
  intros Hbody. revert s. induction l as [|x l IH]; intros s Hrun.
  - apply ret_inv in Hrun. destruct Hrun as [_ ->]. reflexivity.
  - cbn [for_each] in Hrun.
    apply bind_inv_ok in Hrun. destruct Hrun as ([] & s1 & Hx & Hrun).
    rewrite (IH _ Hrun). eauto.
Qed.

Lemma jmxstats_gc_fails j gc_name s s' :
  named_queries_fail j ->
  jmxstats_gc j gc_name s = (Ok tt, s') -> dict_jmx s' = dict_jmx s.
Proof.
  intros Hfail Hrun. apply jmxstats_gc_step in Hrun.
  destruct Hrun as (valid & Hv & [[_ ?]|(Hsv & gc_values & Hg & [[_ ?]|(Hacc & _)])]);
    try assumption.
  destruct (Hfail (calls s) ("java.lang:type=GarbageCollector,name=" +:+ gc_name))
    as [Hnv|Hdec].
  - rewrite Hv in Hnv. contradiction.
  - specialize (Hdec "CollectionTime,CollectionCount"). rewrite Hg in Hdec. contradiction.
Qed.

Lemma jmxstats_pool_fails j pool_name s s' :
  named_queries_fail j ->
  jmxstats_pool j pool_name s = (Ok tt, s') -> dict_jmx s' = dict_jmx s.
Proof.
  intros Hfail Hrun. apply jmxstats_pool_step in Hrun.
  destruct Hrun as (valid & Hv & [[_ ?]|(Hsv & mp_values & Hg & [[_ ?]|(Hacc & _)])]);
    try assumption.
  destruct (Hfail (calls s) ("java.lang:type=MemoryPool,name=" +:+ pool_name))
    as [Hnv|Hdec].
  - rewrite Hv in Hnv. contradiction.
  - specialize (Hdec "Usage"). rewrite Hg in Hdec. contradiction.
Qed.

Lemma jmxstats_named_fails j s s' :
  named_queries_fail j ->
  jmxstats_named j s = (Ok tt, s') -> dict_jmx s' = dict_jmx s.
Proof.
  intros Hfail Hrun. unfold jmxstats_named in Hrun.
  apply bind_inv_ok in Hrun. destruct Hrun as (gc_names & s1 & Hgc & Hrun).
  apply discovery_spec in Hgc. destruct Hgc as (_ & _ & Hd1 & _).
  apply bind_inv_ok in Hrun. destruct Hrun as ([] & s2 & Hloop & Hrun).
  apply for_each_same_record in Hloop; [|intros x t t'; apply jmxstats_gc_fails; exact Hfail].
  apply bind_inv_ok in Hrun. destruct Hrun as (mp_names & s3 & Hmp & Hrun).
  apply discovery_spec in Hmp. destruct Hmp as (_ & _ & Hd3 & _).
  apply for_each_same_record in Hrun; [|intros x t t'; apply jmxstats_pool_fails; exact Hfail].
  congruence.
Qed.

(** C10. Every record that [add_jmxstats_parameters] produces contains the
    ten pre-declared collector and pool metrics.  Each of them is set to 0
    after the fixed queries and before the names are discovered and any
    per-name query is made, and no later statement removes a key; so when
    every per-name query fails or is answered with a status other than 200,
    the ten keys are present with value 0. *)
Theorem jmxstats_defaults_present (j : client) (s s' : xstate) :
  add_jmxstats_parameters j s = (Ok tt, s') ->
  (forall k, k ∈ param_list -> is_Some (dict_jmx s' !! k)) /\
  (exists s1 s2,
     jmxstats_head j s = (Ok tt, s1) /\
     jmxstats_defaults s1 = (Ok tt, s2) /\
     calls s2 = calls s1 /\
     (forall k, k ∈ param_list -> dict_jmx s2 !! k = Some (VInt 0)) /\
     jmxstats_named j s2 = (Ok tt, s')) /\
  (named_queries_fail j ->
   forall k, k ∈ param_list -> dict_jmx s' !! k = Some (VInt 0)).
Proof.
  intros Hrun. apply add_jmxstats_parameters_split in Hrun.
  destruct Hrun as (s1 & s2 & Hhead & Hdef & Hnamed).
  destruct (jmxstats_defaults_sets s1) as (s2' & Hdef' & Hcalls & Hzero).
  rewrite Hdef in Hdef'. injection Hdef' as <-.
  split; [|split].
  - intros k Hk. pose proof (jmxstats_named_keeps j s2 k) as Hkeep.
    rewrite Hnamed in Hkeep. apply Hkeep. rewrite (Hzero k Hk). eauto.
  - exists s1, s2. auto.
  - intros Hfail k Hk. rewrite (jmxstats_named_fails j s2 s' Hfail Hnamed). auto.
Qed.

Lemma client_not_found_fails : named_queries_fail client_not_found.
Proof.
  intros n mbean. right. intros attribute. simpl.
  intros (st & Hst & H200). vm_compute in Hst. injection Hst as <-. discriminate.
Qed.

Lemma jmxstats_defaults_present_witness :
  ((forall k, k ∈ param_list ->
      is_Some (dict_jmx (snd (add_jmxstats_parameters client_one_collector empty_record))
                 !! k)) /\
   (exists s1 s2,
      jmxstats_head client_one_collector empty_record = (Ok tt, s1) /\
      jmxstats_defaults s1 = (Ok tt, s2) /\
      calls s2 = calls s1 /\
      (forall k, k ∈ param_list -> dict_jmx s2 !! k = Some (VInt 0)) /\
      jmxstats_named client_one_collector s2 =
        (Ok tt, snd (add_jmxstats_parameters client_one_collector empty_record))) /\
   (named_queries_fail client_one_collector ->
    forall k, k ∈ param_list ->
      dict_jmx (snd (add_jmxstats_parameters client_one_collector empty_record)) !! k
        = Some (VInt 0))) /\
  (forall k, k ∈ param_list ->
     dict_jmx (snd (add_jmxstats_parameters client_not_found empty_record)) !! k
       = Some (VInt 0)).
Proof.
  split.
  - apply (jmxstats_defaults_present client_one_collector empty_record).
    vm_compute. reflexivity.
  - apply (jmxstats_defaults_present client_not_found empty_record).
    + vm_compute. reflexivity.
    + exact client_not_found_fails.
Defined.

(** C8, as the code has it.  A name discovered by the wildcard "Name" query
    that is not on the allow-list gets one error line and is not returned,
    and discovery stores nothing in the record; a name on the allow-list is
    returned for the detailed extraction.  The detailed extraction of a
    returned name stores its fields (collection time and count of a
    collector, used megabytes of a pool, in the summary category) only when
    its "Valid" query answers valid and its values are answered with status
    200; otherwise it stores nothing for that name. *)
Theorem discovered_names_filtered :
  (forall j s names s',
     get_memory_pool_names j s = (Ok names, s') ->
     exists json,
       j (calls s) (read_attr "java.lang:type=MemoryPool,*" "Name") = Ok json /\
       dict_jmx s' = dict_jmx s /\ calls s' = S (calls s) /\
       (~ accepted json -> names = [] /\ xlog s' = xlog s) /\
       (accepted json ->
        exists items,
          discovered json = Ok items /\
          names = listed DEFAULT_MP items /\
          xlog s' = xlog s ++ map (fun n => (LError, MsgPoolNotSupported n))
                                  (unlisted DEFAULT_MP items))) /\
  (forall j s names s',
     get_gc_names j s = (Ok names, s') ->
     exists json,
       j (calls s) (read_attr "java.lang:type=GarbageCollector,*" "Name") = Ok json /\
       dict_jmx s' = dict_jmx s /\ calls s' = S (calls s) /\
       (~ accepted json -> names = [] /\ xlog s' = xlog s) /\
       (accepted json ->
        exists items,
          discovered json = Ok items /\
          names = listed DEFAULT_GC items /\
          xlog s' = xlog s ++ map (fun n => (LError, MsgGcNotSupported n))
                                  (unlisted DEFAULT_GC items))) /\
  (forall allow items n,
     n ∈ listed allow items <->
     In n allow /\ exists item, item ∈ items /\ name_of item = Ok (VStr n)) /\
  (forall allow items v,
     v ∈ unlisted allow items <->
     (forall n, In n allow -> v <> VStr n) /\
     exists item, item ∈ items /\ name_of item = Ok v) /\
  (forall j gc_name s s',
     jmxstats_gc j gc_name s = (Ok tt, s') ->
     exists valid,
       j (calls s)
         (read_attr ("java.lang:type=GarbageCollector,name=" +:+ gc_name) "Valid")
         = Ok valid /\
       ((~ says_valid valid /\ dict_jmx s' = dict_jmx s) \/
        (says_valid valid /\
         exists gc_values,
           j (S (calls s))
             (read_attr ("java.lang:type=GarbageCollector,name=" +:+ gc_name)
                "CollectionTime,CollectionCount") = Ok gc_values /\
           ((~ accepted gc_values /\ dict_jmx s' = dict_jmx s) \/
            (accepted gc_values /\
             exists time count,
               result_bind (jvalue gc_values "CollectionTime") millis_to_sec = Ok time /\
               jvalue gc_values "CollectionCount" = Ok count /\
               dict_jmx s' =
                 <[no_spaces gc_name +:+ "CollectionCount" := count]>
                   (<[no_spaces gc_name +:+ "CollectionTime" := time]> (dict_jmx s))))))) /\
  (forall j pool_name s s',
     jmxstats_pool j pool_name s = (Ok tt, s') ->
     exists valid,
       j (calls s)
         (read_attr ("java.lang:type=MemoryPool,name=" +:+ pool_name) "Valid") = Ok valid /\
       ((~ says_valid valid /\ dict_jmx s' = dict_jmx s) \/
        (says_valid valid /\
         exists mp_values,
           j (S (calls s))
             (read_attr ("java.lang:type=MemoryPool,name=" +:+ pool_name) "Usage")
             = Ok mp_values /\
           ((~ accepted mp_values /\ dict_jmx s' = dict_jmx s) \/
            (accepted mp_values /\
             exists used,
               result_bind (jvalue mp_values "used") bytes_to_mb = Ok used /\
               dict_jmx s' =
                 <[no_spaces pool_name +:+ "UsageUsed" := used]> (dict_jmx s)))))).
Proof.
  split; [intros j s names s'; apply discovery_spec|].
  split; [intros j s names s'; apply discovery_spec|].
  split; [exact listed_spec|].
  split; [exact unlisted_spec|].
  split; [exact jmxstats_gc_step|exact jmxstats_pool_step].
Qed.

(** C8 as stated fails: "G1 Old Gen" is on the allow-list and is returned by
    the discovery, but its "Valid" flag is false, and neither the memory-pool
    category nor the pool step of the summary category stores any field for
    it. *)
Lemma allow_listed_pool_without_fields :
  In "G1 Old Gen" DEFAULT_MP /\
  fst (get_memory_pool_names client_invalid_pool empty_record) = Ok ["G1 Old Gen"] /\
  add_memory_pool_parameters client_invalid_pool empty_record = (Ok tt, XState ∅ 2 []) /\
  jmxstats_pool client_invalid_pool "G1 Old Gen" empty_record = (Ok tt, XState ∅ 1 []).
Proof. split; [simpl; tauto|]. vm_compute. repeat split. Qed.

Lemma discovered_names_filtered_witness :
  exists json,
    client_one_collector (calls empty_record)
      (read_attr "java.lang:type=MemoryPool,*" "Name") = Ok json /\
    dict_jmx (snd (get_memory_pool_names client_one_collector empty_record))
      = dict_jmx empty_record /\
    calls (snd (get_memory_pool_names client_one_collector empty_record))
      = S (calls empty_record) /\
    (~ accepted json ->
     @nil string = [] /\
     xlog (snd (get_memory_pool_names client_one_collector empty_record))
       = xlog empty_record) /\
    (accepted json ->
     exists items,
       discovered json = Ok items /\
       [] = listed DEFAULT_MP items /\
       xlog (snd (get_memory_pool_names client_one_collector empty_record)) =
         xlog empty_record ++ map (fun n => (LError, MsgPoolNotSupported n))
                                  (unlisted DEFAULT_MP items)).
Proof.
  apply (proj1 discovered_names_filtered client_one_collector empty_record).
  vm_compute. reflexivity.
Defined.

(** * Parsing the command outputs *)

Lemma append_cons (c : ascii) (s t : string) : String c s +:+ t = String c (s +:+ t).
Proof. reflexivity. Qed.

Lemma append_nil_l (s : string) : "" +:+ s = s.
Proof. reflexivity. Qed.

Lemma append_nil_r (s : string) : s +:+ "" = s.
Proof.
  induction s as [|c s IH]; [reflexivity|].
  rewrite append_cons. f_equal. exact IH.
Qed.

Lemma snoc_append (cur : string) (c : ascii) (s : string) :
  snoc cur c +:+ s = cur +:+ String c s.
Proof. unfold snoc. rewrite append_assoc. reflexivity. Qed.

Lemma snoc_nonempty cur c : String.eqb (snoc cur c) "" = false.
Proof. destruct cur; reflexivity. Qed.

Lemma eqb_empty_app cur s : String.eqb cur "" = false -> String.eqb (cur +:+ s) "" = false.
Proof. destruct cur; [discriminate|reflexivity]. Qed.

(** ** [split()] *)

Lemma first_word_cons (c : ascii) (s : string) :
  first_word (String c s) =
  if is_space c then first_word s else Some (String c (take_while not_space s)).
Proof.
  unfold first_word. cbn [drop_while].
  destruct (is_space c) eqn:Hc; [reflexivity|].
  cbn [nonempty String.eqb negb take_while]. unfold not_space at 1. rewrite Hc. reflexivity.
Qed.

Lemma take_while_cons (p : ascii -> bool) (c : ascii) (s : string) :
  take_while p (String c s) = if p c then String c (take_while p s) else "".
Proof. reflexivity. Qed.

Lemma head_split_ws_from (s cur : string) :
  head (split_ws_from s cur) =
  if String.eqb cur "" then first_word s
  else Some (cur +:+ take_while not_space s).
Proof.
  revert cur. induction s as [|c s IH]; intros cur.
  - cbn [split_ws_from take_while]. rewrite append_nil_r.
    destruct (String.eqb cur "") eqn:E; reflexivity.
  - cbn [split_ws_from]. rewrite first_word_cons, take_while_cons.
    replace (not_space c) with (negb (is_space c)) by reflexivity.
    destruct (is_space c) eqn:Hc; cbn [negb]; cbv beta iota.
    + destruct (String.eqb cur "") eqn:E.
      * rewrite IH. reflexivity.
      * cbn [head]. rewrite append_nil_r. reflexivity.
    + rewrite IH, snoc_nonempty, snoc_append.
      destruct (String.eqb cur "") eqn:E; [|reflexivity].
      apply String.eqb_eq in E. subst cur. reflexivity.
Qed.

Lemma first_word_split_ws (line : string) : head (split_ws line) = first_word line.
Proof. unfold split_ws. rewrite head_split_ws_from. reflexivity. Qed.

Lemma drop_while_blank (s : string) :
  nonempty (drop_while is_space s) = negb (blank s).
Proof.
  induction s as [|c s IH]; [reflexivity|].
  unfold blank. simpl. destruct (is_space c); simpl; [exact IH|reflexivity].
Qed.

Lemma first_word_blank (line : string) :
  first_word line = None <-> blank line = true.
Proof.
  unfold first_word. cbv zeta. rewrite drop_while_blank.
  destruct (blank line); simpl; split; congruence.
Qed.

Lemma blank_nonempty_empty : blank "" = true.
Proof. reflexivity. Qed.

Lemma omap_cons_first_word (l : string) (lines : list string) :
  omap first_word (l :: lines) =
  match first_word l with
  | Some w => w :: omap first_word lines
  | None => omap first_word lines
  end.
Proof. reflexivity. Qed.

Lemma pid_list_of_spec (lines : list string) :
  pid_list_of lines =
  if existsb (fun l => nonempty l && blank l) lines then Raise IndexError
  else Ok (omap first_word lines).
Proof.
  induction lines as [|l lines IH]; [reflexivity|].
  rewrite omap_cons_first_word. cbn [pid_list_of existsb].
  unfold py_index. rewrite <- head_lookup, first_word_split_ws, IH.
  destruct (nonempty l) eqn:Hne.
  - destruct (first_word l) as [w|] eqn:Hw.
    + assert (blank l = false) as ->.
      { destruct (blank l) eqn:B; [|reflexivity].
        apply first_word_blank in B. congruence. }
      cbn. destruct (existsb _ lines); reflexivity.
    + apply first_word_blank in Hw. rewrite Hw. reflexivity.
  - assert (first_word l = None) as ->.
    { apply first_word_blank. unfold nonempty in Hne.
      apply negb_false_iff, String.eqb_eq in Hne. subst l. reflexivity. }
    reflexivity.
Qed.

Lemma get_pid_cases (h : host) (s : state) :
  let (out, err) := pid_cmd h in
  let lines := splitlines out in
  get_pid h s =
    if nonempty err
    then (Ok None, set_log (fun lg => lg ++ [(LError, MsgPidError err)]) s)
    else if existsb (fun l => nonempty l && blank l) lines then (Raise IndexError, s)
    else (Ok (Some (omap first_word lines)), s).
Proof.
  unfold get_pid. destruct (pid_cmd h) as [out err]. cbv zeta.
  destruct (nonempty err); [reflexivity|].
  unfold bind, lift. rewrite pid_list_of_spec.
  destruct (existsb _ (splitlines out)); reflexivity.
Qed.

(** X: [get_pid].  A non-empty stderr of the jcmd pipeline gives [False]
    (here [None]) and one error line.  Otherwise every non-empty line of the
    output contributes its first word, empty lines are skipped, and a
    non-empty line of blanks only makes [pidval[0]] raise IndexError. *)
Theorem get_pid_spec (h : host) (s : state) :
  let (out, err) := pid_cmd h in
  let lines := splitlines out in
  get_pid h s =
    if nonempty err
    then (Ok None, set_log (fun lg => lg ++ [(LError, MsgPidError err)]) s)
    else if existsb (fun l => nonempty l && blank l) lines then (Raise IndexError, s)
    else (Ok (Some (omap first_word lines)), s).
Proof. exact (get_pid_cases h s). Qed.

(** ** [splitlines()], [split(':')] and [re.findall('\d+', ...)] *)

Lemma all_chars_cons p c s : all_chars p (String c s) = p c && all_chars p s.
Proof. reflexivity. Qed.

Lemma all_chars_app p a b : all_chars p (a +:+ b) = all_chars p a && all_chars p b.
Proof.
  induction a as [|c a IH]; [reflexivity|].
  rewrite append_cons, !all_chars_cons, IH. apply andb_assoc.
Qed.

Lemma splitlines_from_line (a s cur : string) :
  all_chars not_newline a = true ->
  splitlines_from (a +:+ s) cur = splitlines_from s (cur +:+ a).
Proof.
  revert cur. induction a as [|c a IH]; intros cur Ha.
  - rewrite append_nil_l, append_nil_r. reflexivity.
  - rewrite all_chars_cons in Ha. apply andb_prop in Ha. destruct Ha as [Hc Ha].
    unfold not_newline, is_newline in Hc. apply negb_true_iff, orb_false_iff in Hc.
    destruct Hc as [H1 H2].
    rewrite append_cons. cbn [splitlines_from]. rewrite H1, H2.
    rewrite IH by exact Ha. rewrite snoc_append. reflexivity.
Qed.

Lemma head_splitlines_from (tail cur : string) :
  starts_with not_newline tail = false ->
  nonempty cur = true \/ nonempty tail = true ->
  head (splitlines_from tail cur) = Some cur.
Proof.
  intros Ht Hne. destruct tail as [|c tail].
  - destruct Hne as [Hne|Hne]; [|discriminate].
    cbn [splitlines_from]. unfold nonempty in Hne. apply negb_true_iff in Hne.
    rewrite Hne. reflexivity.
  - cbn [starts_with] in Ht. unfold not_newline, is_newline in Ht.
    apply negb_false_iff, orb_true_iff in Ht.
    cbn [splitlines_from].
    destruct (Ascii.eqb c "010") eqn:E1; [reflexivity|].
    destruct Ht as [Ht|Ht]; [discriminate|]. rewrite Ht.
    destruct tail as [|d tail]; [reflexivity|].
    destruct (Ascii.eqb d "010"); reflexivity.
Qed.

Lemma lookup_1_cons {A} (x : A) (l : list A) : (x :: l) !! 1%nat = head l.
Proof. rewrite head_lookup. reflexivity. Qed.

Lemma lookup_2_cons {A} (x y : A) (l : list A) : (x :: y :: l) !! 2%nat = head l.
Proof. rewrite head_lookup. reflexivity. Qed.

Lemma second_line (line1 line2 tail : string) :
  all_chars not_newline line1 = true ->
  all_chars not_newline line2 = true ->
  nonempty line2 = true ->
  starts_with not_newline tail = false ->
  splitlines (line1 +:+ nl +:+ line2 +:+ tail) !! 1%nat = Some line2.
Proof.
  intros H1 H2 Hne Ht. unfold splitlines.
  rewrite splitlines_from_line by exact H1.
  unfold nl. rewrite append_cons, append_nil_l. cbn [splitlines_from Ascii.eqb Bool.eqb].
  rewrite lookup_1_cons.
  rewrite splitlines_from_line by exact H2.
  apply head_splitlines_from; [exact Ht|]. left. exact Hne.
Qed.

Lemma split_char_from_part (sep : ascii) (a s cur : string) :
  all_chars (fun c => negb (Ascii.eqb c sep)) a = true ->
  split_char_from sep (a +:+ s) cur = split_char_from sep s (cur +:+ a).
Proof.
  revert cur. induction a as [|c a IH]; intros cur Ha.
  - rewrite append_nil_l, append_nil_r. reflexivity.
  - rewrite all_chars_cons in Ha. apply andb_prop in Ha. destruct Ha as [Hc Ha].
    apply negb_true_iff in Hc.
    rewrite append_cons. cbn [split_char_from]. rewrite Hc.
    rewrite IH by exact Ha. rewrite snoc_append. reflexivity.
Qed.

Lemma split_char_from_sep (sep : ascii) (s cur : string) :
  split_char_from sep (String sep s) cur = cur :: split_char_from sep s "".
Proof. cbn [split_char_from]. rewrite Ascii.eqb_refl. reflexivity. Qed.

Lemma head_split_char_from (sep : ascii) (s cur : string) :
  head (split_char_from sep s cur) =
  Some (cur +:+ take_while (fun c => negb (Ascii.eqb c sep)) s).
Proof.
  revert cur. induction s as [|c s IH]; intros cur.
  - cbn [split_char_from take_while head]. rewrite append_nil_r. reflexivity.
  - cbn [split_char_from]. rewrite take_while_cons.
    destruct (Ascii.eqb c sep); cbn [negb]; cbv beta iota.
    + cbn [head]. rewrite append_nil_r. reflexivity.
    + rewrite IH, snoc_append. reflexivity.
Qed.

Lemma third_field (a b c : string) :
  all_chars not_colon a = true -> all_chars not_colon b = true ->
  split_char ":" (a +:+ ":" +:+ b +:+ ":" +:+ c) !! 2%nat = Some (take_while not_colon c).
Proof.
  intros Ha Hb. unfold split_char.
  rewrite split_char_from_part by exact Ha.
  change (":" +:+ b +:+ ":" +:+ c) with (String ":" (b +:+ ":" +:+ c)).
  rewrite split_char_from_sep.
  rewrite split_char_from_part by exact Hb.
  change (":" +:+ c) with (String ":" c).
  rewrite split_char_from_sep, lookup_2_cons.
  rewrite head_split_char_from. reflexivity.
Qed.

Lemma findall_digits_from_run (ds s cur : string) :
  all_chars is_digit ds = true ->
  findall_digits_from (ds +:+ s) cur = findall_digits_from s (cur +:+ ds).
Proof.
  revert cur. induction ds as [|c ds IH]; intros cur Hd.
  - rewrite append_nil_l, append_nil_r. reflexivity.
  - rewrite all_chars_cons in Hd. apply andb_prop in Hd. destruct Hd as [Hc Hd].
    rewrite append_cons. cbn [findall_digits_from]. rewrite Hc.
    rewrite IH by exact Hd. rewrite snoc_append. reflexivity.
Qed.

Lemma head_findall_digits_from (s cur : string) :
  nonempty cur = true -> starts_with is_digit s = false ->
  head (findall_digits_from s cur) = Some cur.
Proof.
  intros Hne Hs. unfold nonempty in Hne. apply negb_true_iff in Hne.
  destruct s as [|c s]; cbn [findall_digits_from].
  - rewrite Hne. reflexivity.
  - cbn [starts_with] in Hs. rewrite Hs, Hne. reflexivity.
Qed.

Lemma take_while_app_all p a s :
  all_chars p a = true -> take_while p (a +:+ s) = a +:+ take_while p s.
Proof.
  induction a as [|c a IH]; intros Ha; [reflexivity|].
  rewrite all_chars_cons in Ha. apply andb_prop in Ha. destruct Ha as [Hc Ha].
  rewrite !append_cons, take_while_cons, Hc, IH by exact Ha. reflexivity.
Qed.

Lemma starts_with_take_while p q s :
  starts_with q s = false -> starts_with q (take_while p s) = false.
Proof.
  destruct s as [|c s]; [reflexivity|]. cbn [starts_with take_while].
  intros Hq. destruct (p c); [exact Hq|reflexivity].
Qed.

Lemma digits_not_colon ds : all_chars is_digit ds = true -> all_chars not_colon ds = true.
Proof.
  induction ds as [|c ds IH]; [reflexivity|].
  rewrite !all_chars_cons. intros Hd. apply andb_prop in Hd. destruct Hd as [Hc Hd].
  rewrite IH by exact Hd. rewrite andb_true_r.
  unfold not_colon. apply negb_true_iff. apply Ascii.eqb_neq. intros ->. discriminate.
Qed.

(** The port in an agent URL [scheme:host:port/path] *)
Lemma port_of_url (a b ds r : string) :
  all_chars not_colon a = true -> all_chars not_colon b = true ->
  all_chars is_digit ds = true -> nonempty ds = true ->
  starts_with is_digit r = false ->
  result_bind (py_index (split_char ":" (a +:+ ":" +:+ b +:+ ":" +:+ ds +:+ r)) 2)
    (fun field => py_index (findall_digits field) 0) = Ok ds.
Proof.
  intros Ha Hb Hd Hne Hr. unfold py_index.
  rewrite third_field by assumption. cbn [result_bind].
  rewrite take_while_app_all by (apply digits_not_colon; exact Hd).
  unfold findall_digits. rewrite findall_digits_from_run by exact Hd.
  rewrite <- head_lookup, head_findall_digits_from; [reflexivity|exact Hne|].
  apply starts_with_take_while. exact Hr.
Qed.

(** ** The agent's port *)

Section PidPort.

Lemma with_log_nil (s : state) : with_log [] s = s.
Proof. destruct s. unfold with_log, set_log. simpl. rewrite app_nil_r. reflexivity. Qed.

Lemma with_log_app (a b : list log_entry) (s : state) :
  with_log b (with_log a s) = with_log (a ++ b) s.
Proof. unfold with_log, set_log. simpl. rewrite app_assoc. reflexivity. Qed.

Lemma log_add_with_log l m s : log_add l m s = (Ok tt, with_log [(l, m)] s).
Proof. reflexivity. Qed.

Lemma run_jolokia_cmd_run h cmd pid s :
  run_jolokia_cmd h cmd pid s = (Ok (jolokia_cmd h cmd pid), with_log (uid_errors h pid) s).
Proof.
  unfold run_jolokia_cmd, get_uid, uid_errors, bind.
  destruct (uid_cmd h pid) as [uid err].
  destruct (nonempty err); [reflexivity|].
  unfold ret. rewrite with_log_nil. reflexivity.
Qed.

Lemma url_nonempty a x : nonempty (a +:+ ":" +:+ x) = true.
Proof. destruct a; reflexivity. Qed.

(** X: [get_pid_port] when the agent is already attached.  The status
    command succeeded and the second line of its output is a URL
    [scheme:host:port...]: the port is the run of digits after the second
    colon, returned as a string; the lookup logs one debug line and does not
    start anything. *)
Theorem get_pid_port_running (h : host) (pid : string) (s : state)
    (line1 a b ds r tail : string) :
  jolokia_cmd h "status" pid =
    (line1 +:+ nl +:+ (a +:+ ":" +:+ b +:+ ":" +:+ ds +:+ r) +:+ tail, "", 0) ->
  all_chars not_newline line1 = true ->
  all_chars not_newline (a +:+ ":" +:+ b +:+ ":" +:+ ds +:+ r) = true ->
  starts_with not_newline tail = false ->
  all_chars not_colon a = true -> all_chars not_colon b = true ->
  all_chars is_digit ds = true -> nonempty ds = true ->
  starts_with is_digit r = false ->
  get_pid_port h pid s =
    (Ok (VStr ds),
     with_log (uid_errors h pid ++ [(LDebug, MsgAlreadyRunning pid)]) s).
Proof.
  intros Hcmd Hl1 Hl2 Htail Ha Hb Hd Hne Hr.
  unfold get_pid_port.
  erewrite bind_ok by apply run_jolokia_cmd_run.
  rewrite Hcmd. cbn [nonempty String.eqb negb orb Z.eqb].
  unfold py_index at 1.
  erewrite bind_ok;
    [|unfold lift; rewrite second_line by (assumption || apply url_nonempty); reflexivity].
  pose proof (port_of_url a b ds r Ha Hb Hd Hne Hr) as Hport.
  destruct (py_index (split_char ":" (a +:+ ":" +:+ b +:+ ":" +:+ ds +:+ r)) 2)
    as [field|e] eqn:Hf; [|discriminate].
  cbn [result_bind] in Hport.
  erewrite bind_ok by (unfold lift; reflexivity).
  erewrite bind_ok by (unfold lift; rewrite Hport; reflexivity).
  erewrite bind_ok by apply log_add_with_log.
  unfold ret. rewrite with_log_app. reflexivity.
Qed.

(** X: [get_pid_port] when the status command fails (it wrote to stderr or
    exited with a non-zero status).  The agent is started; the result is the
    free port, as an integer, when the start command succeeds, and [False]
    with an error line when it fails.  Nothing is parsed and nothing raises.
    The uid of the process is looked up once for each command. *)
Theorem get_pid_port_not_running (h : host) (pid : string) (s : state) :
  let status := jolokia_cmd h "status" pid in
  let start := jolokia_cmd h "start" pid in
  nonempty (snd (fst status)) || negb (snd status =? 0) = true ->
  get_pid_port h pid s =
    if nonempty (snd (fst start)) || negb (snd start =? 0)
    then (Ok (VBool false),
          with_log (uid_errors h pid ++ uid_errors h pid ++
                    [(LError, MsgStartFailed pid (snd (fst start)))]) s)
    else (Ok (VInt (free_port h pid)),
          with_log (uid_errors h pid ++ uid_errors h pid ++
                    [(LInfo, MsgStarted pid)]) s).
Proof.
  intros status start Hfail. subst status start.
  unfold get_pid_port.
  erewrite bind_ok by apply run_jolokia_cmd_run.
  destruct (jolokia_cmd h "status" pid) as [[out err] rc]. cbn [fst snd] in Hfail.
  rewrite Hfail. cbv zeta.
  erewrite bind_ok by apply run_jolokia_cmd_run.
  destruct (jolokia_cmd h "start" pid) as [[out' err'] rc']. cbn [fst snd].
  destruct (nonempty err' || negb (rc' =? 0)).
  - erewrite bind_ok by apply log_add_with_log.
    unfold ret. rewrite !with_log_app, <- ?app_assoc. reflexivity.
  - erewrite bind_ok by apply log_add_with_log.
    unfold ret. rewrite !with_log_app, <- ?app_assoc. reflexivity.
Qed.

End PidPort.

Lemma get_pid_port_running_witness :
  get_pid_port host_no_server_bean "111" sample_plugin =
    (Ok (VStr "8778"),
     with_log (uid_errors host_no_server_bean "111" ++ [(LDebug, MsgAlreadyRunning "111")])
       sample_plugin).
Proof.
  apply (get_pid_port_running host_no_server_bean "111" sample_plugin
           "Jolokia started for PID 111" "http" "//127.0.0.1" "8778" "/jolokia/" nl);
    reflexivity.
Defined.

Lemma get_pid_port_not_running_witness :
  get_pid_port host_agent_absent "111" sample_plugin =
    (Ok (VInt 40000),
     with_log [(LInfo, MsgStarted "111")] sample_plugin).
Proof.
  apply (get_pid_port_not_running host_agent_absent "111"
           sample_plugin).
  reflexivity.
Defined.


(** * What an extraction may change *)

#[local] Instance extends_refl : Reflexive extends.
Proof.
  intros s. split; [intros k Hk; exact Hk|]. split; [lia|].
  exists []. split; [symmetry; apply app_nil_r|constructor].
Qed.

#[local] Instance extends_trans : Transitive extends.
Proof.
  intros s1 s2 s3 (K1 & C1 & a1 & L1 & F1) (K2 & C2 & a2 & L2 & F2).
  split; [intros k Hk; apply K2, K1, Hk|]. split; [lia|].
  exists (a1 ++ a2). split; [rewrite L2, L1, app_assoc; reflexivity|].
  apply Forall_app; auto.
Qed.

Lemma jrequest_extends j r : preserves extends (jrequest j r).
Proof.
  intros s. simpl. split; [intros k Hk; exact Hk|]. split; [simpl; lia|].
  exists []. split; [symmetry; apply app_nil_r|constructor].
Qed.

Lemma setitem_extends k v : preserves extends (setitem k v).
Proof.
  intros s. simpl. split.
  - intros k' Hk'. simpl. destruct (decide (k = k')) as [->|Hne].
    + rewrite lookup_insert_eq. eauto.
    + rewrite lookup_insert_ne by exact Hne. exact Hk'.
  - split; [simpl; lia|]. exists []. split; [symmetry; apply app_nil_r|constructor].
Qed.

Lemma xlog_add_extends m :
  unsupported_line (LError, m) -> preserves extends (xlog_add LError m).
Proof.
  intros Hm s. simpl. split; [intros k Hk; exact Hk|]. split; [simpl; lia|].
  exists [(LError, m)]. split; [reflexivity|]. constructor; [exact Hm|constructor].
Qed.

Ltac extends_step :=
  first [ apply jrequest_extends | apply setitem_extends | preserves_step ].

Lemma store_extends k e : preserves extends (store k e).
Proof. unfold store. repeat extends_step. Qed.

Lemma status_ok_extends json : preserves extends (status_ok json).
Proof. unfold status_ok. repeat extends_step. Qed.

Lemma is_valid_extends json : preserves extends (is_valid json).
Proof. unfold is_valid. repeat first [apply status_ok_extends | extends_step]. Qed.

Lemma handle_neg_bytes_extends v k : preserves extends (handle_neg_bytes v k).
Proof. unfold handle_neg_bytes. repeat first [apply store_extends | extends_step]. Qed.

Ltac extends_step' :=
  first
    [ apply store_extends | apply status_ok_extends | apply is_valid_extends
    | apply handle_neg_bytes_extends | extends_step ].
Ltac extends_auto := repeat extends_step'.

Lemma collect_names_extends allow msg items :
  (forall name, unsupported_line (LError, msg name)) ->
  preserves extends (collect_names allow msg items).
Proof.
  intros Hmsg. induction items as [|[k v] items IH]; cbn [collect_names].
  - extends_auto.
  - repeat first [apply IH | apply xlog_add_extends; apply Hmsg | extends_step'].
Qed.

Lemma get_gc_names_extends j : preserves extends (get_gc_names j).
Proof.
  unfold get_gc_names.
  repeat first [apply collect_names_extends; intros name; exists name; auto | extends_step'].
Qed.

Lemma get_memory_pool_names_extends j : preserves extends (get_memory_pool_names j).
Proof.
  unfold get_memory_pool_names.
  repeat first [apply collect_names_extends; intros name; exists name; auto | extends_step'].
Qed.

Lemma pool_usage_extends usage p : preserves extends (pool_usage usage p).
Proof. unfold pool_usage. extends_auto. Qed.

Lemma memory_gc_usage_extends v key gc : preserves extends (memory_gc_usage v key gc).
Proof. unfold memory_gc_usage, memory_gc_entry. extends_auto. Qed.

Ltac extends_all :=
  repeat first
    [ apply get_gc_names_extends | apply get_memory_pool_names_extends
    | apply pool_usage_extends | apply memory_gc_usage_extends | extends_step' ].

Lemma add_memory_pool_parameters_extends j : preserves extends (add_memory_pool_parameters j).
Proof. unfold add_memory_pool_parameters, memory_pool. extends_all. Qed.

Lemma add_memory_parameters_extends j : preserves extends (add_memory_parameters j).
Proof. unfold add_memory_parameters. extends_all. Qed.

Lemma add_threading_parameters_extends j : preserves extends (add_threading_parameters j).
Proof. unfold add_threading_parameters. extends_all. Qed.

Lemma add_gc_parameters_extends j : preserves extends (add_gc_parameters j).
Proof. unfold add_gc_parameters, gc_collector. extends_all. Qed.

Lemma add_classloading_parameters_extends j : preserves extends (add_classloading_parameters j).
Proof. unfold add_classloading_parameters. extends_all. Qed.

Lemma add_compilation_parameters_extends j : preserves extends (add_compilation_parameters j).
Proof. unfold add_compilation_parameters. extends_all. Qed.

Lemma add_nio_parameters_extends j : preserves extends (add_nio_parameters j).
Proof. unfold add_nio_parameters, nio_pool. extends_all. Qed.

Lemma add_operating_system_parameters_extends j :
  preserves extends (add_operating_system_parameters j).
Proof. unfold add_operating_system_parameters. extends_all. Qed.

Lemma add_zookeeper_parameters_extends zk j :
  preserves extends (add_zookeeper_parameters zk j).
Proof. unfold add_zookeeper_parameters. extends_all. Qed.

Lemma add_jmxstats_parameters_extends j : preserves extends (add_jmxstats_parameters j).
Proof.
  unfold add_jmxstats_parameters, jmxstats_head, jmxstats_defaults, jmxstats_gc, jmxstats_pool.
  extends_all.
Qed.

Lemma connection_available_extends probe : preserves extends (connection_available probe).
Proof. unfold connection_available. extends_all. Qed.

Lemma extraction_extends (a : agent) (zk_port : value) (doc : string) :
  preserves extends (get_jmx_parameters a zk_port doc).
Proof.
  unfold get_jmx_parameters.
  repeat first
    [ apply connection_available_extends
    | apply add_memory_pool_parameters_extends | apply add_memory_parameters_extends
    | apply add_threading_parameters_extends | apply add_gc_parameters_extends
    | apply add_classloading_parameters_extends | apply add_compilation_parameters_extends
    | apply add_nio_parameters_extends | apply add_operating_system_parameters_extends
    | apply add_zookeeper_parameters_extends | apply add_jmxstats_parameters_extends
    | preserves_step ].
Qed.

(** X: whatever the agent answers and however the extraction ends, the
    extraction of a category never removes a field of the record, never
    takes back a request, and adds to the log nothing but lines about
    unsupported names. *)
Theorem get_jmx_parameters_extends (a : agent) (zk_port : value) (doc : string)
    (s : xstate) :
  extends s (snd (get_jmx_parameters a zk_port doc s)).
Proof. apply extraction_extends. Qed.


(** * One worker *)

Section Worker.
Context `{Constants}.

Lemma doc_errors_app (a b : list log_entry) :
  doc_errors (a ++ b) = (doc_errors a + doc_errors b)%nat.
Proof. unfold doc_errors. rewrite List.filter_app, length_app. reflexivity. Qed.

Lemma doc_errors_unsupported (added : list log_entry) :
  Forall unsupported_line added -> doc_errors added = 0%nat.
Proof.
  induction 1 as [|e added He _ IH]; [reflexivity|].
  change (e :: added) with ([e] ++ added). rewrite doc_errors_app, IH.
  destruct He as [name [-> | ->]]; reflexivity.
Qed.

(** The [try] block of one category, after the extraction *)
Lemma collect_doc_steps (a : agent) (zk_port : value) (pid doc : string) (s0 : xstate) :
  collect_doc a zk_port pid doc s0 =
  match get_jmx_parameters a zk_port doc s0 with
  | (Ok _, s1) =>
      if Nat.eqb (size (dict_jmx s1)) 0 then (Raise (Exception_ "No data found"), s1)
      else
        let d := common_params (clock a doc) doc (dict_jmx s1) in
        (Ok d, XState d (calls s1)
                 (xlog s1 ++ [(LInfo, MsgDocAdded doc pid); (LInfo, MsgCommonAdded)]))
  | (Raise e, s1) => (Raise e, s1)
  end.
Proof.
  unfold collect_doc. unfold bind at 1.
  destruct (get_jmx_parameters a zk_port doc s0) as [[[]|e] s1]; [|reflexivity].
  unfold bind at 1. cbn [get_state].
  destruct (Nat.eqb (size (dict_jmx s1)) 0); [reflexivity|].
  unfold common_params. cbn. rewrite <- app_assoc. reflexivity.
Qed.

Lemma sublist_cons_app {A} (x : A) (put : list A) (l k : list A) :
  put = [x] \/ put = [] -> sublist l k -> sublist (put ++ l) (x :: k).
Proof.
  intros [-> | ->] Hs; simpl.
  - apply sublist_skip. exact Hs.
  - apply sublist_cons. exact Hs.
Qed.

(** X: [get_pid_jmx_stats] accounts for every category: each one either puts
    exactly one tuple on the queue or logs exactly one error line.  The
    tuples are put in the order of the categories; each carries the worker's
    process id and a non-empty extraction result extended with the five
    common parameters. *)
Theorem worker_accounts (a : agent) (zk_port : value) (pid : string) (docs : list string) :
  let out := get_pid_jmx_stats_docs a zk_port pid docs in
  (length (fst out) + doc_errors (snd out) = length docs)%nat /\
  sublist (map tuple_doc (fst out)) docs /\
  Forall (fun t =>
            tuple_pid t = pid /\
            exists d, d <> ∅ /\
              tuple_record t = common_params (clock a (tuple_doc t)) (tuple_doc t) d)
         (fst out).
Proof.
  induction docs as [|doc docs IH]; cbn [get_pid_jmx_stats_docs].
  - simpl. repeat split; [constructor|constructor].
  - rewrite collect_doc_steps.
    pose proof (extraction_extends a zk_port doc (XState ∅ 0 [])) as E.
    destruct (get_pid_jmx_stats_docs a zk_port pid docs) as [puts logs].
    cbn [fst snd] in IH. destruct IH as (IHn & IHs & IHf).
    destruct (get_jmx_parameters a zk_port doc (XState ∅ 0 [])) as [[[]|e] s1];
      cbn [snd] in E; destruct E as (_ & _ & added & Hlog & Hadded);
      cbn [xlog app] in Hlog.
    + destruct (Nat.eqb (size (dict_jmx s1)) 0) eqn:Hsize; cbv zeta; cbn [fst snd xlog].
      * rewrite Hlog, !doc_errors_app, (doc_errors_unsupported _ Hadded).
        cbn [app length map]. split; [simpl; lia|].
        split; [apply sublist_cons; exact IHs|]. exact IHf.
      * rewrite Hlog, !doc_errors_app, (doc_errors_unsupported _ Hadded).
        cbn [app length map]. split; [simpl; lia|].
        split; [apply sublist_skip; exact IHs|].
        constructor; [|exact IHf]. split; [reflexivity|].
        exists (dict_jmx s1). split; [|reflexivity].
        intros Hd. rewrite Hd in Hsize. discriminate.
    + cbn [fst snd xlog].
      rewrite Hlog, !doc_errors_app, (doc_errors_unsupported _ Hadded).
      cbn [app length map]. split; [simpl; lia|].
      split; [apply sublist_cons; exact IHs|]. exact IHf.
Qed.

Lemma get_jmx_parameters_down (a : agent) (zk_port : value) (doc : string) (s : xstate) :
  version_probe a doc <> Ok 200 ->
  get_jmx_parameters a zk_port doc s =
    match version_probe a doc with
    | Ok _ | Raise ConnectionError => (Ok tt, s)
    | Raise e => (Raise e, s)
    end.
Proof.
  intros Hdown. unfold get_jmx_parameters, connection_available.
  destruct (version_probe a doc) as [code|e].
  - assert ((code =? 200) = false) as Hc.
    { apply Z.eqb_neq. intros ->. apply Hdown. reflexivity. }
    unfold bind, ret. rewrite Hc. reflexivity.
  - destruct e; reflexivity.
Qed.

(** X: a worker whose agent is not up puts nothing.  When the version
    endpoint refuses the connection or answers with a status other than 200,
    the category ends with "No data found"; any other exception of the probe
    is the category's error.  No request for data is made. *)
Theorem agent_down_puts_nothing (a : agent) (zk_port : value) (pid : string)
    (docs : list string) :
  (forall doc, In doc docs -> version_probe a doc <> Ok 200) ->
  get_pid_jmx_stats_docs a zk_port pid docs =
    ([], map (fun doc => (LError, MsgDocError doc (probe_exn (version_probe a doc)))) docs).
Proof.
  induction docs as [|doc docs IH]; intros Hdown; [reflexivity|].
  cbn [get_pid_jmx_stats_docs map]. rewrite collect_doc_steps.
  rewrite get_jmx_parameters_down by (apply Hdown; left; reflexivity).
  rewrite IH by (intros d Hd; apply Hdown; right; exact Hd).
  unfold probe_exn.
  destruct (version_probe a doc) as [code|e]; [reflexivity|].
  destruct e; reflexivity.
Qed.

(** X: with a client port that is not a string (the plugin's [port] is
    [None] until the configuration sets it), the worker never puts a
    zookeeperStats tuple: building the bean name raises TypeError before any
    request is made. *)
Theorem port_not_a_string (a : agent) (zk_port : value) (pid : string) :
  is_str zk_port = false ->
  let out := get_pid_jmx_stats a zk_port pid in
  Forall (fun t => tuple_doc t = "jmxStats") (fst out) /\
  (version_probe a "zookeeperStats" = Ok 200 ->
   exists before,
     snd out = before ++ [(LError, MsgDocError "zookeeperStats" TypeError)]).
Proof.
  intros Hport out. subst out. unfold get_pid_jmx_stats, ZOOK_DOCS.
  cbn [get_pid_jmx_stats_docs].
  assert (Hzk : forall s j, add_zookeeper_parameters zk_port j s = (Raise TypeError, s)).
  { intros s j. unfold add_zookeeper_parameters, str_concat.
    destruct zk_port; try discriminate; reflexivity. }
  assert (Hdoc : exists e, collect_doc a zk_port pid "zookeeperStats" (XState ∅ 0 []) =
                    (Raise e, XState ∅ 0 []) /\
                  (version_probe a "zookeeperStats" = Ok 200 -> e = TypeError)).
  { rewrite collect_doc_steps. unfold get_jmx_parameters, connection_available.
    destruct (version_probe a "zookeeperStats") as [code|e].
    - unfold bind at 1. unfold ret at 1.
      destruct (code =? 200) eqn:Hc; cbn [negb].
      + cbn [String.eqb Ascii.eqb Bool.eqb]. rewrite Hzk. eexists. split; [reflexivity|auto].
      + unfold ret. cbn. eexists. split; [reflexivity|].
        intros [= ->]. discriminate.
    - destruct e; cbn; eexists; (split; [reflexivity|discriminate]). }
  destruct Hdoc as (e & -> & He).
  destruct (collect_doc a zk_port pid "jmxStats" (XState ∅ 0 [])) as [[d|e'] s1];
    cbn [fst snd app].
  - split; [repeat constructor|]. intros Hup. rewrite (He Hup).
    exists (xlog s1). reflexivity.
  - split; [constructor|]. intros Hup. rewrite (He Hup).
    exists (xlog s1 ++ [(LError, MsgDocError "jmxStats" e')]). reflexivity.
Qed.

End Worker.

Lemma agent_down_puts_nothing_witness :
  get_pid_jmx_stats_docs (H := sample_constants) agent_down (VStr "2181") "111" ZOOK_DOCS =
    ([], map (fun doc => (LError, MsgDocError doc
                            (probe_exn (version_probe agent_down doc)))) ZOOK_DOCS).
Proof.
  apply (agent_down_puts_nothing (H := sample_constants) agent_down (VStr "2181") "111"
           ZOOK_DOCS).
  intros doc _. discriminate.
Defined.

Lemma port_not_a_string_witness :
  let out := get_pid_jmx_stats (H := sample_constants) agent_no_server_bean VNone "111" in
  Forall (fun t => tuple_doc t = "jmxStats") (fst out) /\
  (version_probe agent_no_server_bean "zookeeperStats" = Ok 200 ->
   exists before,
     snd out = before ++ [(LError, MsgDocError "zookeeperStats" TypeError)]).
Proof.
  apply (port_not_a_string (H := sample_constants) agent_no_server_bean VNone "111").
  reflexivity.
Defined.


(** * Refused requests *)

Lemma refused_request (j : client) (r : request) (s : xstate) :
  refuses j ->
  exists json, jrequest j r s = (Ok json, requested 1 s) /\
               forall s', status_ok json s' = (Ok false, s').
Proof.
  intros Hj. destruct (Hj (calls s) r) as (json & st & Hreq & Hst & H200).
  exists json. split.
  - unfold jrequest, requested. rewrite Hreq. reflexivity.
  - intros s'. unfold status_ok, bind, lift, ret. rewrite Hst, H200. reflexivity.
Qed.

(** One refused request: the guarded statements are skipped. *)
Ltac refuse_one Hj :=
  match goal with
  | |- context [bind (jrequest ?j ?r) ?k ?s] =>
      let json := fresh "json" in let Hreq := fresh "Hreq" in let Hst := fresh "Hst" in
      destruct (refused_request j r s Hj) as (json & Hreq & Hst);
      rewrite (bind_ok (jrequest j r) k s json _ Hreq);
      cbv beta;
      erewrite bind_ok by apply Hst;
      cbv beta iota;
      clear json Hreq Hst;
      try rewrite (bind_ok (ret tt) _ _ tt _ eq_refl)
  end.

Lemma add_classloading_parameters_refused j s :
  refuses j -> add_classloading_parameters j s = (Ok tt, requested 1 s).
Proof. intros Hj. unfold add_classloading_parameters. refuse_one Hj. reflexivity. Qed.

Lemma add_compilation_parameters_refused j s :
  refuses j -> add_compilation_parameters j s = (Ok tt, requested 1 s).
Proof. intros Hj. unfold add_compilation_parameters. refuse_one Hj. reflexivity. Qed.

Lemma add_threading_parameters_refused j s :
  refuses j -> add_threading_parameters j s = (Ok tt, requested 1 s).
Proof. intros Hj. unfold add_threading_parameters. refuse_one Hj. reflexivity. Qed.

Lemma add_memory_parameters_refused j s :
  refuses j -> add_memory_parameters j s = (Ok tt, requested 1 s).
Proof. intros Hj. unfold add_memory_parameters. refuse_one Hj. reflexivity. Qed.

Lemma add_operating_system_parameters_refused j s :
  refuses j -> add_operating_system_parameters j s = (Ok tt, requested 1 s).
Proof. intros Hj. unfold add_operating_system_parameters. refuse_one Hj. reflexivity. Qed.

Lemma get_gc_names_refused j s :
  refuses j -> get_gc_names j s = (Ok [], requested 1 s).
Proof. intros Hj. unfold get_gc_names. refuse_one Hj. reflexivity. Qed.

Lemma get_memory_pool_names_refused j s :
  refuses j -> get_memory_pool_names j s = (Ok [], requested 1 s).
Proof. intros Hj. unfold get_memory_pool_names. refuse_one Hj. reflexivity. Qed.

Lemma add_gc_parameters_refused j s :
  refuses j -> add_gc_parameters j s = (Ok tt, requested 1 s).
Proof.
  intros Hj. unfold add_gc_parameters.
  erewrite bind_ok by (apply get_gc_names_refused; exact Hj). reflexivity.
Qed.

Lemma add_memory_pool_parameters_refused j s :
  refuses j -> add_memory_pool_parameters j s = (Ok tt, requested 1 s).
Proof.
  intros Hj. unfold add_memory_pool_parameters.
  erewrite bind_ok by (apply get_memory_pool_names_refused; exact Hj). reflexivity.
Qed.

Lemma add_nio_parameters_refused j s :
  refuses j -> add_nio_parameters j s = (Ok tt, requested 1 s).
Proof. intros Hj. unfold add_nio_parameters. refuse_one Hj. reflexivity. Qed.

Lemma add_zookeeper_parameters_refused p j s :
  refuses j -> add_zookeeper_parameters (VStr p) j s = (Ok tt, requested 4 s).
Proof.
  intros Hj. unfold add_zookeeper_parameters.
  erewrite bind_ok by (unfold lift, str_concat; reflexivity).
  cbv beta zeta. do 4 refuse_one Hj. reflexivity.
Qed.

Lemma add_jmxstats_parameters_refused j s :
  refuses j ->
  add_jmxstats_parameters j s =
    (Ok tt, XState (foldl (fun d k => <[k := VInt 0]> d) (dict_jmx s) param_list)
              (5 + calls s) (xlog s)).
Proof.
  intros Hj. unfold add_jmxstats_parameters.
  assert (Hhead : jmxstats_head j s = (Ok tt, requested 3 s)).
  { unfold jmxstats_head. do 3 refuse_one Hj. reflexivity. }
  erewrite bind_ok by exact Hhead.
  unfold jmxstats_defaults. erewrite bind_ok by apply for_each_setitem.
  erewrite bind_ok by (apply get_gc_names_refused; exact Hj).
  cbn [for_each]. erewrite bind_ok by reflexivity.
  erewrite bind_ok by (apply get_memory_pool_names_refused; exact Hj).
  reflexivity.
Qed.

Lemma foldl_insert_lookup_ne (l : list string) (v : value) (d : gmap string value) k :
  k ∉ l -> foldl (fun d k => <[k := v]> d) d l !! k = d !! k.
Proof.
  revert d. induction l as [|k' l IH]; intros d Hk; cbn [foldl]; [reflexivity|].
  apply not_elem_of_cons in Hk. destruct Hk as [Hne Hk].
  rewrite IH by exact Hk. apply lookup_insert_ne. congruence.
Qed.

(** X: an agent that is up but answers every request with a status other
    than 200.  No category raises and nothing is logged.  Nine categories
    and the ZooKeeper category leave the record as it was; the summary
    category [jmxStats] stores its ten zero defaults and nothing else. *)
Theorem refused_requests_store_nothing (a : agent) (zk_port : value) (doc : string)
    (s : xstate) :
  version_probe a doc = Ok 200 ->
  refuses (answers a doc) ->
  is_str zk_port = true ->
  let out := get_jmx_parameters a zk_port doc s in
  fst out = Ok tt /\ xlog (snd out) = xlog s /\
  forall k, dict_jmx (snd out) !! k =
    if String.eqb doc "jmxStats" && bool_decide (k ∈ param_list) then Some (VInt 0)
    else dict_jmx s !! k.
Proof.
  intros Hup Hj Hport out. subst out.
  destruct zk_port as [| | | |p| |]; try discriminate.
  unfold get_jmx_parameters, connection_available. rewrite Hup.
  erewrite bind_ok by reflexivity. cbn [Z.eqb Pos.eqb negb].
  repeat match goal with
         | |- context [if String.eqb doc ?lit then _ else _] =>
             let E := fresh "E" in
             destruct (String.eqb doc lit) eqn:E;
             [apply String.eqb_eq in E; subst doc|]
         end;
    first
      [ rewrite add_memory_pool_parameters_refused by exact Hj
      | rewrite add_memory_parameters_refused by exact Hj
      | rewrite add_threading_parameters_refused by exact Hj
      | rewrite add_gc_parameters_refused by exact Hj
      | rewrite add_classloading_parameters_refused by exact Hj
      | rewrite add_compilation_parameters_refused by exact Hj
      | rewrite add_nio_parameters_refused by exact Hj
      | rewrite add_operating_system_parameters_refused by exact Hj
      | rewrite add_zookeeper_parameters_refused by exact Hj
      | rewrite add_jmxstats_parameters_refused by exact Hj
      | idtac ];
    cbn [fst snd ret requested xlog dict_jmx andb String.eqb Ascii.eqb Bool.eqb];
    (split; [reflexivity|]); (split; [reflexivity|]); intros k;
    try reflexivity.
  (* the summary category *)
  destruct (bool_decide (k ∈ param_list)) eqn:Hk.
  - apply bool_decide_eq_true in Hk. apply foldl_insert_lookup. left. exact Hk.
  - apply bool_decide_eq_false in Hk. apply foldl_insert_lookup_ne. exact Hk.
Qed.

Lemma client_not_found_refuses : refuses client_not_found.
Proof. intros n r. exists not_found, (VInt 404). repeat split. Qed.

Lemma refused_requests_store_nothing_witness :
  let out := get_jmx_parameters agent_no_server_bean (VStr "2181") "jmxStats" empty_record in
  fst out = Ok tt /\ xlog (snd out) = xlog empty_record /\
  forall k, dict_jmx (snd out) !! k =
    if String.eqb "jmxStats" "jmxStats" && bool_decide (k ∈ param_list) then Some (VInt 0)
    else dict_jmx empty_record !! k.
Proof.
  apply (refused_requests_store_nothing agent_no_server_bean (VStr "2181") "jmxStats"
           empty_record).
  - reflexivity.
  - exact client_not_found_refuses.
  - reflexivity.
Defined.

(** * The ZooKeeper category *)

(** X: [add_zookeeper_parameters] makes four requests, the last two being
    the same [countEphemerals] operation on the data-tree bean.
    [countEphemerals] is the value of the first of them;
    [approximateDataSize] is the value of the second, divided twice by 1024
    and rounded to 2 decimals.  No other statement writes
    [approximateDataSize]. *)
Theorem data_size_from_ephemerals (p : string) (j : client) (s s' : xstate) :
  add_zookeeper_parameters (VStr p) j s = (Ok tt, s') ->
  calls s' = (4 + calls s)%nat /\
  exists eph size,
    j (2 + calls s)%nat (exec_op (data_tree_bean p) "countEphemerals") = Ok eph /\
    j (3 + calls s)%nat (exec_op (data_tree_bean p) "countEphemerals") = Ok size /\
    (accepted eph ->
     exists v, py_getitem eph "value" = Ok v /\ dict_jmx s' !! "countEphemerals" = Some v) /\
    (accepted size ->
     exists v mb, py_getitem size "value" = Ok v /\ bytes_to_mb v = Ok mb /\
                  dict_jmx s' !! "approximateDataSize" = Some mb) /\
    (~ accepted size ->
     dict_jmx s' !! "approximateDataSize" = dict_jmx s !! "approximateDataSize").
Proof.
  intros Hrun. unfold add_zookeeper_parameters in Hrun.
  apply bind_inv_ok in Hrun. destruct Hrun as (mbean & s0 & Hmb & Hrun).
  apply lift_inv in Hmb. destruct Hmb as [Hmb ->]. injection Hmb as <-.
  cbv zeta in Hrun.
  apply bind_inv_ok in Hrun. destruct Hrun as (zookper & s1 & Hreq1 & Hrun).
  apply jrequest_inv in Hreq1. destruct Hreq1 as [_ ->].
  apply bind_inv_ok in Hrun. destruct Hrun as (ok1 & s2 & Hok1 & Hrun).
  apply status_ok_inv in Hok1. destruct Hok1 as (-> & _ & _ & _).
  apply bind_inv_ok in Hrun. destruct Hrun as ([] & s3 & Hserver & Hrun).
  assert (Hs3 : calls s3 = S (calls s) /\
                dict_jmx s3 !! "approximateDataSize" = dict_jmx s !! "approximateDataSize").
  { destruct ok1; inv_ok Hserver; split; try reflexivity; read_store. }
  destruct Hs3 as [Hc3 Hd3]. clear Hserver.
  apply bind_inv_ok in Hrun. destruct Hrun as (zookper_count & s4 & Hreq2 & Hrun).
  apply jrequest_inv in Hreq2. destruct Hreq2 as [_ ->].
  apply bind_inv_ok in Hrun. destruct Hrun as (ok2 & s5 & Hok2 & Hrun).
  apply status_ok_inv in Hok2. destruct Hok2 as (-> & _ & _ & _).
  apply bind_inv_ok in Hrun. destruct Hrun as ([] & s6 & Hcount & Hrun).
  assert (Hs6 : calls s6 = S (S (calls s)) /\
                dict_jmx s6 !! "approximateDataSize" = dict_jmx s !! "approximateDataSize").
  { destruct ok2; inv_ok Hcount; cbn [calls dict_jmx]; rewrite ?Hc3; split;
      try reflexivity; rewrite <- Hd3; read_store. }
  destruct Hs6 as [Hc6 Hd6]. clear Hcount.
  apply bind_inv_ok in Hrun. destruct Hrun as (eph & s7 & Hreq3 & Hrun).
  apply jrequest_inv in Hreq3. destruct Hreq3 as [Heph ->].
  apply bind_inv_ok in Hrun. destruct Hrun as (ok3 & s8 & Hok3 & Hrun).
  apply status_ok_spec in Hok3. destruct Hok3 as (-> & Hok3).
  apply bind_inv_ok in Hrun. destruct Hrun as ([] & s9 & Heph_store & Hrun).
  apply bind_inv_ok in Hrun. destruct Hrun as (size & s10 & Hreq4 & Hrun).
  apply jrequest_inv in Hreq4. destruct Hreq4 as [Hsize ->].
  apply bind_inv_ok in Hrun. destruct Hrun as (ok4 & s11 & Hok4 & Hrun).
  apply status_ok_spec in Hok4. destruct Hok4 as (-> & Hok4).
  cbn [calls dict_jmx xlog] in *.
  assert (Hs9 : calls s9 = S (S (S (calls s))) /\
                dict_jmx s9 !! "approximateDataSize" = dict_jmx s !! "approximateDataSize" /\
                (accepted eph ->
                 exists v, py_getitem eph "value" = Ok v /\
                           dict_jmx s9 !! "countEphemerals" = Some v)).
  { destruct ok3.
    - apply store_inv in Heph_store. destruct Heph_store as (v & Hv & ->).
      cbn [calls dict_jmx]. split; [rewrite Hc6; reflexivity|].
      split; [rewrite <- Hd6; read_store|].
      intros _. exists v. split; [exact Hv|read_store].
    - apply ret_inv in Heph_store. destruct Heph_store as [_ ->].
      cbn [calls dict_jmx]. split; [rewrite Hc6; reflexivity|]. split; [exact Hd6|].
      intros Hacc. apply Hok3 in Hacc. discriminate. }
  destruct Hs9 as (Hc9 & Hd9 & Heph9). clear Heph_store.
  rewrite Hc6 in Heph. rewrite Hc9 in Hsize.
  destruct ok4.
  - apply store_inv in Hrun. destruct Hrun as (mb & Hmb & ->). cbn [calls dict_jmx].
    split; [rewrite Hc9; reflexivity|].
    exists eph, size. split; [exact Heph|]. split; [exact Hsize|].
    apply result_bind_inv in Hmb. destruct Hmb as (v & Hv & Hmb).
    split.
    + intros Hacc. destruct (Heph9 Hacc) as (v' & Hv' & Hd'). exists v'.
      split; [exact Hv'|]. rewrite <- Hd'. read_store.
    + split.
      * intros _. exists v, mb. split; [exact Hv|]. split; [exact Hmb|read_store].
      * intros Hna. exfalso. apply Hna. apply Hok4. reflexivity.
  - apply ret_inv in Hrun. destruct Hrun as [_ ->]. cbn [calls].
    split; [rewrite Hc9; reflexivity|].
    exists eph, size. split; [exact Heph|]. split; [exact Hsize|].
    split; [exact Heph9|]. split.
    + intros Hacc. apply Hok4 in Hacc. discriminate.
    + intros _. exact Hd9.
Qed.

Lemma data_size_from_ephemerals_witness :
  let s' := snd (add_zookeeper_parameters (VStr "2181") (client_zookeeper 100 50)
                   empty_record) in
  calls s' = (4 + calls empty_record)%nat /\
  exists eph size,
    client_zookeeper 100 50 (2 + calls empty_record)%nat
      (exec_op (data_tree_bean "2181") "countEphemerals") = Ok eph /\
    client_zookeeper 100 50 (3 + calls empty_record)%nat
      (exec_op (data_tree_bean "2181") "countEphemerals") = Ok size /\
    (accepted eph ->
     exists v, py_getitem eph "value" = Ok v /\ dict_jmx s' !! "countEphemerals" = Some v) /\
    (accepted size ->
     exists v mb, py_getitem size "value" = Ok v /\ bytes_to_mb v = Ok mb /\
                  dict_jmx s' !! "approximateDataSize" = Some mb) /\
    (~ accepted size ->
     dict_jmx s' !! "approximateDataSize" = dict_jmx empty_record !! "approximateDataSize").
Proof.
  apply (data_size_from_ephemerals "2181" (client_zookeeper 100 50) empty_record).
  vm_compute. reflexivity.
Defined.


(** * The fields of the collected categories *)

Section Preserves2.
Context {S : Type} (R : S -> S -> Prop) `{!Reflexive R} `{!Transitive R}.

Lemma preserves_bind_post {A B} (P : A -> Prop) (m : M S A) (k : A -> M S B) :
  preserves R m ->
  (forall s a s', m s = (Ok a, s') -> P a) ->
  (forall a, P a -> preserves R (k a)) ->
  preserves R (bind m k).
Proof.
  intros Hm HP Hk s. unfold bind. specialize (Hm s). specialize (HP s).
  destruct (m s) as [[a|e] s']; simpl in *.
  - transitivity s'; [assumption|]. apply Hk. eapply HP. reflexivity.
  - assumption.
Qed.

Lemma preserves_for_each_in {A} (l : list A) (body : A -> M S unit) :
  (forall x, In x l -> preserves R (body x)) -> preserves R (for_each l body).
Proof.
  induction l as [|x l IH]; intros Hb; simpl.
  - apply preserves_ret; exact _.
  - apply preserves_bind; try exact _.
    + apply Hb. left. reflexivity.
    + intros _. apply IH. intros y Hy. apply Hb. right. exact Hy.
Qed.

End Preserves2.

#[local] Instance only_writes_refl K : Reflexive (only_writes K).
Proof. intros s k _. reflexivity. Qed.

#[local] Instance only_writes_trans K : Transitive (only_writes K).
Proof. intros s1 s2 s3 H1 H2 k Hk. rewrite H2, H1 by exact Hk. reflexivity. Qed.

Lemma jrequest_writes K j r : preserves (only_writes K) (jrequest j r).
Proof. intros s k _. reflexivity. Qed.

Lemma xlog_add_writes K l m : preserves (only_writes K) (xlog_add l m).
Proof. intros s k _. reflexivity. Qed.

Lemma setitem_writes K k v : k ∈ K -> preserves (only_writes K) (setitem k v).
Proof.
  intros Hk s k' Hk'. simpl. apply lookup_insert_ne. intros ->. apply Hk'. exact Hk.
Qed.

Lemma store_writes K k e : k ∈ K -> preserves (only_writes K) (store k e).
Proof.
  intros Hk. unfold store. apply preserves_bind; try exact _.
  - apply preserves_lift; exact _.
  - intros v. apply setitem_writes. exact Hk.
Qed.

Lemma handle_neg_bytes_writes K v k : k ∈ K -> preserves (only_writes K) (handle_neg_bytes v k).
Proof.
  intros Hk. unfold handle_neg_bytes. destruct (py_eq v (VInt (-1))).
  - apply setitem_writes. exact Hk.
  - apply store_writes. exact Hk.
Qed.

Lemma status_ok_writes K json : preserves (only_writes K) (status_ok json).
Proof. unfold status_ok. repeat preserves_step. Qed.

Lemma is_valid_writes K json : preserves (only_writes K) (is_valid json).
Proof. unfold is_valid. repeat first [apply status_ok_writes | preserves_step]. Qed.

Lemma collect_names_writes K allow msg items :
  preserves (only_writes K) (collect_names allow msg items).
Proof.
  induction items as [|[k v] items IH]; cbn [collect_names].
  - repeat preserves_step.
  - repeat first [apply IH | apply xlog_add_writes | preserves_step].
Qed.

(** Membership of a literal key in a literal list *)
Ltac in_fields :=
  apply list_elem_of_In; vm_compute; tauto.

Ltac writes_step :=
  first
    [ apply jrequest_writes | apply xlog_add_writes
    | apply status_ok_writes | apply is_valid_writes | apply collect_names_writes
    | apply setitem_writes; in_fields
    | apply store_writes; in_fields
    | apply handle_neg_bytes_writes; in_fields
    | preserves_step ].

Lemma get_gc_names_writes K j : preserves (only_writes K) (get_gc_names j).
Proof. unfold get_gc_names. repeat writes_step. Qed.

Lemma get_memory_pool_names_writes K j : preserves (only_writes K) (get_memory_pool_names j).
Proof. unfold get_memory_pool_names. repeat writes_step. Qed.

Lemma accepted_dec (json : value) : accepted json \/ ~ accepted json.
Proof.
  unfold accepted. destruct (py_getitem json "status") as [st|e] eqn:Hst.
  - destruct (py_eq st (VInt 200)) eqn:H200.
    + left. exists st. auto.
    + right. intros (st' & [= <-] & H'). congruence.
  - right. intros (st' & [=] & _).
Qed.

Lemma get_gc_names_listed j s names s' :
  get_gc_names j s = (Ok names, s') -> forall n, In n names -> In n DEFAULT_GC.
Proof.
  intros Hrun n Hn. apply discovery_spec in Hrun.
  destruct Hrun as (json & _ & _ & _ & Hno & Hyes).
  destruct (accepted_dec json) as [Hacc|Hna].
  - destruct (Hyes Hacc) as (items & _ & -> & _).
    apply list_elem_of_In, listed_spec in Hn. tauto.
  - destruct (Hno Hna) as [-> _]. contradiction.
Qed.

Lemma get_memory_pool_names_listed j s names s' :
  get_memory_pool_names j s = (Ok names, s') -> forall n, In n names -> In n DEFAULT_MP.
Proof.
  intros Hrun n Hn. apply discovery_spec in Hrun.
  destruct Hrun as (json & _ & _ & _ & Hno & Hyes).
  destruct (accepted_dec json) as [Hacc|Hna].
  - destruct (Hyes Hacc) as (items & _ & -> & _).
    apply list_elem_of_In, listed_spec in Hn. tauto.
  - destruct (Hno Hna) as [-> _]. contradiction.
Qed.

Lemma jmxstats_gc_writes j n :
  In n DEFAULT_GC -> preserves (only_writes jmxstats_fields) (jmxstats_gc j n).
Proof.
  intros Hn. unfold DEFAULT_GC in Hn. cbn [In] in Hn.
  destruct Hn as [<-|[<-|[]]]; unfold jmxstats_gc; cbv zeta; repeat writes_step.
Qed.

Lemma jmxstats_pool_writes j n :
  In n DEFAULT_MP -> preserves (only_writes jmxstats_fields) (jmxstats_pool j n).
Proof.
  intros Hn. unfold DEFAULT_MP in Hn. cbn [In] in Hn.
  destruct Hn as [<-|[<-|[<-|[<-|[<-|[<-|[]]]]]]]; unfold jmxstats_pool; cbv zeta;
    repeat writes_step.
Qed.

Lemma jmxstats_head_writes j : preserves (only_writes jmxstats_fields) (jmxstats_head j).
Proof. unfold jmxstats_head. repeat writes_step. Qed.

Lemma jmxstats_defaults_writes : preserves (only_writes jmxstats_fields) jmxstats_defaults.
Proof.
  unfold jmxstats_defaults. apply preserves_for_each_in; try exact _.
  intros k Hk. apply setitem_writes. apply list_elem_of_In.
  unfold jmxstats_fields. apply in_or_app. right. exact Hk.
Qed.

Lemma add_jmxstats_parameters_writes j :
  preserves (only_writes jmxstats_fields) (add_jmxstats_parameters j).
Proof.
  unfold add_jmxstats_parameters.
  apply preserves_bind; try exact _; [apply jmxstats_head_writes|intros _].
  apply preserves_bind; try exact _; [apply jmxstats_defaults_writes|intros _].
  apply (preserves_bind_post _ (fun names => forall n, In n names -> In n DEFAULT_GC));
    [apply get_gc_names_writes|apply get_gc_names_listed|intros gc_names Hgc].
  apply preserves_bind; try exact _.
  { apply preserves_for_each_in; try exact _. intros n Hn. apply jmxstats_gc_writes; auto. }
  intros _.
  apply (preserves_bind_post _ (fun names => forall n, In n names -> In n DEFAULT_MP));
    [apply get_memory_pool_names_writes|apply get_memory_pool_names_listed
    |intros mp_names Hmp].
  apply preserves_for_each_in; try exact _. intros n Hn. apply jmxstats_pool_writes; auto.
Qed.

Lemma add_zookeeper_parameters_writes zk j :
  preserves (only_writes zookeeper_fields) (add_zookeeper_parameters zk j).
Proof. unfold add_zookeeper_parameters. repeat writes_step. Qed.

Lemma connection_available_writes K probe :
  preserves (only_writes K) (connection_available probe).
Proof. unfold connection_available. repeat preserves_step. Qed.

Lemma collected_category_writes a zk doc :
  In doc ZOOK_DOCS ->
  preserves (only_writes (fields_of doc)) (get_jmx_parameters a zk doc).
Proof.
  intros Hdoc. unfold ZOOK_DOCS in Hdoc. cbn [In] in Hdoc.
  destruct Hdoc as [<-|[<-|[]]]; unfold get_jmx_parameters;
    (apply preserves_bind; try exact _; [apply connection_available_writes|intros up]);
    destruct (negb up); try (apply preserves_ret; exact _);
    cbn [String.eqb Ascii.eqb Bool.eqb].
  - apply add_jmxstats_parameters_writes.
  - apply add_zookeeper_parameters_writes.
Qed.

Section Schema.
Context `{Constants}.

Lemma common_params_lookup_ne now doc d k :
  k ∉ common_names -> common_params now doc d !! k = d !! k.
Proof.
  intros Hk. unfold common_names in Hk. unfold common_params.
  rewrite !not_elem_of_cons in Hk. destruct Hk as (H1 & H2 & H3 & H4 & H5 & _).
  rewrite !lookup_insert_ne by congruence. reflexivity.
Qed.

(** X: the records a worker puts on the queue have a fixed set of field
    names: every field of a [jmxStats] record is one of the nine summary
    fields, one of the ten defaults or one of the five common parameters,
    and every field of a [zookeeperStats] record is one of the thirteen
    ZooKeeper fields or a common parameter, whatever the agent answers. *)
Theorem queued_records_have_fixed_fields (a : agent) (zk_port : value) (pid : string) :
  Forall (fun t => forall k, is_Some (tuple_record t !! k) ->
                     k ∈ fields_of (tuple_doc t) \/ k ∈ common_names)
         (fst (get_pid_jmx_stats a zk_port pid)).
Proof.
  unfold get_pid_jmx_stats.
  assert (Hgen : forall docs, (forall doc, In doc docs -> In doc ZOOK_DOCS) ->
            Forall (fun t => forall k, is_Some (tuple_record t !! k) ->
                       k ∈ fields_of (tuple_doc t) \/ k ∈ common_names)
                   (fst (get_pid_jmx_stats_docs a zk_port pid docs))).
  { induction docs as [|doc docs IH]; intros Hdocs; [constructor|].
    cbn [get_pid_jmx_stats_docs]. rewrite collect_doc_steps.
    pose proof (collected_category_writes a zk_port doc (Hdocs doc (or_introl eq_refl))
                  (XState ∅ 0 [])) as Hw.
    specialize (IH (fun d Hd => Hdocs d (or_intror Hd))).
    destruct (get_pid_jmx_stats_docs a zk_port pid docs) as [puts logs].
    cbn [fst] in IH.
    destruct (get_jmx_parameters a zk_port doc (XState ∅ 0 [])) as [[[]|e] s1];
      cbn [snd] in Hw; [|exact IH].
    destruct (Nat.eqb (size (dict_jmx s1)) 0); cbv zeta; cbn [fst app]; [exact IH|].
    constructor; [|exact IH].
    intros k Hk. unfold tuple_record, tuple_doc in *. cbn [fst snd] in *.
    destruct (decide (k ∈ common_names)) as [Hc|Hc]; [right; exact Hc|left].
    rewrite common_params_lookup_ne in Hk by exact Hc.
    destruct (decide (k ∈ fields_of doc)) as [Hf|Hf]; [exact Hf|].
    rewrite (Hw k Hf) in Hk. cbn [dict_jmx] in Hk. rewrite lookup_empty in Hk.
    destruct Hk as [v Hv]. discriminate. }
  apply Hgen. auto.
Qed.

End Schema.


(** * Thresholds of a memory pool *)

Ltac threshold_pair :=
  first
    [ right; split; read_store_under
    | left; eexists _, _;
      split; [read_store_under|];
      split; [eassumption|read_store_under] ].

(** X: [add_memory_pool_parameters] stores under [...UsageThresholdCount]
    the value of the attribute [UsageThreshold], not a count: whenever the
    threshold fields of a pool are written, the count field holds the
    threshold in bytes and the threshold field its conversion to megabytes.
    The same holds for the collection-usage threshold.  When they are not
    written, both fields are as before. *)
Theorem threshold_count_holds_threshold (j : client) (pool_name : string) (s s' : xstate) :
  memory_pool j pool_name s = (Ok tt, s') ->
  (count_is_threshold (dict_jmx s')
     (no_spaces pool_name +:+ "UsageThreshold")
     (no_spaces pool_name +:+ "UsageThresholdCount") \/
   pair_untouched (dict_jmx s) (dict_jmx s')
     (no_spaces pool_name +:+ "UsageThreshold")
     (no_spaces pool_name +:+ "UsageThresholdCount")) /\
  (count_is_threshold (dict_jmx s')
     (no_spaces pool_name +:+ "CollectionUsageThreshold")
     (no_spaces pool_name +:+ "CollectionUsageThresholdCount") \/
   pair_untouched (dict_jmx s) (dict_jmx s')
     (no_spaces pool_name +:+ "CollectionUsageThreshold")
     (no_spaces pool_name +:+ "CollectionUsageThresholdCount")).
Proof.
  intros Hrun. unfold count_is_threshold, pair_untouched.
  unfold memory_pool in Hrun. cbv zeta in Hrun.
  apply bind_inv_ok in Hrun. destruct Hrun as (valid & s1 & Hreq & Hrun).
  apply jrequest_inv in Hreq. destruct Hreq as [Hvalid ->].
  apply bind_inv_ok in Hrun. destruct Hrun as (ok & s2 & Hok & Hrun).
  apply is_valid_inv in Hok. destruct Hok as (-> & Hok).
  destruct ok; [|inv_ok Hrun; split; right; split; reflexivity].
  unfold pool_usage in Hrun.
  inv_ok Hrun.
  all: repeat match goal with
              | H : result_bind _ bytes_to_mb = Ok _ |- _ =>
                  apply result_bind_inv in H; destruct H as (? & ? & ?)
              end.
  all: repeat match goal with
              | H1 : ?e = Ok ?a, H2 : ?e = Ok ?b |- _ =>
                  assert (b = a) by congruence; subst b; clear H2
              end.
  all: norm_keys; split; threshold_pair.
Qed.

Lemma threshold_count_holds_threshold_witness :
  let s' := snd (memory_pool client_thresholds "G1 Old Gen" empty_record) in
  (count_is_threshold (dict_jmx s')
     (no_spaces "G1 Old Gen" +:+ "UsageThreshold")
     (no_spaces "G1 Old Gen" +:+ "UsageThresholdCount") \/
   pair_untouched (dict_jmx empty_record) (dict_jmx s')
     (no_spaces "G1 Old Gen" +:+ "UsageThreshold")
     (no_spaces "G1 Old Gen" +:+ "UsageThresholdCount")) /\
  (count_is_threshold (dict_jmx s')
     (no_spaces "G1 Old Gen" +:+ "CollectionUsageThreshold")
     (no_spaces "G1 Old Gen" +:+ "CollectionUsageThresholdCount") \/
   pair_untouched (dict_jmx empty_record) (dict_jmx s')
     (no_spaces "G1 Old Gen" +:+ "CollectionUsageThreshold")
     (no_spaces "G1 Old Gen" +:+ "CollectionUsageThresholdCount")).
Proof.
  apply (threshold_count_holds_threshold client_thresholds "G1 Old Gen" empty_record).
  vm_compute. reflexivity.
Defined.

(** With a usage threshold of 3 MB crossed 7 times, the count field reads
    3145728 and the threshold field 3.0. *)
Example threshold_count_sample :
  let s' := snd (memory_pool client_thresholds "G1 Old Gen" empty_record) in
  dict_jmx s' !! "G1OldGenUsageThresholdCount" = Some (VInt 3145728) /\
  dict_jmx s' !! "G1OldGenUsageThreshold" = Some (VFloat 3).
Proof. split; vm_compute; reflexivity. Qed.


(** * Dispatching a record *)

(** X: [dispatch_data].  A record of another category than zookeeperStats
    is sent as it is.  A zookeeperStats record is sent without its two raw
    counters when it has both; when [packetsSent] is missing the KeyError
    leaves everything as it was; when only [packetsReceived] is missing the
    KeyError escapes after [packetsSent] has been deleted from the record.
    Nothing is logged or dispatched when it raises. *)
Theorem dispatch_data_spec (doc : string) (r : loc) (d : gmap string value) (s : state) :
  heap s !! r = Some d ->
  dispatch_data doc r s =
    if String.eqb doc "zookeeperStats" then
      match d !! "packetsSent", d !! "packetsReceived" with
      | None, _ => (Raise (KeyError "packetsSent"), s)
      | Some _, None =>
          (Raise (KeyError "packetsReceived"), set_heap <[r := delete "packetsSent" d]> s)
      | Some _, Some _ =>
          (Ok tt, delivered doc (stripped doc d) (set_heap <[r := stripped doc d]> s))
      end
    else (Ok tt, delivered doc d s).
Proof.
  intros Hr. unfold dispatch_data, stripped.
  destruct (String.eqb doc "zookeeperStats") eqn:Hdoc.
  - cbn [for_each].
    destruct (d !! "packetsSent") as [v1|] eqn:H1.
    + assert (Hr1 : heap (set_heap <[r := delete "packetsSent" d]> s) !! r =
                    Some (delete "packetsSent" d)) by (simpl; apply lookup_insert_eq).
      destruct (d !! "packetsReceived") as [v2|] eqn:H2.
      * erewrite bind_ok.
        2:{ erewrite bind_ok by (eapply dict_del_present; eauto).
            erewrite bind_ok.
            2:{ eapply dict_del_present; [exact Hr1|].
                rewrite lookup_delete_ne by discriminate. exact H2. }
            reflexivity. }
        unfold bind, log_add, modify, deref, utils_dispatch, get_state, ret, delivered,
          with_log, set_dispatched, set_log, set_heap. cbn.
        rewrite !lookup_total_insert_eq, insert_insert_eq, <- app_assoc. reflexivity.
      * erewrite bind_raise; [reflexivity|].
        erewrite bind_ok by (eapply dict_del_present; eauto).
        erewrite bind_raise; [reflexivity|].
        eapply dict_del_absent; [exact Hr1|].
        rewrite lookup_delete_ne by discriminate. exact H2.
    + erewrite bind_raise; [reflexivity|].
      erewrite bind_raise; [reflexivity|]. eapply dict_del_absent; eauto.
  - unfold bind, log_add, modify, deref, utils_dispatch, get_state, ret, delivered,
      with_log, set_dispatched, set_log, set_heap. cbn.
    rewrite (lookup_total_correct _ _ _ Hr), <- app_assoc. reflexivity.
Qed.

Lemma dispatch_data_spec_witness :
  dispatch_data "zookeeperStats" 0%nat sample_state =
    (Ok tt, delivered "zookeeperStats" (stripped "zookeeperStats" sample_first)
              (set_heap <[0%nat := stripped "zookeeperStats" sample_first]> sample_state)).
Proof.
  apply (dispatch_data_spec "zookeeperStats" 0%nat sample_first sample_state).
  reflexivity.
Defined.

(** * What a cycle keeps *)

#[local] Instance grows_refl : Reflexive grows.
Proof. intros s. unfold grows. repeat split; reflexivity. Qed.

#[local] Instance grows_trans : Transitive grows.
Proof.
  intros s1 s2 s3 (A1 & A2 & A3 & A4 & A5) (B1 & B2 & B3 & B4 & B5).
  unfold grows. repeat split; try congruence; etransitivity; eassumption.
Qed.

Lemma set_log_grows added : preserves grows (modify (set_log (fun lg => lg ++ added))).
Proof.
  intros s. unfold grows. simpl. repeat split; try reflexivity.
  apply prefix_app_r. reflexivity.
Qed.

Lemma log_add_grows l m : preserves grows (log_add l m).
Proof. apply set_log_grows. Qed.

Lemma set_heap_grows f : preserves grows (modify (set_heap f)).
Proof. intros s. unfold grows. simpl. repeat split; reflexivity. Qed.

Lemma set_prev_data_grows pid r : preserves grows (modify (set_prev_data <[pid := r]>)).
Proof.
  intros s. unfold grows. simpl. repeat split; try reflexivity.
  rewrite dom_insert. set_solver.
Qed.

Lemma set_dispatched_grows d : preserves grows (modify (set_dispatched (fun l => l ++ [d]))).
Proof.
  intros s. unfold grows. simpl. repeat split; try reflexivity.
  apply prefix_app_r. reflexivity.
Qed.

Lemma set_output_grows q n : preserves grows (modify (set_output q n)).
Proof. intros s. unfold grows. simpl. repeat split; reflexivity. Qed.

Ltac grows_step :=
  first
    [ apply log_add_grows | apply set_log_grows | apply set_heap_grows
    | apply set_prev_data_grows | apply set_dispatched_grows | apply set_output_grows
    | preserves_step ].

Lemma deref_grows r : preserves grows (deref r).
Proof. unfold deref. repeat grows_step. Qed.

Lemma alloc_grows d : preserves grows (alloc d).
Proof. unfold alloc. repeat grows_step. Qed.

Lemma dict_set_grows r k v : preserves grows (dict_set r k v).
Proof. unfold dict_set. repeat grows_step. Qed.

Lemma dict_del_grows r k : preserves grows (dict_del r k).
Proof. unfold dict_del. repeat grows_step. Qed.

Lemma utils_dispatch_grows r : preserves grows (utils_dispatch r).
Proof. unfold utils_dispatch. repeat first [apply deref_grows | grows_step]. Qed.

Ltac grows_step' :=
  first
    [ apply deref_grows | apply alloc_grows | apply dict_set_grows | apply dict_del_grows
    | apply utils_dispatch_grows | grows_step ].

Lemma dispatch_data_grows doc r : preserves grows (dispatch_data doc r).
Proof. unfold dispatch_data. repeat grows_step'. Qed.

Lemma get_pid_grows h : preserves grows (get_pid h).
Proof. unfold get_pid. repeat grows_step'. Qed.

Lemma get_pid_port_grows h pid : preserves grows (get_pid_port h pid).
Proof. unfold get_pid_port, run_jolokia_cmd, get_uid. repeat grows_step'. Qed.

Section Cycle.
Context `{Constants}.

Lemma get_rate_grows key curr prev : preserves grows (get_rate key curr prev).
Proof. unfold get_rate. cbv zeta. repeat grows_step'. Qed.

Lemma add_rate_grows pid r : preserves grows (add_rate pid r).
Proof. unfold add_rate, prev_of. repeat first [apply get_rate_grows | grows_step']. Qed.

Lemma add_rate_dispatch_grows pid doc r : preserves grows (add_rate_dispatch pid doc r).
Proof.
  unfold add_rate_dispatch, add_default_rate_value, deepcopy. cbv zeta.
  repeat first [apply add_rate_grows | apply dispatch_data_grows | grows_step'].
Qed.

Lemma start_workers_grows h pids : preserves grows (start_workers h pids).
Proof.
  induction pids as [|pid pids IH]; cbn [start_workers].
  - repeat grows_step'.
  - repeat first [apply IH | apply get_pid_port_grows | grows_step'].
Qed.

Lemma drain_one_grows doc : preserves grows (drain_one doc).
Proof.
  unfold drain_one, get_nowait.
  repeat first
    [ apply preserves_try_except; try exact _; [|intros ?]
    | apply add_rate_dispatch_grows | apply dispatch_data_grows | grows_step' ].
Qed.

(** X: however a cycle ends, it keeps the interval and the port, never
    removes a process id from [prev_data] (the entry of a process that has
    gone stays), and only appends to the log and to the records given to the
    collector. *)
Theorem collect_jmx_data_grows (h : host) (s : state) :
  grows s (snd (collect_jmx_data h s)).
Proof.
  revert s. change (preserves grows (collect_jmx_data h)).
  unfold collect_jmx_data, check_prerequiste, run_pid_process, drain.
  repeat first
    [ apply get_pid_grows | apply start_workers_grows | apply drain_one_grows
    | grows_step' ].
Qed.

End Cycle.


(** * Rates of a later poll *)

Section LaterPoll.
Context `{Constants}.

Lemma size_nonzero k (d : gmap string value) :
  is_Some (d !! k) -> Nat.eqb (size d) 0 = false.
Proof.
  intros [v Hv]. destruct (Nat.eqb (size d) 0) eqn:E; [|reflexivity].
  apply size_zero_empty in E. subst d. rewrite lookup_empty in Hv. discriminate.
Qed.

Lemma has_key_true k (d : gmap string value) v : d !! k = Some v -> has_key k d = true.
Proof. unfold has_key. intros ->. reflexivity. Qed.

(** [get_rate] past its guards: the quotient, and nothing logged *)
Lemma get_rate_defined key curr p s pv ct pt ctq ptq :
  p !! key = Some pv ->
  curr !! TIMESTAMP = Some ct -> p !! TIMESTAMP = Some pt ->
  as_num ct = Some ctq -> as_num pt = Some ptq -> (ptq < ctq)%Q ->
  get_rate key curr (Some p) s = (rate_value key curr p (interval s), s).
Proof.
  intros Hpv Hct Hpt Hctq Hptq Hlt. unfold get_rate. cbv zeta.
  rewrite (size_nonzero key p) by eauto.
  rewrite (has_key_true _ _ _ Hpv), (has_key_true _ _ _ Hct), (has_key_true _ _ _ Hpt).
  cbn [negb orb]. unfold bind, lift, dict_get. rewrite Hct, Hpt.
  unfold py_le. rewrite (py_cmp_num _ _ _ _ Hctq Hptq). cbn [result_bind].
  apply Qgt_alt in Hlt. rewrite Hlt.
  unfold rate_value, dict_get. rewrite Hpv.
  destruct (curr !! key) as [c|]; [|reflexivity]. cbn [result_bind].
  destruct (py_sub c pv) as [diff|e]; [|reflexivity]. cbn [result_bind].
  unfold get_state.
  destruct (py_div_float diff (interval s)) as [rate|e]; [|reflexivity].
  cbn [result_bind].
  destruct (py_lt rate (VInt 0)) as [[]|e]; reflexivity.
Qed.

Lemma clamped_rate_not_nan c p i :
  as_num NAN = None -> py_eq (clamped_rate c p i) NAN = false.
Proof.
  intros Hnan. unfold clamped_rate. cbv zeta.
  destruct (Qred ((c - p) / i) ?= 0)%Q; destruct NAN; simpl in *; try reflexivity;
    discriminate.
Qed.

Lemma clamped_rate_rounded c p i :
  py_round (clamped_rate c p i) FLOATING_FACTOR = Ok (rate_field c p i).
Proof.
  unfold clamped_rate, rate_field, py_round. cbv zeta.
  destruct (Qred ((c - p) / i) ?= 0)%Q eqn:Hcmp; cbn [as_num].
  - apply Qeq_alt in Hcmp. rewrite Qred_correct in Hcmp.
    assert (Hle : Qle_bool 0 ((c - p) / i) = true).
    { apply Qle_bool_iff. rewrite Hcmp. apply Qle_refl. }
    rewrite Hle. do 2 f_equal. apply round_q_comp. apply Qred_correct.
  - apply Qlt_alt in Hcmp. rewrite Qred_correct in Hcmp.
    assert (Hle : Qle_bool 0 ((c - p) / i) = false).
    { destruct (Qle_bool 0 ((c - p) / i)) eqn:E; [|reflexivity].
      apply Qle_bool_iff in E. exfalso. exact (Qlt_not_le _ _ Hcmp E). }
    rewrite Hle. reflexivity.
  - apply Qgt_alt in Hcmp. rewrite Qred_correct in Hcmp.
    assert (Hle : Qle_bool 0 ((c - p) / i) = true).
    { apply Qle_bool_iff. apply Qlt_le_weak. exact Hcmp. }
    rewrite Hle. do 2 f_equal. apply round_q_comp. apply Qred_correct.
Qed.

Lemma prev_of_lookup pid pr s : prev_data s !! pid = Some pr -> prev_of pid s = (Ok pr, s).
Proof. intros Hp. unfold prev_of, bind, get_state. rewrite Hp. reflexivity. Qed.

Lemma num_at_insert_ne k k' v (d : gmap string value) :
  k <> k' -> num_at k' (<[k := v]> d) = num_at k' d.
Proof. intros Hne. unfold num_at. rewrite lookup_insert_ne by exact Hne. reflexivity. Qed.

(** The rate step of a later poll whose samples are in order *)
Lemma add_rate_defined pid r pr curr prev s ct pt ctq ptq cr cs p_r p_s :
  as_num NAN = None ->
  prev_data s !! pid = Some pr -> heap s !! pr = Some prev -> heap s !! r = Some curr ->
  TIMESTAMP <> "packetsReceivedRate" ->
  curr !! TIMESTAMP = Some ct -> prev !! TIMESTAMP = Some pt ->
  as_num ct = Some ctq -> as_num pt = Some ptq -> (ptq < ctq)%Q ->
  curr !! "packetsReceived" = Some cr -> prev !! "packetsReceived" = Some p_r ->
  curr !! "packetsSent" = Some cs -> prev !! "packetsSent" = Some p_s ->
  is_number cr = true -> is_number p_r = true ->
  is_number cs = true -> is_number p_s = true ->
  ~ (interval s == 0)%Q ->
  add_rate pid r s =
    (Ok tt,
     set_heap <[r := with_rates
                       (rate_field (num_at "packetsReceived" curr)
                                   (num_at "packetsReceived" prev) (interval s))
                       (rate_field (num_at "packetsSent" curr)
                                   (num_at "packetsSent" prev) (interval s))
                       curr]> s).
Proof.
  intros Hnan Hpid Hpr Hr Hts Hct Hpt Hctq Hptq Hlt Hcr Hp_r Hcs Hp_s Ncr Np_r Ncs Np_s Hi.
  assert (Hne : r <> pr).
  { intros ->. rewrite Hr in Hpr. injection Hpr as <-.
    rewrite Hct in Hpt. injection Hpt as <-. rewrite Hctq in Hptq. injection Hptq as <-.
    exact (Qlt_irrefl _ Hlt). }
  unfold add_rate.
  erewrite bind_ok by (apply deref_lookup; exact Hr).
  erewrite bind_ok by (apply prev_of_lookup; exact Hpid).
  erewrite bind_ok by (apply deref_lookup; exact Hpr).
  erewrite bind_ok.
  2:{ erewrite get_rate_defined by eassumption.
      rewrite (rate_value_numbers _ _ _ _ _ _ Hcr Hp_r Ncr Np_r Hi). reflexivity. }
  rewrite clamped_rate_not_nan by exact Hnan. cbn [negb].
  erewrite bind_ok.
  2:{ erewrite bind_ok by (unfold lift; rewrite clamped_rate_rounded; reflexivity).
      apply dict_set_lookup. exact Hr. }
  set (v1 := rate_field (num_at "packetsReceived" curr) (num_at "packetsReceived" prev)
               (interval s)).
  set (s1 := set_heap <[r := <["packetsReceivedRate" := v1]> curr]> s).
  assert (Hr1 : heap s1 !! r = Some (<["packetsReceivedRate" := v1]> curr))
    by (simpl; apply lookup_insert_eq).
  assert (Hpr1 : heap s1 !! pr = Some prev)
    by (simpl; rewrite lookup_insert_ne by exact Hne; exact Hpr).
  erewrite bind_ok by (apply deref_lookup; exact Hr1).
  erewrite bind_ok by (apply prev_of_lookup; exact Hpid).
  erewrite bind_ok by (apply deref_lookup; exact Hpr1).
  erewrite bind_ok.
  2:{ erewrite get_rate_defined;
        [|exact Hp_s|rewrite lookup_insert_ne by congruence; exact Hct
         |exact Hpt|exact Hctq|exact Hptq|exact Hlt].
      erewrite rate_value_numbers;
        [|rewrite lookup_insert_ne by discriminate; exact Hcs|exact Hp_s
         |exact Ncs|exact Np_s|exact Hi].
      rewrite num_at_insert_ne by discriminate. reflexivity. }
  rewrite clamped_rate_not_nan by exact Hnan. cbn [negb].
  erewrite bind_ok by (unfold lift; rewrite clamped_rate_rounded; reflexivity).
  erewrite dict_set_lookup by exact Hr1.
  unfold with_rates, s1, set_heap. cbn. rewrite insert_insert_eq. reflexivity.
Qed.

(** X: a later poll of a process whose previous sample is older.  Both
    samples hold numeric counters and timestamps, the current timestamp is
    greater, and the interval is not zero: [add_rate_dispatch] stores in the
    sample, for each counter, the difference divided by the interval, a
    negative quotient replaced by 0, rounded to [FLOATING_FACTOR] decimals;
    the sample replaces the previous one in [prev_data], and a copy of it
    without the raw counters is dispatched. *)
Theorem later_poll_rates (pid : string) (r pr : loc) (curr prev : gmap string value)
    (s : state) (ct pt cr cs p_r p_s : value) (ctq ptq : Q) :
  as_num NAN = None ->
  prev_data s !! pid = Some pr -> heap s !! pr = Some prev -> heap s !! r = Some curr ->
  TIMESTAMP <> "packetsReceivedRate" ->
  curr !! TIMESTAMP = Some ct -> prev !! TIMESTAMP = Some pt ->
  as_num ct = Some ctq -> as_num pt = Some ptq -> (ptq < ctq)%Q ->
  curr !! "packetsReceived" = Some cr -> prev !! "packetsReceived" = Some p_r ->
  curr !! "packetsSent" = Some cs -> prev !! "packetsSent" = Some p_s ->
  is_number cr = true -> is_number p_r = true ->
  is_number cs = true -> is_number p_s = true ->
  ~ (interval s == 0)%Q ->
  let rated :=
    with_rates
      (rate_field (num_at "packetsReceived" curr) (num_at "packetsReceived" prev)
         (interval s))
      (rate_field (num_at "packetsSent" curr) (num_at "packetsSent" prev) (interval s))
      curr in
  exists s',
    add_rate_dispatch pid "zookeeperStats" r s = (Ok tt, s') /\
    prev_data s' = <[pid := r]> (prev_data s) /\
    heap s' !! r = Some rated /\
    dispatched s' = dispatched s ++ [stripped "zookeeperStats" rated].
Proof.
  intros Hnan Hpid Hpr Hr Hts Hct Hpt Hctq Hptq Hlt Hcr Hp_r Hcs Hp_s Ncr Np_r Ncs Np_s Hi
    rated.
  rewrite add_rate_dispatch_steps. unfold rate_step.
  rewrite bool_decide_eq_true_2 by (apply elem_of_dom; eauto).
  erewrite add_rate_defined by eassumption. fold rated.
  cbv zeta. cbn [heap set_heap].
  rewrite lookup_total_insert_eq.
  set (s2 := set_prev_data <[pid := r]> (set_heap <[r := rated]> s)).
  set (copy := fresh (dom (heap s2))).
  set (s3 := set_heap <[copy := rated]> s2).
  assert (Hcopy : copy <> r).
  { apply (fresh_ne r rated). simpl. apply lookup_insert_eq. }
  assert (Hc3 : heap s3 !! copy = Some rated) by (simpl; apply lookup_insert_eq).
  destruct (dispatch_data_ok "zookeeperStats" copy rated s3 Hc3) as (s' & E & Hd & Hp & Hh).
  { right. unfold rated, with_rates.
    rewrite !lookup_insert_ne by discriminate. rewrite Hcs, Hcr. eauto. }
  exists s'. split; [exact E|]. split; [rewrite Hp; reflexivity|].
  split; [|rewrite Hd; reflexivity].
  rewrite Hh. rewrite lookup_insert_ne by exact Hcopy.
  simpl. rewrite lookup_insert_ne by exact Hcopy. apply lookup_insert_eq.
Qed.

#[local] Instance logs_only_refl : Reflexive logs_only.
Proof. intros s. exists []. symmetry. apply with_log_nil. Qed.

#[local] Instance logs_only_trans : Transitive logs_only.
Proof.
  intros s1 s2 s3 [l1 ->] [l2 ->]. exists (l1 ++ l2). apply with_log_app.
Qed.

Lemma log_add_logs_only l m : preserves logs_only (log_add l m).
Proof. intros s. exists [(l, m)]. reflexivity. Qed.

Lemma get_rate_logs_only key curr prev : preserves logs_only (get_rate key curr prev).
Proof. unfold get_rate. cbv zeta. repeat first [apply log_add_logs_only | preserves_step]. Qed.

Lemma get_rate_undefined key curr prev s :
  numeric_at TIMESTAMP curr -> numeric_at TIMESTAMP prev ->
  rate_undefined key curr (Some prev) ->
  exists lines, get_rate key curr (Some prev) s = (Ok NAN, with_log lines s).
Proof.
  intros Hc Hp Hu.
  destruct (get_rate_logs_only key curr (Some prev) s) as [lines Hlines].
  exists lines.
  destruct (get_rate_cases key curr (Some prev) s Hc) as [[_ Hres]|[Hd _]];
    [intros p [= <-]; exact Hp| |contradiction].
  destruct (get_rate key curr (Some prev) s) as [res s1]. cbn [fst snd] in *.
  congruence.
Qed.

(** X: a later poll for which no rate can be computed (the previous sample
    is empty or lacks the counter, a timestamp is missing, or the current
    timestamp is not greater than the previous one).  [add_rate] writes no
    rate field and changes nothing but the log; the sample replaces the
    previous one as it is, and the record dispatched is the sample without
    the raw counters: it carries no rate field unless the sample had one. *)
Theorem undefined_rates_leave_sample (pid : string) (r pr : loc)
    (curr prev : gmap string value) (s : state) :
  py_eq NAN NAN = true ->
  prev_data s !! pid = Some pr -> heap s !! pr = Some prev -> heap s !! r = Some curr ->
  numeric_at TIMESTAMP curr -> numeric_at TIMESTAMP prev ->
  rate_undefined "packetsReceived" curr (Some prev) ->
  rate_undefined "packetsSent" curr (Some prev) ->
  (exists lines, add_rate pid r s = (Ok tt, with_log lines s)) /\
  forall doc,
    let out := add_rate_dispatch pid doc r s in
    prev_data (snd out) !! pid = Some r /\
    heap (snd out) !! r = Some curr /\
    (fst out = Ok tt -> dispatched (snd out) = dispatched s ++ [stripped doc curr]).
Proof.
  intros Hnan Hpid Hpr Hr Hc Hp U1 U2.
  assert (Hrate : exists lines, add_rate pid r s = (Ok tt, with_log lines s)).
  { unfold add_rate.
    erewrite bind_ok by (apply deref_lookup; exact Hr).
    erewrite bind_ok by (apply prev_of_lookup; exact Hpid).
    erewrite bind_ok by (apply deref_lookup; exact Hpr).
    destruct (get_rate_undefined "packetsReceived" curr prev s Hc Hp U1) as [l1 E1].
    erewrite bind_ok by exact E1. rewrite Hnan. cbn [negb].
    erewrite bind_ok by reflexivity.
    erewrite bind_ok by (apply deref_lookup; exact Hr).
    erewrite bind_ok by (apply prev_of_lookup; exact Hpid).
    erewrite bind_ok by (apply deref_lookup; exact Hpr).
    destruct (get_rate_undefined "packetsSent" curr prev (with_log l1 s) Hc Hp U2)
      as [l2 E2].
    erewrite bind_ok by exact E2. rewrite Hnan. cbn [negb].
    exists (l1 ++ l2). unfold ret. rewrite with_log_app. reflexivity. }
  split; [exact Hrate|]. destruct Hrate as [lines Hrate].
  intros doc out. subst out.
  rewrite add_rate_dispatch_steps. unfold rate_step.
  rewrite bool_decide_eq_true_2 by (apply elem_of_dom; eauto).
  rewrite Hrate. cbv zeta. cbn [heap with_log set_log].
  rewrite (lookup_total_correct _ _ _ Hr).
  set (s2 := set_prev_data <[pid := r]> (with_log lines s)).
  set (copy := fresh (dom (heap s2))).
  set (s3 := set_heap <[copy := curr]> s2).
  assert (Hcopy : copy <> r) by (apply (fresh_ne r curr); exact Hr).
  assert (Hc3 : heap s3 !! copy = Some curr) by (simpl; apply lookup_insert_eq).
  destruct (dispatch_data_cases doc copy curr s3 Hc3) as (Hpd & Hh & Hdis).
  split; [rewrite Hpd; simpl; apply lookup_insert_eq|].
  split.
  { rewrite Hh by congruence. simpl. rewrite lookup_insert_ne by exact Hcopy. exact Hr. }
  intros Hok. destruct Hdis as [[_ Hd]|[Hne _]]; [exact Hd|contradiction].
Qed.

(** X: a plugin whose interval is 0.  On a later poll with samples in
    order and numeric counters, the quotient raises ZeroDivisionError; it
    escapes [add_rate_dispatch] before anything is stored, logged or
    dispatched, so [prev_data] keeps the old sample. *)
Theorem zero_interval_raises (pid : string) (r pr : loc) (curr prev : gmap string value)
    (s : state) (ct pt cr p_r : value) (ctq ptq : Q) (doc : string) :
  prev_data s !! pid = Some pr -> heap s !! pr = Some prev -> heap s !! r = Some curr ->
  curr !! TIMESTAMP = Some ct -> prev !! TIMESTAMP = Some pt ->
  as_num ct = Some ctq -> as_num pt = Some ptq -> (ptq < ctq)%Q ->
  curr !! "packetsReceived" = Some cr -> prev !! "packetsReceived" = Some p_r ->
  is_number cr = true -> is_number p_r = true ->
  (interval s == 0)%Q ->
  add_rate_dispatch pid doc r s = (Raise ZeroDivisionError, s).
Proof.
  intros Hpid Hpr Hr Hct Hpt Hctq Hptq Hlt Hcr Hp_r Ncr Np_r Hi.
  rewrite add_rate_dispatch_steps. unfold rate_step.
  rewrite bool_decide_eq_true_2 by (apply elem_of_dom; eauto).
  assert (Hrate : add_rate pid r s = (Raise ZeroDivisionError, s)).
  { unfold add_rate.
    erewrite bind_ok by (apply deref_lookup; exact Hr).
    erewrite bind_ok by (apply prev_of_lookup; exact Hpid).
    erewrite bind_ok by (apply deref_lookup; exact Hpr).
    erewrite bind_raise; [reflexivity|].
    erewrite get_rate_defined by eassumption.
    unfold rate_value, dict_get. rewrite Hcr, Hp_r. cbn [result_bind].
    destruct (is_number_as_num _ Ncr) as [cq Hcq].
    destruct (is_number_as_num _ Np_r) as [pq Hpq].
    destruct (py_sub_num _ _ _ _ Hcq Hpq) as (d & dq & Hsub & Hdq & _).
    rewrite Hsub. cbn [result_bind]. unfold py_div_float. rewrite Hdq.
    apply Qeq_bool_iff in Hi. rewrite Hi. reflexivity. }
  rewrite Hrate. reflexivity.
Qed.

End LaterPoll.

Lemma later_poll_rates_witness :
  let rated :=
    with_rates
      (rate_field (H := sample_constants) (num_at "packetsReceived" sample_second)
         (num_at "packetsReceived" (with_default_rates sample_first))
         (interval sample_later_state))
      (rate_field (H := sample_constants) (num_at "packetsSent" sample_second)
         (num_at "packetsSent" (with_default_rates sample_first))
         (interval sample_later_state))
      sample_second in
  exists s',
    add_rate_dispatch (H := sample_constants) "111" "zookeeperStats" 1%nat sample_later_state
      = (Ok tt, s') /\
    prev_data s' = <["111" := 1%nat]> (prev_data sample_later_state) /\
    heap s' !! 1%nat = Some rated /\
    dispatched s' = dispatched sample_later_state ++ [stripped "zookeeperStats" rated].
Proof.
  apply (later_poll_rates (H := sample_constants) "111" 1%nat 0%nat sample_second
           (with_default_rates sample_first) sample_later_state
           (VInt 1060) (VInt 1000) (VInt 160) (VInt 80) (VInt 100) (VInt 50)
           (inject_Z 1060) (inject_Z 1000));
    try reflexivity.
  - discriminate.
  - intros E. vm_compute in E. discriminate E.
Defined.

(** The rates of the scenario: 60 packets received and 30 sent in 60 seconds *)
Example later_poll_rates_scenario :
  rate_field (H := sample_constants) (num_at "packetsReceived" sample_second)
    (num_at "packetsReceived" (with_default_rates sample_first)) 60 = VFloat 1 /\
  rate_field (H := sample_constants) (num_at "packetsSent" sample_second)
    (num_at "packetsSent" (with_default_rates sample_first)) 60 = VFloat (1 # 2).
Proof. split; vm_compute; reflexivity. Qed.

Lemma undefined_rates_leave_sample_witness :
  (exists lines,
     add_rate (H := sample_constants) "111" 1%nat sample_stale_state =
       (Ok tt, with_log lines sample_stale_state)) /\
  forall doc,
    let out := add_rate_dispatch (H := sample_constants) "111" doc 1%nat sample_stale_state in
    prev_data (snd out) !! "111" = Some 1%nat /\
    heap (snd out) !! 1%nat = Some sample_first /\
    (fst out = Ok tt ->
     dispatched (snd out) = dispatched sample_stale_state ++ [stripped doc sample_first]).
Proof.
  apply (undefined_rates_leave_sample (H := sample_constants) "111" 1%nat 0%nat
           sample_first (with_default_rates sample_first) sample_stale_state);
    try reflexivity.
  - intros v Hv. vm_compute in Hv. injection Hv as <-. reflexivity.
  - intros v Hv. vm_compute in Hv. injection Hv as <-. reflexivity.
  - do 4 right. vm_compute. discriminate.
  - do 4 right. vm_compute. discriminate.
Defined.

Lemma zero_interval_raises_witness :
  add_rate_dispatch (H := sample_constants) "111" "zookeeperStats" 1%nat
    sample_zero_interval_state = (Raise ZeroDivisionError, sample_zero_interval_state).
Proof.
  apply (zero_interval_raises (H := sample_constants) "111" 1%nat 0%nat sample_second
           (with_default_rates sample_first) sample_zero_interval_state
           (VInt 1060) (VInt 1000) (VInt 160) (VInt 100)
           (inject_Z 1060) (inject_Z 1000) "zookeeperStats");
    reflexivity.
Defined.


(** * The drain is first in, first out *)

Section Fifo.
Context `{Constants}.

Lemma add_rate_dispatch_sends pid r d s s' :
  heap s !! r = Some d ->
  add_rate_dispatch pid "zookeeperStats" r s = (Ok tt, s') ->
  exists sent,
    dispatched s' = dispatched s ++ [sent] /\
    sent !! "packetsReceived" = None /\ sent !! "packetsSent" = None /\
    forall k, k ∉ rate_keys -> sent !! k = d !! k.
Proof.
  intros Hr Hrun. rewrite add_rate_dispatch_steps in Hrun.
  pose proof (rate_step_frame r pid s) as F.
  destruct (rate_step pid r s) as [[[]|e] s1]; [|discriminate]. simpl in F.
  destruct F as (_ & _ & _ & Fd & _ & _ & Fr & _ & Fk).
  destruct (Fr (ex_intro _ d Hr)) as [d1 Hd1].
  rewrite (lookup_total_correct _ _ _ Hd1) in Hrun, Fk.
  rewrite (lookup_total_correct _ _ _ Hr) in Fk.
  cbv zeta in Hrun.
  match type of Hrun with
  | dispatch_data _ ?c ?s3 = _ =>
      assert (Hc : heap s3 !! c = Some d1) by (simpl; apply lookup_insert_eq);
      destruct (dispatch_data_cases "zookeeperStats" c d1 s3 Hc) as (_ & _ & [[_ Hd]|[Hne _]])
  end.
  2:{ rewrite Hrun in Hne. contradiction. }
  rewrite Hrun in Hd. simpl in Hd. rewrite Fd in Hd.
  exists (stripped "zookeeperStats" d1). split; [exact Hd|].
  unfold stripped. cbn [String.eqb Ascii.eqb Bool.eqb].
  split; [apply lookup_delete_eq|].
  split; [rewrite lookup_delete_ne by discriminate; apply lookup_delete_eq|].
  intros k Hk. unfold rate_keys in Hk.
  rewrite !not_elem_of_cons in Hk. destruct Hk as (K1 & K2 & K3 & K4 & _).
  rewrite !lookup_delete_ne by congruence. apply Fk; assumption.
Qed.

Lemma dispatch_data_sends doc r d s s' :
  heap s !! r = Some d ->
  String.eqb doc "zookeeperStats" = false ->
  dispatch_data doc r s = (Ok tt, s') ->
  dispatched s' = dispatched s ++ [d].
Proof.
  intros Hr Hdoc Hrun.
  destruct (dispatch_data_cases doc r d s Hr) as (_ & _ & [[_ Hd]|[Hne _]]).
  - rewrite Hrun in Hd. simpl in Hd. unfold stripped in Hd. rewrite Hdoc in Hd. exact Hd.
  - rewrite Hrun in Hne. contradiction.
Qed.

(** One completed iteration of the inner loop *)
Lemma drain_one_fifo doc s s' :
  drain_one doc s = (Ok tt, s') ->
  output s' = drop 1 (output s) /\
  exists sent,
    dispatched s' = dispatched s ++ sent /\
    Forall2 sent_for (take 1 (output s)) sent.
Proof.
  unfold drain_one. intros Hrun.
  destruct (output s) as [|[[pid doc_name] doc_result] q] eqn:Hout.
  - erewrite bind_ok in Hrun.
    2:{ unfold try_except.
        erewrite bind_raise by (apply get_nowait_empty; exact Hout). reflexivity. }
    apply ret_inv in Hrun. destruct Hrun as [_ ->]. simpl.
    split; [reflexivity|]. exists []. split; [symmetry; apply app_nil_r|constructor].
  - erewrite bind_ok in Hrun.
    2:{ unfold try_except.
        erewrite bind_ok by (apply get_nowait_cons; exact Hout). reflexivity. }
    cbv beta iota in Hrun.
    set (s0 := set_output q (Datatypes.S (pulls s)) s) in *.
    destruct (alloc_lookup doc_result s0) as (r & Halloc & Hr).
    rewrite (bind_ok _ _ _ _ _ Halloc) in Hrun.
    set (s1 := set_heap <[r := doc_result]> s0) in *.
    cbn [drop take].
    destruct (String.eqb doc_name "zookeeperStats") eqn:Hdoc.
    + pose proof (add_rate_dispatch_queue_frame pid doc_name r s1) as F.
      rewrite Hrun in F. destruct F as (Fo & _ & _).
      split; [exact Fo|].
      apply String.eqb_eq in Hdoc. subst doc_name.
      destruct (add_rate_dispatch_sends pid r doc_result s1 s' Hr Hrun)
        as (sent & Hd & H1 & H2 & Hk).
      exists [sent]. split; [exact Hd|].
      constructor; [|constructor]. unfold sent_for, tuple_doc, tuple_record. cbn. auto.
    + pose proof (dispatch_data_queue_frame doc_name r s1) as F.
      rewrite Hrun in F. destruct F as (Fo & _ & _).
      split; [exact Fo|].
      exists [doc_result].
      split; [exact (dispatch_data_sends doc_name r doc_result s1 s' Hr Hdoc Hrun)|].
      constructor; [|constructor]. unfold sent_for, tuple_doc, tuple_record. cbn.
      rewrite Hdoc. reflexivity.
Qed.

Lemma drain_docs_fifo (docs : list string) s s' :
  for_each docs drain_one s = (Ok tt, s') ->
  output s' = drop (length docs) (output s) /\
  exists sent,
    dispatched s' = dispatched s ++ sent /\
    Forall2 sent_for (take (length docs) (output s)) sent.
Proof.
  revert s. induction docs as [|doc docs IH]; intros s Hrun.
  - apply ret_inv in Hrun. destruct Hrun as [_ ->]. simpl.
    split; [reflexivity|]. exists []. split; [symmetry; apply app_nil_r|constructor].
  - cbn [for_each] in Hrun.
    apply bind_inv_ok in Hrun. destruct Hrun as ([] & s1 & Hone & Hrun).
    apply drain_one_fifo in Hone. destruct Hone as (Ho & sent1 & Hd & Hf).
    apply IH in Hrun. destruct Hrun as (Ho' & sent2 & Hd' & Hf').
    rewrite Ho in Ho', Hf'. rewrite drop_drop in Ho'.
    split; [exact Ho'|].
    exists (sent1 ++ sent2). split; [rewrite Hd', Hd, app_assoc; reflexivity|].
    change (length (doc :: docs)) with (1 + length docs)%nat.
    rewrite <- take_take_drop. apply Forall2_app; assumption.
Qed.

(** X: a drain that completes serves the queue first in, first out.  With
    [n] the number of workers times the number of categories, the first [n]
    tuples leave the queue in order and the rest stays; for each of them one
    record is dispatched, in the same order: the queued record itself, or
    for zookeeperStats the queued record with rate fields attached and the
    raw counters removed. *)
Theorem drain_fifo {A} (procs : list A) (s s' : state) :
  drain procs s = (Ok tt, s') ->
  let n := (length procs * length ZOOK_DOCS)%nat in
  output s' = drop n (output s) /\
  exists sent,
    dispatched s' = dispatched s ++ sent /\
    Forall2 sent_for (take n (output s)) sent.
Proof.
  unfold drain. cbv zeta. revert s. induction procs as [|p procs IH]; intros s Hrun.
  - apply ret_inv in Hrun. destruct Hrun as [_ ->]. simpl.
    split; [reflexivity|]. exists []. split; [symmetry; apply app_nil_r|constructor].
  - cbn [for_each] in Hrun.
    apply bind_inv_ok in Hrun. destruct Hrun as ([] & s1 & Hdocs & Hrun).
    apply drain_docs_fifo in Hdocs. destruct Hdocs as (Ho & sent1 & Hd & Hf).
    apply IH in Hrun. destruct Hrun as (Ho' & sent2 & Hd' & Hf').
    rewrite Ho in Ho', Hf'. rewrite drop_drop in Ho'.
    change (length (p :: procs) * length ZOOK_DOCS)%nat
      with (length ZOOK_DOCS + length procs * length ZOOK_DOCS)%nat.
    split; [exact Ho'|].
    exists (sent1 ++ sent2). split; [rewrite Hd', Hd, app_assoc; reflexivity|].
    rewrite <- take_take_drop. apply Forall2_app; assumption.
Qed.

End Fifo.

Lemma drain_fifo_witness :
  let s' := snd (drain (H := sample_constants) [tt; tt] sample_queue_state) in
  let n := (length [tt; tt] * length ZOOK_DOCS)%nat in
  output s' = drop n (output sample_queue_state) /\
  exists sent,
    dispatched s' = dispatched sample_queue_state ++ sent /\
    Forall2 sent_for (take n (output sample_queue_state)) sent.
Proof.
  apply (drain_fifo (H := sample_constants) [tt; tt] sample_queue_state).
  vm_compute. reflexivity.
Defined.


From Stdlib Require Import Lqa.

(** * Accuracy of the conversion to megabytes *)

Lemma round_half_away_near (x : Q) :
  (- (1 # 2) <= inject_Z (round_half_away x) - x <= 1 # 2)%Q.
Proof.
  unfold round_half_away. destruct (Qle_bool 0 x).
  - pose proof (Qfloor_le (x + (1 # 2))) as H1.
    pose proof (Qlt_floor (x + (1 # 2))) as H2.
    rewrite inject_Z_plus in H2. change (inject_Z 1) with 1%Q in H2. lra.
  - pose proof (Qfloor_le (- x + (1 # 2))) as H1.
    pose proof (Qlt_floor (- x + (1 # 2))) as H2.
    rewrite inject_Z_plus in H2. change (inject_Z 1) with 1%Q in H2.
    rewrite inject_Z_opp. lra.
Qed.

Lemma round_half_away_nonneg (x : Q) : (0 <= x)%Q -> 0 <= round_half_away x.
Proof.
  intros Hx. unfold round_half_away.
  assert (Hle : Qle_bool 0 x = true) by (apply Qle_bool_iff; exact Hx).
  rewrite Hle. change 0 with (Qfloor 0). apply Qfloor_resp_le. lra.
Qed.

Lemma round_q_2 (x : Q) :
  (round_q x 2 == inject_Z (round_half_away (x * 100)) / 100)%Q.
Proof. unfold round_q. cbn [Z.leb Z.compare]. apply Qred_correct. Qed.

(** X: the conversion of a byte count to megabytes.  A number other than
    the sentinel -1 is stored as a float with two decimals that differs from
    [value / 1048576] by at most 0.005, and that is not negative when the
    value is not. *)
Theorem megabytes_are_accurate (v : value) (q : Q) (k : string) (s : xstate) :
  as_num v = Some q -> ~ (q == -1)%Q ->
  exists mb,
    handle_neg_bytes v k s =
      (Ok tt, XState (<[k := VFloat mb]> (dict_jmx s)) (calls s) (xlog s)) /\
    (- (1 # 200) <= mb - q / 1048576 <= 1 # 200)%Q /\
    (exists z, mb == inject_Z z / 100)%Q /\
    ((0 <= q)%Q -> (0 <= mb)%Q).
Proof.
  intros Hq Hne. exists (round_q (q / 1024 / 1024) 2).
  split.
  { rewrite (handle_neg_bytes_number v q k s Hq).
    destruct (Qeq_bool q (-1)) eqn:E; [|reflexivity].
    apply Qeq_bool_iff in E. contradiction. }
  pose proof (round_half_away_near (q / 1024 / 1024 * 100)) as Hnear.
  pose proof (round_half_away_nonneg (q / 1024 / 1024 * 100)) as Hsign.
  pose proof (round_q_2 (q / 1024 / 1024)) as Hround.
  set (z := round_half_away (q / 1024 / 1024 * 100)) in *. clearbody z.
  split; [|split; [exists z; exact Hround|]].
  - rewrite Hround. unfold Qdiv in *.
    setoid_replace (/ 100)%Q with (1 # 100)%Q using relation Qeq by reflexivity.
    setoid_replace (/ 1048576)%Q with (1 # 1048576)%Q using relation Qeq by reflexivity.
    setoid_replace (/ 1024)%Q with (1 # 1024)%Q using relation Qeq in Hnear by reflexivity.
    lra.
  - intros Hpos.
    assert (Hz : (0 <= inject_Z z)%Q).
    { change 0%Q with (inject_Z 0). rewrite <- Zle_Qle. apply Hsign.
      unfold Qdiv. setoid_replace (/ 1024)%Q with (1 # 1024)%Q using relation Qeq by reflexivity. lra. }
    rewrite Hround.
    unfold Qdiv. setoid_replace (/ 100)%Q with (1 # 100)%Q using relation Qeq by reflexivity. lra.
Qed.

Lemma megabytes_are_accurate_witness :
  exists mb,
    handle_neg_bytes (VInt 3145728) "heapMemoryUsageInit" empty_record =
      (Ok tt, XState (<["heapMemoryUsageInit" := VFloat mb]> (dict_jmx empty_record))
                (calls empty_record) (xlog empty_record)) /\
    (- (1 # 200) <= mb - 3145728 / 1048576 <= 1 # 200)%Q /\
    (exists z, mb == inject_Z z / 100)%Q /\
    ((0 <= 3145728)%Q -> (0 <= mb)%Q).
Proof.
  apply (megabytes_are_accurate (VInt 3145728) 3145728%Q "heapMemoryUsageInit" empty_record).
  - reflexivity.
  - intros E. vm_compute in E. discriminate E.
Defined.

(** * [''.join(s.split())] *)

Lemma concat_empty_cons (x : string) (l : list string) :
  String.concat "" (x :: l) = x +:+ String.concat "" l.
Proof. destruct l; cbn [String.concat]; [rewrite append_nil_r|]; reflexivity. Qed.

Lemma concat_split_ws_from (s cur : string) :
  String.concat "" (split_ws_from s cur) = cur +:+ no_spaces s.
Proof.
  revert cur. induction s as [|c s IH]; intros cur.
  - cbn [split_ws_from no_spaces]. rewrite append_nil_r.
    destruct (String.eqb cur "") eqn:E; [|reflexivity].
    apply String.eqb_eq in E. subst cur. reflexivity.
  - cbn [split_ws_from no_spaces]. destruct (is_space c).
    + destruct (String.eqb cur "") eqn:E.
      * apply String.eqb_eq in E. subst cur. apply IH.
      * rewrite concat_empty_cons, IH. reflexivity.
    + rewrite IH, snoc_append. reflexivity.
Qed.

Lemma no_spaces_all (s : string) : all_chars not_space (no_spaces s) = true.
Proof.
  induction s as [|c s IH]; [reflexivity|]. cbn [no_spaces].
  destruct (is_space c) eqn:Hc; [exact IH|].
  rewrite all_chars_cons, IH. unfold not_space. rewrite Hc. reflexivity.
Qed.

Lemma no_spaces_id (s : string) : all_chars not_space s = true -> no_spaces s = s.
Proof.
  induction s as [|c s IH]; [reflexivity|]. rewrite all_chars_cons.
  intros Hs. apply andb_prop in Hs. destruct Hs as [Hc Hs].
  unfold not_space in Hc. apply negb_true_iff in Hc.
  cbn [no_spaces]. rewrite Hc, IH by exact Hs. reflexivity.
Qed.

(** X: the key prefix made from a discovered name, [''.join(name.split())],
    is the name with its blanks removed: joining the words of [split()]
    gives the characters of the name that are not blanks, in order; the
    result holds no blank, and a name without blanks is its own prefix. *)
Theorem joined_words_drop_blanks (s : string) :
  String.concat "" (split_ws s) = no_spaces s /\
  all_chars not_space (no_spaces s) = true /\
  (all_chars not_space s = true -> no_spaces s = s).
Proof.
  split; [apply (concat_split_ws_from s "")|].
  split; [apply no_spaces_all|apply no_spaces_id].
Qed.


(** * The configuration callback *)

Section Config.
Context `{ConfigKeys}.

(** One child that is not malformed: each field whose key matches gets the
    first value. *)
Lemma config_child_ok (c : child) (c0 : settings) :
  malformed c = false ->
  config_child c c0 =
    (Ok tt,
     Settings (default (cfg_interval c0) (child_setting INTERVAL c))
              (default (cfg_listenerip c0) (child_setting LISTENERIP c))
              (default (cfg_process c0) (child_setting PROCESS c))
              (default (cfg_port c0) (child_setting PORT c))).
Proof.
  unfold malformed, config_child, child_setting. cbn [existsb].
  destruct c as [k vs]. cbn [child_key child_values].
  destruct vs as [|v vs].
  - rewrite andb_true_r, !orb_false_iff. intros (-> & -> & -> & -> & _).
    destruct c0. reflexivity.
  - intros _. unfold py_index. cbn [lookup list_lookup head].
    destruct c0 as [i l p pt].
    destruct (String.eqb k INTERVAL), (String.eqb k PROCESS), (String.eqb k LISTENERIP),
      (String.eqb k PORT); reflexivity.
Qed.

Lemma config_child_malformed (c : child) (c0 : settings) :
  malformed c = true -> fst (config_child c c0) = Raise IndexError.
Proof.
  unfold malformed, config_child. cbn [existsb].
  destruct c as [k vs]. cbn [child_key child_values].
  destruct vs as [|v vs]; [|rewrite andb_false_r; discriminate].
  rewrite andb_true_r, orb_false_r. intros Hk.
  destruct (String.eqb k INTERVAL); [reflexivity|].
  destruct (String.eqb k PROCESS); [reflexivity|].
  destruct (String.eqb k LISTENERIP); [reflexivity|].
  destruct (String.eqb k PORT); [reflexivity|discriminate].
Qed.

Lemma configured_cons (c : child) (cfg : list child) (c0 : settings) :
  configured cfg
    (Settings (default (cfg_interval c0) (child_setting INTERVAL c))
              (default (cfg_listenerip c0) (child_setting LISTENERIP c))
              (default (cfg_process c0) (child_setting PROCESS c))
              (default (cfg_port c0) (child_setting PORT c)))
  = configured (c :: cfg) c0.
Proof.
  unfold configured. cbn [last_setting cfg_interval cfg_listenerip cfg_process cfg_port].
  destruct (last_setting INTERVAL cfg), (last_setting LISTENERIP cfg),
    (last_setting PROCESS cfg), (last_setting PORT cfg); reflexivity.
Qed.

(** X: [config].  When every child with one of the four keys has a value,
    each field ends as the first value of the last child with its key, and
    is left as it was when no child has its key; children with other keys
    are ignored.  A child with one of the four keys and no value raises
    IndexError. *)
Theorem config_last_wins (cfg_children : list child) (c0 : settings) :
  if existsb malformed cfg_children
  then fst (config cfg_children c0) = Raise IndexError
  else config cfg_children c0 = (Ok tt, configured cfg_children c0).
Proof.
  unfold config. revert c0.
  induction cfg_children as [|c cfg IH]; intros c0.
  - destruct c0. reflexivity.
  - cbn [existsb for_each]. destruct (malformed c) eqn:Hc; cbn [orb].
    + pose proof (config_child_malformed c c0 Hc) as Hraise.
      unfold bind. destruct (config_child c c0) as [[[]|e] c1]; cbn [fst] in *;
        [discriminate|exact Hraise].
    + erewrite bind_ok by (apply config_child_ok; exact Hc).
      specialize (IH (Settings (default (cfg_interval c0) (child_setting INTERVAL c))
                        (default (cfg_listenerip c0) (child_setting LISTENERIP c))
                        (default (cfg_process c0) (child_setting PROCESS c))
                        (default (cfg_port c0) (child_setting PORT c)))).
      destruct (existsb malformed cfg); [exact IH|].
      rewrite IH, configured_cons. reflexivity.
Qed.

End Config.

(** The sample block: the second interval wins, the port stays [None]. *)
Example config_sample_block :
  config (H := sample_keys) sample_block (settings_init (H := sample_constants)) =
    (Ok tt, Settings (VFloat 60) (VStr "localhost") (VStr "zookeeper") VNone).
Proof. reflexivity. Qed.


(** * Lost results and failed categories *)

Lemma lost_results_append (a b : list log_entry) :
  lost_results (a ++ b) = (lost_results a + lost_results b)%nat.
Proof. unfold lost_results. rewrite List.filter_app, length_app. reflexivity. Qed.

Lemma lost_results_unsupported (added : list log_entry) :
  Forall unsupported_line added -> lost_results added = 0%nat.
Proof.
  induction 1 as [|e added He _ IH]; [reflexivity|].
  change (e :: added) with ([e] ++ added). rewrite lost_results_append, IH.
  destruct He as [name [-> | ->]]; reflexivity.
Qed.

#[local] Instance quiet_refl : Reflexive quiet.
Proof. intros s. split; reflexivity. Qed.

#[local] Instance quiet_trans : Transitive quiet.
Proof. intros s1 s2 s3 [A1 A2] [B1 B2]. split; congruence. Qed.

#[local] Instance same_doc_errors_refl : Reflexive same_doc_errors.
Proof. intros s. reflexivity. Qed.

#[local] Instance same_doc_errors_trans : Transitive same_doc_errors.
Proof. intros s1 s2 s3 A B. unfold same_doc_errors in *. congruence. Qed.

Lemma log_add_quiet l m :
  doc_errors [(l, m)] = 0%nat -> lost_results [(l, m)] = 0%nat ->
  preserves quiet (log_add l m).
Proof.
  intros H1 H2 s. split; simpl.
  - rewrite doc_errors_app, H1. lia.
  - rewrite lost_results_append, H2. lia.
Qed.

Lemma log_add_same_doc_errors l m :
  doc_errors [(l, m)] = 0%nat -> preserves same_doc_errors (log_add l m).
Proof. intros H1 s. unfold same_doc_errors. simpl. rewrite doc_errors_app, H1. lia. Qed.

Lemma modify_same_doc_errors (f : state -> state) :
  (forall s, log (f s) = log s) -> preserves same_doc_errors (modify f).
Proof. intros Hf s. unfold same_doc_errors. simpl. rewrite Hf. reflexivity. Qed.

Ltac quiet_step :=
  first [ apply log_add_quiet; reflexivity | preserves_step ].

Ltac same_step :=
  first [ apply log_add_same_doc_errors; reflexivity
        | apply modify_same_doc_errors; intros ?; reflexivity
        | preserves_step ].

Lemma get_pid_quiet h : preserves quiet (get_pid h).
Proof. unfold get_pid. repeat quiet_step. Qed.

Lemma get_pid_port_quiet h pid : preserves quiet (get_pid_port h pid).
Proof. unfold get_pid_port, run_jolokia_cmd, get_uid. repeat quiet_step. Qed.

Lemma check_prerequiste_quiet h : preserves quiet (check_prerequiste h).
Proof. unfold check_prerequiste. repeat quiet_step. Qed.

Section Accounts.
Context `{Constants}.

(** A worker logs no lost-result line. *)
Lemma worker_logs_no_lost_result a zk pid docs :
  lost_results (snd (get_pid_jmx_stats_docs a zk pid docs)) = 0%nat.
Proof.
  induction docs as [|doc docs IH]; [reflexivity|].
  cbn [get_pid_jmx_stats_docs]. rewrite collect_doc_steps.
  pose proof (extraction_extends a zk doc (XState ∅ 0 [])) as E.
  destruct (get_pid_jmx_stats_docs a zk pid docs) as [puts logs]. cbn [snd] in IH.
  destruct (get_jmx_parameters a zk doc (XState ∅ 0 [])) as [[[]|e] s1];
    cbn [snd] in E; destruct E as (_ & _ & added & Hlog & Hadded);
    cbn [xlog app] in Hlog.
  - destruct (Nat.eqb (size (dict_jmx s1)) 0); cbv zeta; cbn [snd xlog];
      rewrite Hlog, !lost_results_append, (lost_results_unsupported _ Hadded), IH;
      reflexivity.
  - cbn [snd xlog].
    rewrite Hlog, !lost_results_append, (lost_results_unsupported _ Hadded), IH.
    reflexivity.
Qed.

Lemma worker_doc_errors a zk pid :
  let out := get_pid_jmx_stats a zk pid in
  (length (fst out) <= length ZOOK_DOCS)%nat /\
  doc_errors (snd out) = (length ZOOK_DOCS - length (fst out))%nat.
Proof.
  cbv zeta. unfold get_pid_jmx_stats.
  assert (Hgen : forall docs,
            (length (fst (get_pid_jmx_stats_docs a zk pid docs))
             + doc_errors (snd (get_pid_jmx_stats_docs a zk pid docs)) = length docs)%nat).
  { induction docs as [|doc docs IH]; [reflexivity|].
    cbn [get_pid_jmx_stats_docs]. rewrite collect_doc_steps.
    pose proof (extraction_extends a zk doc (XState ∅ 0 [])) as E.
    destruct (get_pid_jmx_stats_docs a zk pid docs) as [puts logs]. cbn [fst snd] in IH.
    destruct (get_jmx_parameters a zk doc (XState ∅ 0 [])) as [[[]|e] s1];
      cbn [snd] in E; destruct E as (_ & _ & added & Hlog & Hadded);
      cbn [xlog app] in Hlog.
    - destruct (Nat.eqb (size (dict_jmx s1)) 0); cbv zeta; cbn [fst snd xlog];
        rewrite Hlog, !doc_errors_app, (doc_errors_unsupported _ Hadded);
        cbn [app length]; simpl; lia.
    - cbn [fst snd xlog].
      rewrite Hlog, !doc_errors_app, (doc_errors_unsupported _ Hadded).
      cbn [app length]. simpl. lia. }
  specialize (Hgen ZOOK_DOCS). lia.
Qed.

(** The first loop of [run_pid_process]: the per-category error lines it
    adds are those of the categories its workers did not put. *)
Lemma start_workers_accounts h pids s procs s' :
  start_workers h pids s = (Ok procs, s') ->
  doc_errors (log s') = (doc_errors (log s) + uncollected procs)%nat /\
  lost_results (log s') = lost_results (log s) /\
  (length procs * length ZOOK_DOCS
   = length (List.concat procs) + uncollected procs)%nat.
Proof.
  revert s procs s'. induction pids as [|pid pids IH]; intros s procs s' Hrun.
  - apply ret_inv in Hrun. destruct Hrun as [-> ->].
    change (uncollected []) with 0%nat. simpl. lia.
  - cbn [start_workers] in Hrun.
    apply bind_inv_ok in Hrun. destruct Hrun as (pt & s1 & Hport & Hrun).
    pose proof (get_pid_port_quiet h pid s) as Q. rewrite Hport in Q.
    destruct Q as [Q1 Q2]. cbn [snd] in Q1, Q2.
    destruct (truthy pt).
    + apply bind_inv_ok in Hrun. destruct Hrun as (s1' & s2 & Hget & Hrun).
      unfold get_state in Hget. injection Hget as <- <-.
      pose proof (worker_doc_errors (agent_of h pid) (port s1) pid) as Hw.
      pose proof (worker_logs_no_lost_result (agent_of h pid) (port s1) pid ZOOK_DOCS) as Hl.
      fold (get_pid_jmx_stats (agent_of h pid) (port s1) pid) in Hl.
      destruct (get_pid_jmx_stats (agent_of h pid) (port s1) pid) as [puts logged].
      cbv zeta in Hw. cbn [fst snd] in Hw, Hl. destruct Hw as [Hlen Herr].
      apply bind_inv_ok in Hrun. destruct Hrun as ([] & s3 & Hmod & Hrun).
      unfold modify in Hmod. injection Hmod as <-.
      apply bind_inv_ok in Hrun. destruct Hrun as (rest & s4 & Hrest & Hrun).
      apply ret_inv in Hrun. destruct Hrun as [-> ->].
      apply IH in Hrest. destruct Hrest as (R1 & R2 & R3). cbn [log set_log] in R1, R2.
      rewrite doc_errors_app in R1. rewrite lost_results_append in R2.
      change (uncollected (puts :: rest))
        with ((length ZOOK_DOCS - length puts) + uncollected rest)%nat.
      cbn [List.concat length]. rewrite length_app.
      split; [lia|]. split; [lia|]. lia.
    + apply IH in Hrun. destruct Hrun as (R1 & R2 & R3). split; [lia|]. split; [lia|exact R3].
Qed.

Lemma deref_same_doc_errors r : preserves same_doc_errors (deref r).
Proof. unfold deref. repeat same_step. Qed.

Lemma dispatch_data_same_doc_errors doc r : preserves same_doc_errors (dispatch_data doc r).
Proof.
  unfold dispatch_data, dict_del, utils_dispatch.
  repeat first [apply deref_same_doc_errors | same_step].
Qed.

Lemma get_rate_same_doc_errors key curr prev :
  preserves same_doc_errors (get_rate key curr prev).
Proof. unfold get_rate. cbv zeta. repeat same_step. Qed.

Lemma add_rate_dispatch_same_doc_errors pid doc r :
  preserves same_doc_errors (add_rate_dispatch pid doc r).
Proof.
  unfold add_rate_dispatch, add_rate, add_default_rate_value, deepcopy, alloc, dict_set,
    prev_of.
  cbv zeta.
  repeat first
    [ apply deref_same_doc_errors | apply get_rate_same_doc_errors
    | apply dispatch_data_same_doc_errors | same_step ].
Qed.

Lemma drain_same_doc_errors {A} (procs : list A) : preserves same_doc_errors (drain procs).
Proof.
  unfold drain, drain_one, get_nowait, alloc.
  repeat first
    [ apply preserves_try_except; try exact _; [|intros ?]
    | apply add_rate_dispatch_same_doc_errors | apply dispatch_data_same_doc_errors
    | same_step ].
Qed.

Lemma drain_lost_results {A} (procs : list A) (s s' : state) :
  drain procs s = (Ok tt, s') ->
  lost_results (log s') =
    (lost_results (log s) + (length procs * length ZOOK_DOCS - length (output s)))%nat.
Proof.
  unfold drain. revert s. induction procs as [|p procs IH]; intros s Hrun.
  - apply ret_inv in Hrun. destruct Hrun as [_ ->]. simpl. lia.
  - cbn [for_each] in Hrun.
    apply bind_inv_ok in Hrun. destruct Hrun as ([] & s1 & Hdocs & Hrun).
    apply drain_docs_counts in Hdocs. destruct Hdocs as (_ & Ho & Hl & _).
    apply IH in Hrun. rewrite Hrun, Hl, Ho. cbn [length]. lia.
Qed.

(** X: in a cycle that completes, with a queue that delivers everything the
    workers put, the lost-result lines of the drain are as many as the
    categories the workers failed to collect: the cycle adds the same number
    of "Failed to send" lines as of per-category error lines. *)
Theorem lost_results_match_failed_categories (h : host) (s s' : state) :
  collect_jmx_data h s = (Ok tt, s') ->
  (forall puts, deliver h puts = List.concat puts) ->
  (lost_results (log s') + doc_errors (log s)
   = lost_results (log s) + doc_errors (log s'))%nat.
Proof.
  intros Hrun Hdeliver. unfold collect_jmx_data in Hrun.
  apply bind_inv_ok in Hrun. destruct Hrun as (root & s1 & Hroot & Hrun).
  pose proof (check_prerequiste_quiet h s) as Q0. rewrite Hroot in Q0.
  destruct Q0 as [Q01 Q02]. cbn [snd] in Q01, Q02.
  destruct root; cbn [negb] in Hrun.
  2:{ apply ret_inv in Hrun. destruct Hrun as [_ ->]. lia. }
  apply bind_inv_ok in Hrun. destruct Hrun as (list_pid & s2 & Hpid & Hrun).
  pose proof (get_pid_quiet h s1) as Q1. rewrite Hpid in Q1.
  destruct Q1 as [Q11 Q12]. cbn [snd] in Q11, Q12.
  assert (Hnone : log_add LError MsgNoProcess s2 = (Ok tt, s') ->
            (lost_results (log s') + doc_errors (log s)
             = lost_results (log s) + doc_errors (log s'))%nat).
  { intros [= <-]. cbn [log set_log].
    rewrite doc_errors_app, lost_results_append.
    change (lost_results [(LError, MsgNoProcess)]) with 0%nat.
    change (doc_errors [(LError, MsgNoProcess)]) with 0%nat. lia. }
  destruct list_pid as [[|pid pids]|]; [exact (Hnone Hrun)| |exact (Hnone Hrun)].
  clear Hnone. unfold run_pid_process in Hrun.
  apply bind_inv_ok in Hrun. destruct Hrun as (procs & s3 & Hjoin & Hrun).
  apply bind_inv_ok in Hjoin. destruct Hjoin as (procs' & s4 & Hstart & Hjoin).
  apply bind_inv_ok in Hjoin. destruct Hjoin as ([] & s5 & Hset & Hjoin).
  apply ret_inv in Hjoin. destruct Hjoin as [-> ->].
  unfold modify in Hset. injection Hset as <-.
  apply start_workers_accounts in Hstart. destruct Hstart as (W1 & W2 & W3).
  pose proof (drain_same_doc_errors procs' (set_output (deliver h procs') 0 s4)) as D.
  rewrite Hrun in D. unfold same_doc_errors in D. cbn [snd log set_output] in D.
  apply drain_lost_results in Hrun. cbn [log output set_output] in Hrun.
  rewrite Hdeliver in Hrun. lia.
Qed.

End Accounts.

Lemma lost_results_match_failed_categories_witness :
  let s' := snd (collect_jmx_data (H := sample_constants) host_no_zookeeper sample_plugin) in
  (lost_results (log s') + doc_errors (log sample_plugin)
   = lost_results (log sample_plugin) + doc_errors (log s'))%nat.
Proof.
  apply (lost_results_match_failed_categories (H := sample_constants) host_no_zookeeper
           sample_plugin).
  - vm_compute. reflexivity.
  - intros puts. reflexivity.
Defined.

(** In the sample cycle one category is not collected and one result is lost. *)
Example one_failed_category :
  let s' := snd (collect_jmx_data (H := sample_constants) host_no_zookeeper sample_plugin) in
  doc_errors (log s') = 1%nat /\ lost_results (log s') = 1%nat /\
  length (dispatched s') = 1%nat.
Proof. repeat split; vm_compute; reflexivity. Qed.


(** * Cycles that start no worker *)

Section EarlyExit.
Context `{Constants}.

Lemma no_words (lines : list string) :
  Forall (fun l => l = "") lines ->
  existsb (fun l => nonempty l && blank l) lines = false /\ omap first_word lines = [].
Proof.
  induction 1 as [|l lines -> _ [IH1 IH2]]; [split; reflexivity|].
  split; [exact IH1|]. rewrite omap_cons_first_word. exact IH2.
Qed.

(** X: the cycles in which [collect_jmx_data] returns before starting a
    worker.  Without root privileges it logs one error; when the jcmd
    pipeline wrote to stderr it logs that error and "no processes"; when the
    pipeline printed nothing but empty lines it logs "no processes".  In
    each case it returns normally and nothing else changes: no record is
    dispatched and the rate state is as before. *)
Theorem cycle_without_workers (h : host) (s : state) :
  (euid h <> 0 ->
   collect_jmx_data h s = (Ok tt, with_log [(LError, MsgNotRoot)] s)) /\
  (euid h = 0 -> nonempty (snd (pid_cmd h)) = true ->
   collect_jmx_data h s =
     (Ok tt, with_log [(LError, MsgPidError (snd (pid_cmd h))); (LError, MsgNoProcess)] s)) /\
  (euid h = 0 -> nonempty (snd (pid_cmd h)) = false ->
   Forall (fun l => l = "") (splitlines (fst (pid_cmd h))) ->
   collect_jmx_data h s = (Ok tt, with_log [(LError, MsgNoProcess)] s)).
Proof.
  unfold collect_jmx_data, check_prerequiste.
  split; [|split].
  - intros Hroot. apply Z.eqb_neq in Hroot. rewrite Hroot. reflexivity.
  - intros Hroot Herr. rewrite Hroot. cbn [Z.eqb negb].
    erewrite bind_ok by reflexivity. cbn [negb].
    pose proof (get_pid_cases h s) as Hpid.
    destruct (pid_cmd h) as [out err]. cbn [snd] in Herr. cbv zeta in Hpid.
    rewrite Herr in Hpid. erewrite bind_ok by exact Hpid. cbv beta iota.
    rewrite log_add_with_log. apply (f_equal (pair (Ok tt))).
    apply (with_log_app [(LError, MsgPidError err)] [(LError, MsgNoProcess)] s).
  - intros Hroot Herr Hlines. rewrite Hroot. cbn [Z.eqb negb].
    erewrite bind_ok by reflexivity. cbn [negb].
    pose proof (get_pid_cases h s) as Hpid.
    destruct (pid_cmd h) as [out err]. cbn [fst snd] in Herr, Hlines. cbv zeta in Hpid.
    destruct (no_words _ Hlines) as [Hb Hw].
    rewrite Herr, Hb, Hw in Hpid. erewrite bind_ok by exact Hpid. cbv beta iota.
    apply log_add_with_log.
Qed.

End EarlyExit.

